(** * FPGA loader: the configuration sequencer of [fpga_loader_t::loadFPGA]

    A shallow embedding of [fpga_loader.hpp] / [fpga_loader.cpp], and of
    the command-line program [main.cpp] that calls it.

    The memory-mapped registers are owned by the hardware, so the device is
    an abstract state machine ([Hardware]) that answers 32-bit reads, accepts
    32-bit writes and evolves while the program sleeps.  The program is
    written in a small monad that threads the device state, collects the
    chronological list of observable events (register accesses, image
    fetches, delays, diagnostics) and supports the early [return] of C++.

    The establishment and release of the [/dev/mem] mapping ([open], [mmap],
    [munmap], [close]) is outside the model: the model starts with the three
    register views already usable and ends at the [return] statement. *)

From Stdlib Require Import ZArith List String Ascii Bool Lia.
From Stdlib Require Import DecimalString.
Import ListNotations.

Local Open Scope Z_scope.
Local Open Scope list_scope.

(** ** Constants of the headers *)

Definition PROGNAME : string := "fpga_loader".

(** [EXIT_SUCCESS] and [EXIT_FAILURE] of [<stdlib.h>]. *)
Definition EXIT_SUCCESS : Z := 0.
Definition EXIT_FAILURE : Z := 1.

(** [enum fpgamgr_regs_ctrl_t] *)
Definition en           : Z := 0x00000001.
Definition nce          : Z := 0x00000002.
Definition nconfigpull  : Z := 0x00000004.
Definition nstatuspull  : Z := 0x00000008.
Definition confdonepull : Z := 0x00000010.
Definition prreq        : Z := 0x00000020.
Definition cdratio      : Z := 0x000000c0.
Definition axicfgen     : Z := 0x00000100.
Definition cfgwdth      : Z := 0x00000200.

(** [enum fpgamgr_regs_stat_t] *)
Definition mode_reset   : Z := 0x00000001.
Definition mode_config  : Z := 0x00000002.
Definition mode_init    : Z := 0x00000003.
Definition mode_user    : Z := 0x00000004.
Definition mode         : Z := 0x00000007.

(** [enum fpgamgr_regs_gpio_ext_parta_t] (the two bits the loader uses) *)
Definition ns           : Z := 0x00000001.
Definition cd           : Z := 0x00000002.

(** [enum fpgamgr_regs_dclkstat_t] *)
Definition dcntdone     : Z := 0x00000001.

(** Truncation to [uint32_t] and the 32-bit complement [~x]. *)
Definition u32 (x : Z) : Z := Z.land x 0xFFFFFFFF.
Definition not32 (x : Z) : Z := Z.lxor x 0xFFFFFFFF.

(** ** Register locations

    The fields of [fpgamgr_regs_t] and [sysmgr_regs_t] that [loadFPGA]
    touches, and the configuration data port [fpgamgr_data]. *)

Inductive reg : Type :=
| STAT             (* fpgamgr_regs->stat            *)
| CTRL             (* fpgamgr_regs->ctrl            *)
| DCLKCNT          (* fpgamgr_regs->dclkcnt         *)
| DCLKSTAT         (* fpgamgr_regs->dclkstat        *)
| GPIO_PORTA_EOI   (* fpgamgr_regs->gpio_porta_eoi  *)
| GPIO_EXT_PORTA   (* fpgamgr_regs->gpio_ext_porta  *)
| SYSMGR_MODULE    (* sysmgr_regs->module           *)
| FPGAMGR_DATA.    (* fpgamgr_data                  *)

(** Offset of each location inside the 16 MiB window mapped at 0xff000000. *)
Definition reg_offset (r : reg) : Z :=
  match r with
  | STAT           => 0x00706000 + 0x000
  | CTRL           => 0x00706000 + 0x004
  | DCLKCNT        => 0x00706000 + 0x008
  | DCLKSTAT       => 0x00706000 + 0x00c
  | GPIO_PORTA_EOI => 0x00706000 + 0x84c
  | GPIO_EXT_PORTA => 0x00706000 + 0x850
  | SYSMGR_MODULE  => 0x00d08000 + 0x028
  | FPGAMGR_DATA   => 0x00b90000
  end.

Definition reg_eqb (a b : reg) : bool := reg_offset a =? reg_offset b.

(** ** Observable events *)

Inductive stream : Type := stdout | stderr.

Inductive event : Type :=
| EvRead  (r : reg) (v : Z)            (* read32 returned v                 *)
| EvWrite (r : reg) (v : Z)            (* write32 stored v                  *)
| EvFetch (i : nat)                    (* the image word rbf_data[i] loaded *)
| EvSleep (us : Z)                     (* usleep(us)                        *)
| EvPrint (f : stream) (msg : string). (* printf / fprintf                  *)

(** ** The hardware *)

Class Hardware (dev : Type) : Type := {
  hw_read  : reg -> dev -> Z * dev;
  hw_write : reg -> Z -> dev -> dev;
  hw_sleep : Z -> dev -> dev
}.

(** ** The monad of the sequencer *)

Inductive result (A : Type) : Type :=
| Cont (a : A)      (* fall through to the next statement *)
| Return (z : Z).   (* [return z;] was executed           *)
Arguments Cont {A} a.
Arguments Return {A} z.

Definition M (dev A : Type) : Type := dev -> result A * dev * list event.

Definition ret {dev A} (a : A) : M dev A := fun s => (Cont a, s, []).

Definition early {dev A} (z : Z) : M dev A := fun s => (Return z, s, []).

Definition bind {dev A B} (m : M dev A) (f : A -> M dev B) : M dev B :=
  fun s =>
    match m s with
    | (Cont a, s1, l1) =>
        match f a s1 with
        | (r, s2, l2) => (r, s2, l1 ++ l2)
        end
    | (Return z, s1, l1) => (Return z, s1, l1)
    end.

Notation "x <- m ;; k" := (bind m (fun x => k))
  (at level 61, m at next level, right associativity).
Notation "m ;; k" := (bind m (fun _ => k))
  (at level 61, right associativity).

(** A function call: the value of the function is the one given to
    [return], or the value the body ends with. *)
Definition call {dev} (body : M dev Z) (s : dev) : Z * dev * list event :=
  match body s with
  | (Cont z, s', l) => (z, s', l)
  | (Return z, s', l) => (z, s', l)
  end.

Section Primitives.
Context {dev : Type} {HW : Hardware dev}.

(** [uint32_t read32(volatile void *addr)] *)
Definition read32 (r : reg) : M dev Z :=
  fun s => let (v, s') := hw_read r s in (Cont (u32 v), s', [EvRead r (u32 v)]).

(** [void write32(volatile void *addr, uint32_t val)] *)
Definition write32 (r : reg) (val : Z) : M dev unit :=
  fun s => (Cont tt, hw_write r val s, [EvWrite r val]).

Definition usleep (us : Z) : M dev unit :=
  fun s => (Cont tt, hw_sleep us s, [EvSleep us]).

Definition fprintf (f : stream) (msg : string) : M dev unit :=
  fun s => (Cont tt, s, [EvPrint f msg]).

Definition printf (msg : string) : M dev unit := fprintf stdout msg.

(** [*rbf_data++] at index [i]: the image is only ever loaded from. *)
Definition fetch (rbf_data : nat -> Z) (i : nat) : M dev Z :=
  fun s => (Cont (rbf_data i), s, [EvFetch i]).

(** [uint32_t get_msel(fpgamgr_regs_t *addr)] *)
Definition get_msel : M dev Z :=
  v <- read32 STAT ;; ret (Z.land (Z.shiftr v 3) 0x1f).

(** [uint32_t get_state(fpgamgr_regs_t *addr)] *)
Definition get_state : M dev Z :=
  v <- read32 STAT ;; ret (Z.land (Z.shiftr v 0) 0x07).

End Primitives.

(** ** Diagnostics *)

Definition nl : string := String (ascii_of_nat 10) EmptyString.
Definition dquote : string := String (ascii_of_nat 34) EmptyString.

Local Open Scope string_scope.

(** The [fprintf(stderr, ...)] of the MSEL check. *)
Definition msel_warning : string :=
  PROGNAME ++ ": " ++
  "The MSEL[4:0] switches need to be set to 0x0a for this program to operate properly." ++ nl ++
  "to function properly. See DE10-Nano User Manual Table 3-2.  Remember switch " ++
  dquote ++ "ON" ++ dquote ++ nl ++
  "is a logic 0. This is the default setting of " ++ nl.

Definition reset_failed : string :=
  PROGNAME ++ ": reset state transition failed" ++ nl.
Definition config_failed : string :=
  PROGNAME ++ ": configuration state transition failed" ++ nl.
Definition init_failed : string :=
  PROGNAME ++ ": initialization state transition failed." ++ nl.
Definition dclk_failed : string :=
  PROGNAME ++ ": time waiting for DCLKs to be sent." ++ nl.
Definition user_failed : string :=
  PROGNAME ++ ": user mode state transition failed" ++ nl.

(** The [switch] of [print_state], on the value of [get_state]. *)
Definition state_label (st : Z) : string :=
  match st with
  | 0 => "Off"
  | 1 => "Reset"
  | 2 => "Configuration"
  | 3 => "Initialization"
  | 4 => "User"
  | _ => "Undetermined"
  end.

(** [printf("%s: %s state\n", PROGNAME, label)] *)
Definition state_message (label : string) : string :=
  PROGNAME ++ ": " ++ label ++ " state" ++ nl.

Local Close Scope string_scope.

(** Iteration budgets of the poll loops. *)
Definition poll_budget : nat := 1000.
Definition dclk_budget : nat := 100.

Section Sequencer.
Context {dev : Type} {HW : Hardware dev}.

(** [const char *print_state(fpgamgr_regs_t *addr)] *)
Definition print_state : M dev string :=
  st <- get_state ;; ret (state_label st).

(** [if (debug) printf("%s: %s state\n", PROGNAME, print_state(fpgamgr_regs));] *)
Definition debug_state (debug : bool) : M dev unit :=
  if debug then (label <- print_state ;; printf (state_message label))
  else ret tt.

(** The MSEL check that opens [loadFPGA]. *)
Definition check_msel : M dev unit :=
  msel <- get_msel ;;
  if negb (msel =? 0x0a) then fprintf stderr msel_warning else ret tt.

(** [for (int i = 0; i < n; i++) { if (get_state(..) == target) break; usleep(10); }] *)
Fixpoint poll_state (target : Z) (n : nat) : M dev unit :=
  match n with
  | O => ret tt
  | S n' =>
      st <- get_state ;;
      if st =? target then ret tt
      else (usleep 10 ;; poll_state target n')
  end.

(** The loop of step 10: one [write32] per image word, [*rbf_data++]
    walking the buffer from index [i]. *)
Fixpoint stream_words (rbf_data : nat -> Z) (n : nat) (i : nat) : M dev unit :=
  match n with
  | O => ret tt
  | S n' =>
      w <- fetch rbf_data i ;;
      write32 FPGAMGR_DATA w ;;
      stream_words rbf_data n' (S i)
  end.

(** The loop of step 11.  [status] is the local variable of [loadFPGA];
    the value of the loop is its content when the loop is left. *)
Fixpoint poll_porta (n : nat) (status : Z) : M dev Z :=
  match n with
  | O => ret status
  | S n' =>
      v <- read32 GPIO_EXT_PORTA ;;
      let status := Z.land v (Z.lor cd ns) in
      if status =? 0 then (printf init_failed ;; early EXIT_FAILURE)
      else if status =? Z.lor cd ns then ret status
      else (usleep 10 ;; poll_porta n' status)
  end.

(** The loop of step 14, on the same variable [status]. *)
Fixpoint poll_dclk (n : nat) (status : Z) : M dev Z :=
  match n with
  | O => ret status
  | S n' =>
      v <- read32 DCLKSTAT ;;
      let status := Z.land v dcntdone in
      if status =? dcntdone then ret status
      else (usleep 10 ;; poll_dclk n' status)
  end.

(** Step 0.a *)
Definition step_0a : M dev unit := write32 SYSMGR_MODULE 0.

(** Step 1 *)
Definition step_1 : M dev unit :=
  v <- read32 CTRL ;; write32 CTRL (Z.lor 0x01 (Z.land v 0x02c0)).

(** Step 2 *)
Definition step_2 : M dev unit :=
  v <- read32 CTRL ;; write32 CTRL (Z.land v (not32 nce)).

(** Step 3 *)
Definition step_3 : M dev unit :=
  v <- read32 CTRL ;; write32 CTRL (Z.lor v en).

(** Step 4 *)
Definition step_4 : M dev unit :=
  v <- read32 CTRL ;; write32 CTRL (Z.lor v nconfigpull).

(** Step 5 *)
Definition step_5 (debug : bool) : M dev unit :=
  poll_state mode_reset poll_budget ;;
  st <- get_state ;;
  (if negb (st =? mode_reset)
   then (fprintf stderr reset_failed ;; early EXIT_FAILURE)
   else ret tt) ;;
  debug_state debug.

(** Step 6 *)
Definition step_6 : M dev unit :=
  v <- read32 CTRL ;; write32 CTRL (Z.land v (not32 nconfigpull)).

(** Step 7 *)
Definition step_7 (debug : bool) : M dev unit :=
  poll_state mode_config poll_budget ;;
  st <- get_state ;;
  (if negb (st =? mode_config)
   then (printf config_failed ;; early EXIT_FAILURE)
   else ret tt) ;;
  debug_state debug.

(** Step 8 *)
Definition step_8 : M dev unit := write32 GPIO_PORTA_EOI 0x00000fff.

(** Step 9 *)
Definition step_9 : M dev unit :=
  v <- read32 CTRL ;; write32 CTRL (Z.lor v axicfgen).

(** Step 10 *)
Definition step_10 (rbf_data : nat -> Z) (rbf_size : nat) : M dev unit :=
  stream_words rbf_data rbf_size 0.

(** Step 11.  [status0] stands for the indeterminate initial content of
    the uninitialised local [status]; the loop assigns the variable in
    its first iteration, before any use.  The step yields [status], which
    step 14 reuses. *)
Definition step_11 (debug : bool) (status0 : Z) : M dev Z :=
  status <- poll_porta poll_budget status0 ;;
  (if negb (status =? Z.lor cd ns)
   then (printf init_failed ;; early EXIT_FAILURE)
   else ret tt) ;;
  debug_state debug ;;
  ret status.

(** Step 12 *)
Definition step_12 : M dev unit :=
  v <- read32 CTRL ;; write32 CTRL (Z.land v (not32 axicfgen)).

(** Step 13a (the [#else] branch is the compiled one) *)
Definition step_13a : M dev unit :=
  v <- read32 DCLKSTAT ;;
  if negb (v =? 0) then write32 DCLKSTAT 1 else ret tt.

(** Step 13b *)
Definition step_13b : M dev unit := write32 DCLKCNT 4.

(** Step 14 *)
Definition step_14 (status : Z) : M dev unit :=
  status <- poll_dclk dclk_budget status ;;
  if negb (status =? dcntdone)
  then (printf dclk_failed ;; early EXIT_FAILURE)
  else ret tt.

(** Step 15 *)
Definition step_15 : M dev unit := write32 DCLKSTAT 1.

(** Step 16 *)
Definition step_16 (debug : bool) : M dev unit :=
  poll_state mode_user poll_budget ;;
  st <- get_state ;;
  (if negb (st =? mode_user)
   then (printf user_failed ;; early EXIT_FAILURE)
   else ret tt) ;;
  debug_state debug.

(** Step 17 *)
Definition step_17 : M dev unit :=
  v <- read32 CTRL ;; write32 CTRL (Z.land v (not32 en)).

(** Everything [loadFPGA] does after the MSEL check. *)
Definition configure (rbf_data : nat -> Z) (rbf_size : nat) (debug : bool)
  : M dev Z :=
  step_0a ;;
  step_1 ;;
  step_2 ;;
  step_3 ;;
  step_4 ;;
  step_5 debug ;;
  step_6 ;;
  step_7 debug ;;
  step_8 ;;
  step_9 ;;
  step_10 rbf_data rbf_size ;;
  status <- step_11 debug 0 ;;
  step_12 ;;
  step_13a ;;
  step_13b ;;
  step_14 status ;;
  step_15 ;;
  step_16 debug ;;
  step_17 ;;
  ret EXIT_SUCCESS.

(** [int fpga_loader_t::loadFPGA(const uint32_t *rbf_data, size_t rbf_size, bool debug)]

    [rbf_data] is the memory seen through the pointer: [rbf_data i] is
    the word [rbf_data[i]].  [rbf_size] is a [size_t] of the 32-bit
    target, as is the loop counter of step 10. *)
Definition loadFPGA (rbf_data : nat -> Z) (rbf_size : nat) (debug : bool)
  : dev -> Z * dev * list event :=
  call (check_msel ;; configure rbf_data rbf_size debug).

End Sequencer.

(** ** A scripted device

    A test double for the register block: the status-type registers replay
    a list of samples (the last sample repeats for ever), the control
    register is plain storage, every other location reads as zero and
    ignores what is written to it. *)

Record fake : Type := mkFake {
  fk_stat  : list Z;
  fk_porta : list Z;
  fk_dclk  : list Z;
  fk_ctrl  : Z
}.

Definition replay (script : list Z) : Z * list Z :=
  match script with
  | [] => (0, [])
  | [v] => (v, [v])
  | v :: rest => (v, rest)
  end.

Definition fake_read (r : reg) (s : fake) : Z * fake :=
  match r with
  | STAT =>
      let (v, l) := replay (fk_stat s) in
      (v, mkFake l (fk_porta s) (fk_dclk s) (fk_ctrl s))
  | GPIO_EXT_PORTA =>
      let (v, l) := replay (fk_porta s) in
      (v, mkFake (fk_stat s) l (fk_dclk s) (fk_ctrl s))
  | DCLKSTAT =>
      let (v, l) := replay (fk_dclk s) in
      (v, mkFake (fk_stat s) (fk_porta s) l (fk_ctrl s))
  | CTRL => (fk_ctrl s, s)
  | _ => (0, s)
  end.

Definition fake_write (r : reg) (v : Z) (s : fake) : fake :=
  match r with
  | CTRL => mkFake (fk_stat s) (fk_porta s) (fk_dclk s) v
  | _ => s
  end.

#[global] Instance fake_hw : Hardware fake := {
  hw_read := fake_read;
  hw_write := fake_write;
  hw_sleep := fun _ s => s
}.

(** A well-behaved board with the MSEL straps at 0x0a: the mode field is
    Off at the strap check, then follows the protocol. *)
Definition good_board : fake :=
  mkFake [0x50; 0x51; 0x51; 0x52; 0x52; 0x54] [0x3] [0x0; 0x1] 0x2c0.

(** A board whose status register never leaves the Off mode. *)
Definition stuck_board : fake := mkFake [0x50] [0x3] [0x1] 0x2c0.

(** A well-behaved board whose MSEL straps read 0x00 instead of 0x0a. *)
Definition odd_straps_board : fake :=
  mkFake [0x00; 0x01; 0x01; 0x02; 0x02; 0x04] [0x3] [0x0; 0x1] 0x2c0.

(** A board on which port A first shows CONF_DONE = 1 with nSTATUS = 0 and
    then both bits at 1. *)
Definition nstatus_low_board : fake :=
  mkFake [0x50; 0x51; 0x51; 0x52; 0x52; 0x54] [0x2; 0x3] [0x0; 0x1] 0x2c0.

(** A board on which port A shows CONF_DONE = 1 with nSTATUS = 0 for
    ever. *)
Definition nstatus_stuck_board : fake :=
  mkFake [0x50; 0x51; 0x51; 0x52; 0x52; 0x54] [0x2] [0x0; 0x1] 0x2c0.

(** A board whose DCLK-done bit rises just after the last sample of the
    DCLK poll: the register reads 0 for the check of step 13a and for the
    [dclk_budget] samples of step 14, and 1 from then on. *)
Definition late_dclk_board : fake :=
  mkFake [0x50; 0x51; 0x51; 0x52; 0x52; 0x54] [0x3]
         (repeat 0 (S dclk_budget) ++ [0x1]) 0x2c0.

(** A well-behaved board whose control register holds zero at the start:
    [cdratio] and [cfgwdth] are not configured. *)
Definition blank_ctrl_board : fake :=
  mkFake [0x50; 0x51; 0x51; 0x52; 0x52; 0x54] [0x3] [0x0; 0x1] 0x000.

(** A board that is as slow as a successful run allows: every mode poll
    sees its mode only at the check after the loop, port A completes at the
    last sample of the budget, and so does the DCLK counter (whose stale
    done flag is set at step 13a). *)
Definition slow_board : fake :=
  mkFake ([0x50] ++ repeat 0x50 poll_budget ++ [0x51; 0x51] ++
          repeat 0x51 poll_budget ++ [0x52; 0x52; 0x52] ++
          repeat 0x52 poll_budget ++ [0x54])
         (repeat 0x1 (pred poll_budget) ++ [0x3])
         ([0x1] ++ repeat 0x0 (pred dclk_budget) ++ [0x1])
         0x2c0.

(** An image buffer holding the given words. *)
Definition buffer_of (image : list Z) : nat -> Z := fun i => nth i image 0.

Definition value {S E} (x : Z * S * E) : Z := fst (fst x).
Definition final {S E} (x : Z * S * E) : S := snd (fst x).
Definition events {S E} (x : Z * S * E) : E := snd x.

(** ** Reading a trace *)

(** The mode field of a status sample and the {CONF_DONE, nSTATUS} field
    of a port-A sample, as [loadFPGA] extracts them. *)
Definition mode_of (v : Z) : Z := Z.land (Z.shiftr v 0) 0x07.
Definition msel_of (v : Z) : Z := Z.land (Z.shiftr v 3) 0x1f.
Definition status_of (v : Z) : Z := Z.land v (Z.lor cd ns).

(** A port-A sample that is neither the rejection nor the completion. *)
Definition pending (v : Z) : Prop :=
  status_of v <> 0 /\ status_of v <> Z.lor cd ns.

(** Words written to the configuration data port, in order. *)
Fixpoint data_writes (evs : list event) : list Z :=
  match evs with
  | [] => []
  | EvWrite FPGAMGR_DATA w :: rest => w :: data_writes rest
  | _ :: rest => data_writes rest
  end.

(** Indices of the image buffer that were loaded, in order. *)
Fixpoint fetches (evs : list event) : list nat :=
  match evs with
  | [] => []
  | EvFetch i :: rest => i :: fetches rest
  | _ :: rest => fetches rest
  end.

(** Locations written, in order. *)
Fixpoint written (evs : list event) : list reg :=
  match evs with
  | [] => []
  | EvWrite r _ :: rest => r :: written rest
  | _ :: rest => written rest
  end.

(** Samples obtained from register [r], in order. *)
Fixpoint samples (r : reg) (evs : list event) : list Z :=
  match evs with
  | [] => []
  | EvRead r' v :: rest =>
      if reg_eqb r r' then v :: samples r rest else samples r rest
  | _ :: rest => samples r rest
  end.

(** The step that opens the streaming part (step 8) was executed. *)
Definition reaches_streaming (evs : list event) : bool :=
  existsb (fun e => match e with EvWrite GPIO_PORTA_EOI _ => true | _ => false end) evs.

(** The five phases a run can fail in, and the diagnostic that tags each. *)
Inductive phase : Type :=
| PhReset | PhConfiguration | PhDataAccept | PhInitialization | PhUser.

Definition failure_message (ph : phase) : stream * string :=
  match ph with
  | PhReset          => (stderr, reset_failed)
  | PhConfiguration  => (stdout, config_failed)
  | PhDataAccept     => (stdout, init_failed)
  | PhInitialization => (stdout, dclk_failed)
  | PhUser           => (stdout, user_failed)
  end.

Definition failure_tag (msg : string) : option phase :=
  if String.eqb msg reset_failed then Some PhReset
  else if String.eqb msg config_failed then Some PhConfiguration
  else if String.eqb msg init_failed then Some PhDataAccept
  else if String.eqb msg dclk_failed then Some PhInitialization
  else if String.eqb msg user_failed then Some PhUser
  else None.

(** Failure tags printed by a run, in order. *)
Fixpoint failures (evs : list event) : list phase :=
  match evs with
  | [] => []
  | EvPrint _ msg :: rest =>
      match failure_tag msg with
      | Some ph => ph :: failures rest
      | None => failures rest
      end
  | _ :: rest => failures rest
  end.

(** ** The shape of a run

    Event lists are described phase by phase; each predicate characterises
    the trace of a run up to the point where the named phase is passed. *)

Definition poll_events (r : reg) (P : list Z) : list event :=
  flat_map (fun v => [EvRead r v; EvSleep 10]) P.

Definition debug_events (debug : bool) (v : Z) : list event :=
  if debug
  then [EvRead STAT v; EvPrint stdout (state_message (state_label (mode_of v)))]
  else [].

Definition setup_events (m c1 c2 c3 c4 : Z) : list event :=
  [EvRead STAT m] ++
  (if negb (msel_of m =? 0x0a) then [EvPrint stderr msel_warning] else []) ++
  [EvWrite SYSMGR_MODULE 0;
   EvRead CTRL c1; EvWrite CTRL (Z.lor 0x01 (Z.land c1 0x02c0));
   EvRead CTRL c2; EvWrite CTRL (Z.land c2 (not32 nce));
   EvRead CTRL c3; EvWrite CTRL (Z.lor c3 en);
   EvRead CTRL c4; EvWrite CTRL (Z.lor c4 nconfigpull)].

Definition stream_events (rbf_data : nat -> Z) (n i : nat) : list event :=
  flat_map (fun j => [EvFetch j; EvWrite FPGAMGR_DATA (rbf_data j)]) (seq i n).

(** Events of one [poll_state] loop with budget [n]. *)
Inductive state_poll (target : Z) (n : nat) : list event -> Prop :=
| state_poll_exhausted P :
    List.length P = n ->
    Forall (fun v => mode_of v <> target) P ->
    state_poll target n (poll_events STAT P)
| state_poll_break P v :
    (List.length P < n)%nat ->
    Forall (fun v => mode_of v <> target) P ->
    mode_of v = target ->
    state_poll target n (poll_events STAT P ++ [EvRead STAT v]).

Section Shape.
Variables (rbf_data : nat -> Z) (rbf_size : nat) (debug : bool).

Inductive in_reset : list event -> Prop :=
| In_reset m c1 c2 c3 c4 L w d :
    state_poll mode_reset poll_budget L ->
    mode_of w = mode_reset ->
    in_reset (setup_events m c1 c2 c3 c4 ++ L ++
              [EvRead STAT w] ++ debug_events debug d).

Inductive in_config : list event -> Prop :=
| In_config tr c L w d :
    in_reset tr ->
    state_poll mode_config poll_budget L ->
    mode_of w = mode_config ->
    in_config (tr ++
               [EvRead CTRL c; EvWrite CTRL (Z.land c (not32 nconfigpull))] ++
               L ++ [EvRead STAT w] ++ debug_events debug d).

Inductive streamed : list event -> Prop :=
| Streamed tr c :
    in_config tr ->
    streamed (tr ++
              [EvWrite GPIO_PORTA_EOI 0x00000fff;
               EvRead CTRL c; EvWrite CTRL (Z.lor c axicfgen)] ++
              stream_events rbf_data rbf_size 0).

Inductive accepted : list event -> Prop :=
| Accepted tr P v d :
    streamed tr ->
    (List.length P < poll_budget)%nat ->
    Forall pending P ->
    status_of v = Z.lor cd ns ->
    accepted (tr ++ poll_events GPIO_EXT_PORTA P ++
              [EvRead GPIO_EXT_PORTA v] ++ debug_events debug d).

Inductive clocking : list event -> Prop :=
| Clocking tr c k :
    accepted tr ->
    clocking (tr ++
              [EvRead CTRL c; EvWrite CTRL (Z.land c (not32 axicfgen));
               EvRead DCLKSTAT k] ++
              (if negb (k =? 0) then [EvWrite DCLKSTAT 1] else []) ++
              [EvWrite DCLKCNT 4]).

Inductive clocked : list event -> Prop :=
| Clocked tr P v :
    clocking tr ->
    (List.length P < dclk_budget)%nat ->
    Forall (fun v => Z.land v dcntdone <> dcntdone) P ->
    Z.land v dcntdone = dcntdone ->
    clocked (tr ++ poll_events DCLKSTAT P ++ [EvRead DCLKSTAT v]).

Inductive in_user : list event -> Prop :=
| In_user tr L w d :
    clocked tr ->
    state_poll mode_user poll_budget L ->
    mode_of w = mode_user ->
    in_user (tr ++ [EvWrite DCLKSTAT 1] ++ L ++
             [EvRead STAT w] ++ debug_events debug d).

(** The seven ways a run of [loadFPGA] can go. *)
Inductive run_shape : Z -> list event -> Prop :=
| Run_reset_timeout m c1 c2 c3 c4 L w :
    state_poll mode_reset poll_budget L ->
    mode_of w <> mode_reset ->
    run_shape EXIT_FAILURE
      (setup_events m c1 c2 c3 c4 ++ L ++
       [EvRead STAT w; EvPrint stderr reset_failed])
| Run_config_timeout tr c L w :
    in_reset tr ->
    state_poll mode_config poll_budget L ->
    mode_of w <> mode_config ->
    run_shape EXIT_FAILURE
      (tr ++
       [EvRead CTRL c; EvWrite CTRL (Z.land c (not32 nconfigpull))] ++
       L ++ [EvRead STAT w; EvPrint stdout config_failed])
| Run_rejected tr P v :
    streamed tr ->
    (List.length P < poll_budget)%nat ->
    Forall pending P ->
    status_of v = 0 ->
    run_shape EXIT_FAILURE
      (tr ++ poll_events GPIO_EXT_PORTA P ++
       [EvRead GPIO_EXT_PORTA v; EvPrint stdout init_failed])
| Run_accept_timeout tr P :
    streamed tr ->
    List.length P = poll_budget ->
    Forall pending P ->
    run_shape EXIT_FAILURE
      (tr ++ poll_events GPIO_EXT_PORTA P ++ [EvPrint stdout init_failed])
| Run_dclk_timeout tr P :
    clocking tr ->
    List.length P = dclk_budget ->
    Forall (fun v => Z.land v dcntdone <> dcntdone) P ->
    run_shape EXIT_FAILURE
      (tr ++ poll_events DCLKSTAT P ++ [EvPrint stdout dclk_failed])
| Run_user_timeout tr L w :
    clocked tr ->
    state_poll mode_user poll_budget L ->
    mode_of w <> mode_user ->
    run_shape EXIT_FAILURE
      (tr ++ [EvWrite DCLKSTAT 1] ++ L ++
       [EvRead STAT w; EvPrint stdout user_failed])
| Run_success tr c :
    in_user tr ->
    run_shape EXIT_SUCCESS
      (tr ++ [EvRead CTRL c; EvWrite CTRL (Z.land c (not32 en))]).

End Shape.

(** ** Vocabulary of the proofs

    [step_spec m Q F]: whenever [m] falls through with value [a] its events
    satisfy [Q a]; whenever it returns [z] they satisfy [F z]. *)
Definition step_spec {dev A : Type} (m : M dev A)
    (Q : A -> list event -> Prop) (F : Z -> list event -> Prop) : Prop :=
  forall s,
    match m s with
    | (Cont a, _, l) => Q a l
    | (Return z, _, l) => F z l
    end.

Definition never (z : Z) (l : list event) : Prop := False.

(** Outcome and events of the loop of step 11 with budget [n], entered
    with [status = st]. *)
Inductive porta_poll (n : nat) (st : Z) : result Z -> list event -> Prop :=
| porta_poll_done P v :
    (List.length P < n)%nat ->
    Forall pending P ->
    status_of v = Z.lor cd ns ->
    porta_poll n st (Cont (status_of v))
      (poll_events GPIO_EXT_PORTA P ++ [EvRead GPIO_EXT_PORTA v])
| porta_poll_rejected P v :
    (List.length P < n)%nat ->
    Forall pending P ->
    status_of v = 0 ->
    porta_poll n st (Return EXIT_FAILURE)
      (poll_events GPIO_EXT_PORTA P ++
       [EvRead GPIO_EXT_PORTA v; EvPrint stdout init_failed])
| porta_poll_exhausted P :
    List.length P = n ->
    Forall pending P ->
    porta_poll n st (Cont (last (map status_of P) st))
      (poll_events GPIO_EXT_PORTA P).

(** Outcome and events of the loop of step 14. *)
Inductive dclk_poll (n : nat) (st : Z) : Z -> list event -> Prop :=
| dclk_poll_done P v :
    (List.length P < n)%nat ->
    Forall (fun v => Z.land v dcntdone <> dcntdone) P ->
    Z.land v dcntdone = dcntdone ->
    dclk_poll n st dcntdone (poll_events DCLKSTAT P ++ [EvRead DCLKSTAT v])
| dclk_poll_exhausted P :
    List.length P = n ->
    Forall (fun v => Z.land v dcntdone <> dcntdone) P ->
    dclk_poll n st (last (map (fun v => Z.land v dcntdone) P) st)
      (poll_events DCLKSTAT P).

(** [runs_from pre m]: if the events so far are [pre] and the rest of the
    function body is [m], the whole run has one of the seven shapes. *)
Definition runs_from {dev : Type} (rbf_data : nat -> Z) (rbf_size : nat)
    (debug : bool) (pre : list event) (m : M dev Z) : Prop :=
  forall s,
    run_shape rbf_data rbf_size debug
      (value (call m s)) (pre ++ events (call m s)).

(** Events that none of [data_writes], [fetches], [failures] and
    [reaches_streaming] can see. *)
Definition quietb (e : event) : bool :=
  match e with
  | EvRead _ _ => true
  | EvSleep _ => true
  | EvWrite FPGAMGR_DATA _ => false
  | EvWrite GPIO_PORTA_EOI _ => false
  | EvWrite _ _ => true
  | EvFetch _ => false
  | EvPrint _ msg =>
      match failure_tag msg with Some _ => false | None => true end
  end.

Definition quiet (l : list event) : Prop := forallb quietb l = true.

(** Which failures happen after the image was streamed. *)
Definition phase_streams (ph : phase) : bool :=
  match ph with
  | PhReset | PhConfiguration => false
  | PhDataAccept | PhInitialization | PhUser => true
  end.

Definition failure_event (ph : phase) : event :=
  EvPrint (fst (failure_message ph)) (snd (failure_message ph)).

(** A trace that went through step 8 and the whole of step 10, and is
    otherwise quiet. *)
Definition streamed_trace (rbf_data : nat -> Z) (rbf_size : nat)
    (tr : list event) : Prop :=
  exists q1 q2 q3,
    quiet q1 /\ quiet q2 /\ quiet q3 /\
    tr = q1 ++ [EvWrite GPIO_PORTA_EOI 0x00000fff] ++ q2 ++
         stream_events rbf_data rbf_size 0 ++ q3.

(** The port-A poll follows the streaming loop at once. *)
Definition polls_after_streaming (rbf_data : nat -> Z) (rbf_size : nat)
    (evs : list event) : Prop :=
  exists tr c v rest,
    evs = tr ++
          [EvWrite GPIO_PORTA_EOI 0x00000fff;
           EvRead CTRL c; EvWrite CTRL (Z.lor c axicfgen)] ++
          stream_events rbf_data rbf_size 0 ++
          EvRead GPIO_EXT_PORTA v :: rest.

(** Traces that extend the trace of a run that passed the reset check. *)
Definition past_reset (debug : bool) (evs : list event) : Prop :=
  exists tr l, in_reset debug tr /\ evs = tr ++ l.

Definition is_sleep (e : event) : bool :=
  match e with EvSleep _ => true | _ => false end.

(** Every delay comes straight after a register read: [polls_fresh b evs]
    checks it, [b] telling whether the event before [evs] was a read. *)
Fixpoint polls_fresh (prev_read : bool) (evs : list event) : bool :=
  match evs with
  | [] => true
  | EvRead _ _ :: rest => polls_fresh true rest
  | EvSleep _ :: rest => prev_read && polls_fresh false rest
  | _ :: rest => polls_fresh false rest
  end.

Definition fresh (evs : list event) : Prop := polls_fresh false evs = true.

(** How a run that fails in a given phase ends: with the sample that failed
    the check of the phase, at most one delay, and the diagnostic. *)
Inductive failure_tail : phase -> list event -> Prop :=
| tail_reset tr w :
    mode_of w <> mode_reset ->
    failure_tail PhReset
      (tr ++ [EvRead STAT w; EvPrint stderr reset_failed])
| tail_config tr w :
    mode_of w <> mode_config ->
    failure_tail PhConfiguration
      (tr ++ [EvRead STAT w; EvPrint stdout config_failed])
| tail_rejected tr v :
    status_of v = 0 ->
    failure_tail PhDataAccept
      (tr ++ [EvRead GPIO_EXT_PORTA v; EvPrint stdout init_failed])
| tail_accept_timeout tr v :
    pending v ->
    failure_tail PhDataAccept
      (tr ++ [EvRead GPIO_EXT_PORTA v; EvSleep 10;
              EvPrint stdout init_failed])
| tail_dclk_timeout tr v :
    Z.land v dcntdone <> dcntdone ->
    failure_tail PhInitialization
      (tr ++ [EvRead DCLKSTAT v; EvSleep 10; EvPrint stdout dclk_failed])
| tail_user tr w :
    mode_of w <> mode_user ->
    failure_tail PhUser
      (tr ++ [EvRead STAT w; EvPrint stdout user_failed]).

(** [ctrl_storage ctrl_of]: the device keeps the last value written to the
    control register ([ctrl_of s] in state [s]), returns it when the
    register is read, and changes it on no other occasion. *)
Record ctrl_storage {dev : Type} {HW : Hardware dev} (ctrl_of : dev -> Z)
  : Prop := {
  cs_read : forall s, fst (hw_read CTRL s) = ctrl_of s;
  cs_read_keeps : forall r s, ctrl_of (snd (hw_read r s)) = ctrl_of s;
  cs_write : forall v s, ctrl_of (hw_write CTRL v s) = v;
  cs_write_other :
    forall r v s, r <> CTRL -> ctrl_of (hw_write r v s) = ctrl_of s;
  cs_sleep : forall us s, ctrl_of (hw_sleep us s) = ctrl_of s
}.

(** [ctrl_triple ctrl_of p m q r]: from a state whose control register
    satisfies [p], [m] either falls through with [q] or returns with [r]. *)
Definition ctrl_triple {dev A : Type} (ctrl_of : dev -> Z) (p : Z -> Prop)
    (m : M dev A) (q : A -> Z -> Prop) (r : Z -> Z -> Prop) : Prop :=
  forall s, p (ctrl_of s) ->
    match m s with
    | (Cont a, s', _) => q a (ctrl_of s')
    | (Return z, s', _) => r z (ctrl_of s')
    end.

(** [ctrl_kept ctrl_of m]: [m] leaves the control register alone, and if it
    returns, it returns [EXIT_FAILURE]. *)
Definition ctrl_kept {dev A : Type} (ctrl_of : dev -> Z) (m : M dev A) : Prop :=
  forall s,
    match m s with
    | (Cont _, s', _) => ctrl_of s' = ctrl_of s
    | (Return z, s', _) => ctrl_of s' = ctrl_of s /\ z = EXIT_FAILURE
    end.

(** Steps that can neither return nor touch the control register. *)
Definition ctrl_idle {dev A : Type} (ctrl_of : dev -> Z) (m : M dev A) : Prop :=
  forall s,
    match m s with
    | (Cont _, s', _) => ctrl_of s' = ctrl_of s
    | (Return _, _, _) => False
    end.

(** The data-accept poll as the specification words it: a port-A sample
    with CONF_DONE = 0 or nSTATUS = 0 makes the run fail on that very
    sample. *)
Definition rejects_on_any_zero_bit : Prop :=
  forall (dev : Type) (HW : Hardware dev) (s : dev)
         (rbf_data : nat -> Z) (rbf_size : nat) (debug : bool) (v : Z),
    let run := loadFPGA rbf_data rbf_size debug s in
    In (EvRead GPIO_EXT_PORTA v) (events run) ->
    Z.land v cd = 0 \/ Z.land v ns = 0 ->
    value run = EXIT_FAILURE /\
    exists tr,
      events run = tr ++ [EvRead GPIO_EXT_PORTA v; EvPrint stdout init_failed].

(** The failure decision as the specification words it: when a run fails,
    what it decides on has just been read from the register, so the event
    before the diagnostic is a register read. *)
Definition decides_on_fresh_read : Prop :=
  forall (dev : Type) (HW : Hardware dev) (s : dev)
         (rbf_data : nat -> Z) (rbf_size : nat) (debug : bool)
         (tr : list event) (f : stream) (msg : string),
    let run := loadFPGA rbf_data rbf_size debug s in
    value run = EXIT_FAILURE ->
    events run = tr ++ [EvPrint f msg] ->
    exists tr' r v, tr = tr' ++ [EvRead r v].

(** [decided_after_loop target f msg debug out]: the outcome [out] of a mode
    wait is decided on a status sample [w] of its own, read after the poll
    loop [L] is over (its budget used up without the mode, or left at the
    first sample that showed it): the wait is passed if [w] shows the mode,
    and fails with the diagnostic if it does not. *)
Definition decided_after_loop {dev : Type} (target : Z) (f : stream)
    (msg : string) (debug : bool) (out : result unit * dev * list event)
  : Prop :=
  match out with
  | (Cont _, _, l) =>
      exists L w d,
        l = L ++ [EvRead STAT w] ++ debug_events debug d /\
        state_poll target poll_budget L /\ mode_of w = target
  | (Return z, _, l) =>
      z = EXIT_FAILURE /\
      exists L w,
        l = L ++ [EvRead STAT w; EvPrint f msg] /\
        state_poll target poll_budget L /\ mode_of w <> target
  end.

(** ** Further observers *)

(** The accesses [loadFPGA] may make for an image of [rbf_size] words:
    reads of the status, control, port-A and DCLK status registers; writes
    of 0 to the module register, of anything to the control register, of
    0xfff to the end-of-interrupt register, of anything to the data port,
    of 1 to the DCLK status register and of 4 to the DCLK count register;
    loads of the image at the indices below [rbf_size]; delays of 10
    microseconds; diagnostics. *)
Definition expected (rbf_size : nat) (e : event) : bool :=
  match e with
  | EvRead STAT _ | EvRead CTRL _ | EvRead GPIO_EXT_PORTA _
  | EvRead DCLKSTAT _ => true
  | EvRead _ _ => false
  | EvWrite SYSMGR_MODULE v => v =? 0
  | EvWrite CTRL _ => true
  | EvWrite GPIO_PORTA_EOI v => v =? 0x00000fff
  | EvWrite FPGAMGR_DATA _ => true
  | EvWrite DCLKSTAT v => v =? 1
  | EvWrite DCLKCNT v => v =? 4
  | EvWrite _ _ => false
  | EvFetch i => (i <? rbf_size)%nat
  | EvSleep us => us =? 10
  | EvPrint _ _ => true
  end.

(** Total of the delays of a trace, in microseconds. *)
Fixpoint sleep_time (evs : list event) : Z :=
  match evs with
  | [] => 0
  | EvSleep us :: rest => us + sleep_time rest
  | _ :: rest => sleep_time rest
  end.

(** Number of register reads and writes of a trace. *)
Fixpoint accesses (evs : list event) : nat :=
  match evs with
  | [] => 0
  | EvRead _ _ :: rest => S (accesses rest)
  | EvWrite _ _ :: rest => S (accesses rest)
  | _ :: rest => accesses rest
  end.

(** [seen checks evs]: the trace contains, in this order, a read of each
    listed register whose sample satisfies the listed condition. *)
Inductive seen : list (reg * (Z -> Prop)) -> list event -> Prop :=
| seen_done l : seen [] l
| seen_skip c cs e l : seen (c :: cs) l -> seen (c :: cs) (e :: l)
| seen_hit r (p : Z -> Prop) cs v l :
    p v -> seen cs l -> seen ((r, p) :: cs) (EvRead r v :: l).

(** What the hardware reports along a configuration that works: Reset
    mode, Configuration mode, CONF_DONE and nSTATUS both high, all DCLKs
    sent, User mode. *)
Definition handshake : list (reg * (Z -> Prop)) :=
  [(STAT, fun v => mode_of v = mode_reset);
   (STAT, fun v => mode_of v = mode_config);
   (GPIO_EXT_PORTA, fun v => status_of v = Z.lor cd ns);
   (DCLKSTAT, fun v => Z.land v dcntdone = dcntdone);
   (STAT, fun v => mode_of v = mode_user)].

(** Values written to the control register, in order. *)
Fixpoint ctrl_writes (evs : list event) : list Z :=
  match evs with
  | [] => []
  | EvWrite CTRL v :: rest => v :: ctrl_writes rest
  | _ :: rest => ctrl_writes rest
  end.

(** [ctrl_replay evs c]: the content of the control register after [evs],
    when it held [c] before and is plain storage; [None] if some read of
    the register in [evs] did not return its content of that moment. *)
Fixpoint ctrl_replay (evs : list event) (c : Z) : option Z :=
  match evs with
  | [] => Some c
  | EvRead CTRL v :: rest => if v =? u32 c then ctrl_replay rest c else None
  | EvWrite CTRL v :: rest => ctrl_replay rest v
  | _ :: rest => ctrl_replay rest c
  end.

(** [ctrl_follows ctrl_of m]: the events of [m] account for the content of
    the control register. *)
Definition ctrl_follows {dev A : Type} (ctrl_of : dev -> Z) (m : M dev A)
  : Prop :=
  forall s,
    match m s with
    | (_, s', l) => ctrl_replay l (ctrl_of s) = Some (ctrl_of s')
    end.

Definition ctrl_freeb (e : event) : bool :=
  match e with
  | EvRead CTRL _ | EvWrite CTRL _ => false
  | _ => true
  end.

(** Events that do not access the control register. *)
Definition ctrl_free (l : list event) : Prop := forallb ctrl_freeb l = true.

(** The values a complete run writes to a control register that is plain
    storage, [k] being the [cdratio], [cfgwdth] bits it held at the start:
    steps 1, 2, 3, 4, 6, 9, 12 and 17. *)
Definition ctrl_history (k : Z) : list Z :=
  [Z.lor k en; Z.lor k en; Z.lor k en; Z.lor k (Z.lor en nconfigpull);
   Z.lor k en; Z.lor k (Z.lor en axicfgen); Z.lor k en; k].

(** How many of them are written before a failure in the given phase. *)
Definition ctrl_progress (ph : phase) : nat :=
  match ph with
  | PhReset => 4
  | PhConfiguration => 5
  | PhDataAccept => 6
  | PhInitialization => 7
  | PhUser => 7
  end.

(** The control bits such a failure leaves asserted. *)
Definition ctrl_left (ph : phase) : Z :=
  match ph with
  | PhReset => Z.lor en nconfigpull
  | PhConfiguration => en
  | PhDataAccept => Z.lor en axicfgen
  | PhInitialization => en
  | PhUser => en
  end.

(** What a run prints, in order. *)
Fixpoint prints (evs : list event) : list (stream * string) :=
  match evs with
  | [] => []
  | EvPrint f msg :: rest => (f, msg) :: prints rest
  | _ :: rest => prints rest
  end.

(** The line [debug_state] prints for a status sample. *)
Definition state_line (d : Z) : stream * string :=
  (stdout, state_message (state_label (mode_of d))).

(** What the strap check prints for a status sample. *)
Definition strap_warning (m : Z) : list (stream * string) :=
  if msel_of m =? 0x0a then [] else [(stderr, msel_warning)].

(** How many state lines a debugging run prints before a failure in the
    given phase. *)
Definition debug_progress (ph : phase) : nat :=
  match ph with
  | PhReset => 0
  | PhConfiguration => 1
  | PhDataAccept => 2
  | PhInitialization => 3
  | PhUser => 3
  end.

(** The two events before a point of the trace, the later one second. *)
Definition history : Type := option event * option event.

Definition after (h : history) (e : event) : history := (snd h, Some e).

(** What a run prints, each message with the two events that came just
    before it. *)
Fixpoint prints_after (h : history) (evs : list event)
  : list (history * (stream * string)) :=
  match evs with
  | [] => []
  | EvPrint f msg :: rest =>
      (h, (f, msg)) :: prints_after (after h (EvPrint f msg)) rest
  | e :: rest => prints_after (after h e) rest
  end.

(** A state line in its place: printed straight after the status sample
    [d] it decodes, which was read straight after the sample [v] of
    register [r] that ended the wait. *)
Definition state_note (x : reg * Z * Z) : history * (stream * string) :=
  match x with
  | (r, v, d) => ((Some (EvRead r v), Some (EvRead STAT d)), state_line d)
  end.

(** The strap warning in its place: printed straight after the first
    event of the run, the status sample [m]. *)
Definition strap_note (m : Z) : list (history * (stream * string)) :=
  if msel_of m =? 0x0a then []
  else [((None, Some (EvRead STAT m)), (stderr, msel_warning))].

(** [lines_after debug n tr]: [tr] opens with the status sample of the
    strap check and prints the strap warning, if any, followed by [n]
    state lines when debugging and by nothing otherwise. *)
Definition lines_after (debug : bool) (n : nat) (tr : list event) : Prop :=
  exists m rest ds,
    tr = EvRead STAT m :: rest /\
    prints_after (None, None) tr = strap_note m ++ map state_note ds /\
    List.length ds = if debug then n else 0%nat.

(** The locations a complete run writes, in order, for an image of [n]
    words; [stale] tells whether step 13a found the DCLK status register
    non-zero and cleared it. *)
Definition write_plan (n : nat) (stale : bool) : list reg :=
  [SYSMGR_MODULE; CTRL; CTRL; CTRL; CTRL; CTRL; GPIO_PORTA_EOI; CTRL] ++
  repeat FPGAMGR_DATA n ++
  [CTRL] ++ (if stale then [DCLKSTAT] else []) ++ [DCLKCNT; DCLKSTAT; CTRL].

(** Whether the first sample of the DCLK status register in the trace,
    the one step 13a takes, is non-zero. *)
Fixpoint stale_found (evs : list event) : bool :=
  match evs with
  | [] => false
  | EvRead DCLKSTAT k :: _ => negb (k =? 0)
  | _ :: rest => stale_found rest
  end.

(** Events among which the DCLK status register is not read. *)
Definition dclk_unread (l : list event) : Prop :=
  forallb (fun e => match e with EvRead DCLKSTAT _ => false | _ => true end)
          l = true.

(** How far in this plan a run is when it fails in the given phase. *)
Definition write_progress (n : nat) (stale : bool) (ph : phase) : nat :=
  match ph with
  | PhReset => 5
  | PhConfiguration => 6
  | PhDataAccept => 8 + n
  | PhInitialization => 8 + n + (if stale then 3 else 2)
  | PhUser => 8 + n + (if stale then 4 else 3)
  end%nat.

(** ** The command-line program ([main.cpp])

    [main] talks to its environment through [getopt_long], [fopen],
    [malloc], [fread] and [perror]; what these calls answer is given by an
    [environment].  The file is never closed and the buffer is released
    only after [loadFPGA]; neither is observable in the model. *)

Local Open Scope string_scope.

Definition usage : string :=
  nl ++
  "The fpga_loader is an executable for the DE10-Nano that allows the target" ++ nl ++
  "device to load its own FPGA firmware." ++ nl ++
  nl ++
  "usage: " ++ PROGNAME ++ " [options] " ++
  dquote ++ "raw_binary_file.rbf" ++ dquote ++ nl ++
  nl ++
  "Valid options are:" ++ nl ++
  "  --debug         Print debug messages." ++ nl ++
  "  --help          Print help message and exit." ++ nl ++
  "  --quiet         Suppress messages." ++ nl ++
  nl ++
  "Note: The FPGA firmware must be in Raw Binary File (RBF) format." ++ nl ++
  nl.

(** [printf("%s: unrecognized option: %s\n", PROGNAME, argv[optind-1])] *)
Definition unrecognized_option (arg : string) : string :=
  PROGNAME ++ ": unrecognized option: " ++ arg ++ nl.

Definition missing_filename : string :=
  PROGNAME ++ ": missing filename" ++ nl.

(** [perror(PROGNAME)], [err] being the text of [errno]. *)
Definition perror_line (err : string) : string :=
  PROGNAME ++ ": " ++ err ++ nl.

(** [printf("%s: Successfully read file \"%s\" (%d bytes).\n", ...)] *)
Definition file_read (name : string) (size : Z) : string :=
  PROGNAME ++ ": Successfully read file " ++ dquote ++ name ++ dquote ++
  " (" ++ NilZero.string_of_int (Z.to_int size) ++ " bytes)." ++ nl.

Definition buffer_misaligned : string :=
  PROGNAME ++ ": rbf data buffer is not aligned properly." ++ nl.

Definition length_misaligned : string :=
  PROGNAME ++ ": rbf file length is not exact multiple of 32-bit words." ++ nl.

Definition programmed : string :=
  PROGNAME ++ ": FPGA progammed successfully" ++ nl.

Local Close Scope string_scope.

(** One call of [getopt_long] that does not end the scan.  With the empty
    short-option string and a table whose entries all have [flag = 0] and
    [val = 0], the call returns ['?'] for an argument it does not accept
    ([arg] is [argv[optind-1]]) and 0 for one it accepts, storing the
    position of the option in [index]. *)
Inductive getopt_result : Type :=
| Unrecognized (arg : string)
| Recognized (index : Z).

Record environment : Type := {
  (* results of the successive calls of [getopt_long] before it returns -1 *)
  getopt_long : list getopt_result;
  (* [argv[optind]] after the scan; [None] is [NULL] *)
  operand : option string;
  (* the bytes of the named file; [None] if it cannot be opened *)
  fopen : string -> option (list Z);
  (* the text of [errno] after a failed [fopen], and after an empty [fread] *)
  fopen_error : string;
  fread_error : string;
  (* the address [malloc] returns; 0 is [NULL] *)
  malloc : Z;
  (* the [uint32_t] the processor loads from four consecutive bytes, the
      first one at the lowest address *)
  native_word : Z -> Z -> Z -> Z -> Z
}.

(** The option table: positions 0 [help], 1 [debug], 2 [q], 3 [quiet]. *)
Definition option_accepted (r : getopt_result) : bool :=
  match r with
  | Unrecognized _ => false
  | Recognized index => negb (index =? 0)
  end.

Definition asks_debug (results : list getopt_result) : bool :=
  existsb (fun r => match r with Recognized 1 => true | _ => false end)
          results.

Definition asks_quiet (results : list getopt_result) : bool :=
  existsb (fun r => match r with
                    | Recognized 2 | Recognized 3 => true
                    | _ => false
                    end) results.

(** The [for (;;)] loop over [getopt_long]: [inl] is [return true] with
    what was printed, [inr] is the [break] with the flags [debug] and
    [quiet]. *)
Fixpoint scan_options (results : list getopt_result) (debug quiet : bool)
  : list event + bool * bool :=
  match results with
  | [] => inr (debug, quiet)
  | Unrecognized arg :: _ =>
      inl [EvPrint stdout (unrecognized_option arg); EvPrint stdout usage]
  | Recognized index :: rest =>
      match index with
      | 0 => inl [EvPrint stdout usage]
      | 1 => scan_options rest true quiet
      | 2 | 3 => scan_options rest debug true
      | _ => scan_options rest debug quiet
      end
  end.

(** [fread(buf, 1, n, fd)] on a file holding [bytes]: the number of bytes
    stored in the buffer. *)
Definition fread (bytes : list Z) (n : Z) : Z :=
  Z.min (Z.of_nat (List.length bytes)) n.

(** The word [buf[i]] of the buffer after [fread] has stored [bytes] at
    its start. *)
Definition buffer_words (env : environment) (bytes : list Z) : nat -> Z :=
  fun i =>
    native_word env (nth (4 * i) bytes 0) (nth (4 * i + 1) bytes 0)
                    (nth (4 * i + 2) bytes 0) (nth (4 * i + 3) bytes 0).

Section Program.
Context {dev : Type} {HW : Hardware dev}.

(** [int main(int argc, char *argv[])].  The result is the exit status of
    the process (of [return] or of [exit]), the device state and the
    events; it is [None] when [malloc] returns [NULL], which the program
    hands to [fread] unchecked. *)
Definition main (env : environment) (s : dev) : option (Z * dev * list event) :=
  match scan_options (getopt_long env) false false with
  | inl printed => Some (1, s, printed)
  | inr (debug, quiet) =>
      match operand env with
      | None =>
          Some (EXIT_FAILURE, s,
                [EvPrint stdout missing_filename; EvPrint stdout usage])
      | Some name =>
          match fopen env name with
          | None =>
              Some (EXIT_FAILURE, s,
                    [EvPrint stderr (perror_line (fopen_error env))])
          | Some bytes =>
              if malloc env =? 0 then None else
              let size := fread bytes (8 * 1024 * 1024) in
              if size =? 0
              then Some (EXIT_FAILURE, s,
                         [EvPrint stderr (perror_line (fread_error env))])
              else
              let read :=
                if negb quiet then [EvPrint stdout (file_read name size)]
                else [] in
              let addr := u32 (malloc env) in
              if negb (Z.land addr 0x03 =? 0)
              then Some (EXIT_FAILURE, s,
                         read ++ [EvPrint stderr buffer_misaligned])
              else if negb (Z.land size 0x03 =? 0)
              then Some (EXIT_FAILURE, s,
                         read ++ [EvPrint stderr length_misaligned])
              else
              let size := size / 4 in
              let run :=
                loadFPGA (buffer_words env bytes) (Z.to_nat size) debug s in
              let ret := value run in
              Some (ret, final run,
                    read ++ events run ++
                    if negb quiet && (ret =? EXIT_SUCCESS)
                    then [EvPrint stdout programmed] else [])
          end
      end
  end.

End Program.

(** An environment for the examples: the command line [ks10.rbf], a file
    of three words, a little-endian processor. *)
Definition demo_env : environment := {|
  getopt_long := [];
  operand := Some "ks10.rbf"%string;
  fopen := fun _ => Some [0x0a; 0; 0; 0; 0x14; 0; 0; 0; 0x1e; 0; 0; 0];
  fopen_error := "No such file or directory"%string;
  fread_error := "Success"%string;
  malloc := 0x10008;
  native_word := fun b0 b1 b2 b3 => b0 + 256 * b1 + 65536 * b2 + 16777216 * b3
|}.

(** The same with the command line [--debug --help ks10.rbf]. *)
Definition help_env : environment := {|
  getopt_long := [Recognized 1; Recognized 0];
  operand := operand demo_env;
  fopen := fopen demo_env;
  fopen_error := fopen_error demo_env;
  fread_error := fread_error demo_env;
  malloc := malloc demo_env;
  native_word := native_word demo_env
|}.

(** ** Trace specifications of the steps *)

Section Execution.
Context {dev : Type} {HW : Hardware dev}.

Lemma read32_spec (r : reg) :
  step_spec (read32 r) (fun v l => l = [EvRead r v]) never.
Proof.
  intro s. unfold read32. destruct (hw_read r s) as [v s']. reflexivity.
Qed.

Lemma write32_spec (r : reg) (v : Z) :
  step_spec (write32 r v) (fun _ l => l = [EvWrite r v]) never.
Proof. intro s. reflexivity. Qed.

Lemma get_state_spec :
  step_spec get_state
    (fun st l => exists v, st = mode_of v /\ l = [EvRead STAT v]) never.
Proof.
  intro s. unfold get_state, bind, read32, ret.
  destruct (hw_read STAT s) as [v s']. exists (u32 v). auto.
Qed.

(** A read-modify-write of the control register. *)
Lemma rmw_spec (f : Z -> Z) :
  step_spec (v <- read32 CTRL ;; write32 CTRL (f v))
    (fun _ l => exists c, l = [EvRead CTRL c; EvWrite CTRL (f c)]) never.
Proof.
  intro s. unfold bind, read32, write32.
  destruct (hw_read CTRL s) as [v s']. exists (u32 v). reflexivity.
Qed.

Lemma check_msel_spec :
  step_spec check_msel
    (fun _ l => exists m,
       l = EvRead STAT m ::
           (if negb (msel_of m =? 0x0a)
            then [EvPrint stderr msel_warning] else []))
    never.
Proof.
  intro s. unfold check_msel, get_msel, bind, read32, ret, fprintf.
  destruct (hw_read STAT s) as [v s']. fold (msel_of (u32 v)).
  match goal with |- context [negb ?b] => destruct (negb b) eqn:E end.
  all: exists (u32 v); rewrite E; reflexivity.
Qed.

Lemma debug_state_spec (debug : bool) :
  step_spec (debug_state debug)
    (fun _ l => exists d, l = debug_events debug d) never.
Proof.
  intro s. unfold debug_state, debug_events.
  destruct debug.
  - unfold print_state, get_state, bind, read32, ret, printf, fprintf.
    destruct (hw_read STAT s) as [v s']. exists (u32 v). reflexivity.
  - exists 0. reflexivity.
Qed.

Lemma step_13a_spec :
  step_spec step_13a
    (fun _ l => exists k,
       l = EvRead DCLKSTAT k ::
           (if negb (k =? 0) then [EvWrite DCLKSTAT 1] else []))
    never.
Proof.
  intro s. unfold step_13a, bind, read32, write32, ret.
  destruct (hw_read DCLKSTAT s) as [v s'].
  destruct (negb (u32 v =? 0)) eqn:E.
  all: exists (u32 v); rewrite E; reflexivity.
Qed.

Lemma poll_state_spec (target : Z) (n : nat) :
  step_spec (poll_state target n) (fun _ l => state_poll target n l) never.
Proof.
  induction n as [|n IH]; intro s.
  - simpl. apply (state_poll_exhausted target 0 []); auto.
  - cbn [poll_state]. unfold bind at 1.
    pose proof (get_state_spec s) as Hg.
    destruct (get_state s) as [[[st|z] s1] l1]; [|exfalso; exact Hg].
    destruct Hg as (v & -> & ->).
    destruct (mode_of v =? target) eqn:E.
    + apply Z.eqb_eq in E. simpl.
      apply (state_poll_break target (S n) [] v); auto. simpl. lia.
    + apply Z.eqb_neq in E. unfold bind at 1. unfold usleep at 1.
      specialize (IH (hw_sleep 10 s1)).
      destruct (poll_state target n (hw_sleep 10 s1)) as [[[[]|z] s2] l2];
        [|exfalso; exact IH].
      inversion IH as [P HP HF Hl | P w HP HF Hw Hl]; subst l2.
      * apply (state_poll_exhausted target (S n) (v :: P)); auto.
        simpl. congruence.
      * apply (state_poll_break target (S n) (v :: P) w); auto. simpl. lia.
Qed.

Lemma stream_words_spec (rbf_data : nat -> Z) (n i : nat) :
  step_spec (stream_words rbf_data n i)
    (fun _ l => l = stream_events rbf_data n i) never.
Proof.
  revert i. induction n as [|n IH]; intros i s.
  - reflexivity.
  - cbn [stream_words]. unfold bind, fetch, write32.
    specialize (IH (S i) (hw_write FPGAMGR_DATA (rbf_data i) s)).
    destruct (stream_words rbf_data n (S i) _) as [[[[]|z] s2] l2];
      [|exfalso; exact IH].
    subst. reflexivity.
Qed.

End Execution.

Lemma last_cons {A} (l : list A) (a d : A) : last (a :: l) d = last l a.
Proof.
  revert a d. induction l as [|b l IH]; intros a d; [reflexivity|].
  change (last (a :: b :: l) d) with (last (b :: l) d).
  rewrite (IH b d), (IH b a). reflexivity.
Qed.

Lemma last_Forall {A} (Q : A -> Prop) (l : list A) (d : A) :
  Forall Q l -> l <> [] -> Q (last l d).
Proof.
  induction l as [|a l IH]; intros HF Hne; [congruence|].
  inversion HF as [|? ? Ha Hl]; subst.
  destruct l as [|b l]; [exact Ha|].
  apply IH; [assumption|discriminate].
Qed.

Section Loops.
Context {dev : Type} {HW : Hardware dev}.

Lemma poll_porta_spec (n : nat) (st : Z) :
  step_spec (poll_porta n st)
    (fun st' l => porta_poll n st (Cont st') l)
    (fun z l => porta_poll n st (Return z) l).
Proof.
  revert st. induction n as [|n IH]; intros st s.
  - simpl. apply (porta_poll_exhausted 0 st []); auto.
  - cbn [poll_porta]. unfold bind at 1.
    pose proof (read32_spec GPIO_EXT_PORTA s) as Hr.
    destruct (read32 GPIO_EXT_PORTA s) as [[[v|z] s1] l1];
      [|exfalso; exact Hr].
    simpl in Hr. subst l1. fold (status_of v).
    destruct (status_of v =? 0) eqn:E0.
    { apply Z.eqb_eq in E0. simpl.
      apply (porta_poll_rejected (S n) st [] v); auto. simpl. lia. }
    apply Z.eqb_neq in E0.
    destruct (status_of v =? Z.lor cd ns) eqn:E3.
    { apply Z.eqb_eq in E3. simpl.
      apply (porta_poll_done (S n) st [] v); auto. simpl. lia. }
    apply Z.eqb_neq in E3.
    assert (Hv : pending v) by (split; assumption).
    unfold bind at 1. unfold usleep at 1.
    specialize (IH (status_of v) (hw_sleep 10 s1)).
    destruct (poll_porta n (status_of v) (hw_sleep 10 s1))
      as [[[st'|z] s2] l2].
    + inversion IH as [P w HP HF Hw Hst Hl | | P HP HF Hst Hl]; subst l2.
      * apply (porta_poll_done (S n) st (v :: P) w); auto. simpl. lia.
      * rewrite <- (last_cons (map status_of P) (status_of v) st).
        apply (porta_poll_exhausted (S n) st (v :: P)); auto.
        simpl. congruence.
    + inversion IH as [ | P w HP HF Hw Hz Hl | ]; subst l2.
      apply (porta_poll_rejected (S n) st (v :: P) w); auto. simpl. lia.
Qed.

Lemma poll_dclk_spec (n : nat) (st : Z) :
  step_spec (poll_dclk n st) (fun st' l => dclk_poll n st st' l) never.
Proof.
  revert st. induction n as [|n IH]; intros st s.
  - simpl. apply (dclk_poll_exhausted 0 st []); auto.
  - cbn [poll_dclk]. unfold bind at 1.
    pose proof (read32_spec DCLKSTAT s) as Hr.
    destruct (read32 DCLKSTAT s) as [[[v|z] s1] l1]; [|exfalso; exact Hr].
    simpl in Hr. subst l1.
    destruct (Z.land v dcntdone =? dcntdone) eqn:E.
    { apply Z.eqb_eq in E. simpl. rewrite E at 1.
      apply (dclk_poll_done (S n) st [] v); auto. simpl. lia. }
    apply Z.eqb_neq in E.
    unfold bind at 1. unfold usleep at 1.
    specialize (IH (Z.land v dcntdone) (hw_sleep 10 s1)).
    destruct (poll_dclk n (Z.land v dcntdone) (hw_sleep 10 s1))
      as [[[st'|z] s2] l2]; [|exfalso; exact IH].
    inversion IH as [P w HP HF Hw Hst Hl | P HP HF Hst Hl]; subst l2.
    + apply (dclk_poll_done (S n) st (v :: P) w); auto. simpl. lia.
    + rewrite <- (last_cons (map (fun v => Z.land v dcntdone) P)
                    (Z.land v dcntdone) st).
      apply (dclk_poll_exhausted (S n) st (v :: P)); auto.
      simpl. congruence.
Qed.

(** The "poll, check, report" pattern of steps 5, 7 and 16. *)
Lemma wait_spec (target : Z) (f : stream) (msg : string) (debug : bool) :
  step_spec
    (poll_state target poll_budget ;;
     st <- get_state ;;
     (if negb (st =? target)
      then (fprintf f msg ;; early EXIT_FAILURE)
      else ret tt) ;;
     debug_state debug)
    (fun _ l => exists L w d,
       l = L ++ [EvRead STAT w] ++ debug_events debug d /\
       state_poll target poll_budget L /\ mode_of w = target)
    (fun z l => z = EXIT_FAILURE /\ exists L w,
       l = L ++ [EvRead STAT w; EvPrint f msg] /\
       state_poll target poll_budget L /\ mode_of w <> target).
Proof.
  intro s. unfold bind at 1.
  pose proof (poll_state_spec target poll_budget s) as HL.
  destruct (poll_state target poll_budget s) as [[[[]|z] s1] L];
    [|exfalso; exact HL].
  unfold bind at 1.
  pose proof (get_state_spec s1) as Hg.
  destruct (get_state s1) as [[[st|z] s2] l2]; [|exfalso; exact Hg].
  destruct Hg as (w & -> & ->).
  destruct (mode_of w =? target) eqn:E.
  - apply Z.eqb_eq in E. unfold bind at 1. cbn [negb ret].
    pose proof (debug_state_spec debug s2) as Hd.
    destruct (debug_state debug s2) as [[[[]|z] s3] l3];
      [|exfalso; exact Hd].
    destruct Hd as [d ->]. exists L, w, d. auto.
  - apply Z.eqb_neq in E. simpl. split; [reflexivity|].
    exists L, w. auto.
Qed.

Lemma step_11_spec (debug : bool) (status0 : Z) :
  step_spec (step_11 debug status0)
    (fun _ l => exists P v d,
       l = poll_events GPIO_EXT_PORTA P ++
           [EvRead GPIO_EXT_PORTA v] ++ debug_events debug d /\
       (List.length P < poll_budget)%nat /\ Forall pending P /\
       status_of v = Z.lor cd ns)
    (fun z l => z = EXIT_FAILURE /\ exists P,
       Forall pending P /\
       ((exists v,
           l = poll_events GPIO_EXT_PORTA P ++
               [EvRead GPIO_EXT_PORTA v; EvPrint stdout init_failed] /\
           (List.length P < poll_budget)%nat /\ status_of v = 0) \/
        (l = poll_events GPIO_EXT_PORTA P ++ [EvPrint stdout init_failed] /\
         List.length P = poll_budget))).
Proof.
  intro s. unfold step_11. unfold bind at 1.
  pose proof (poll_porta_spec poll_budget status0 s) as HP.
  destruct (poll_porta poll_budget status0 s) as [[[st|z] s1] l1].
  - inversion HP as [P v Hlen HF Hv Hst Hl | | P Hlen HF Hst Hl]; subst l1.
    + rewrite Hv, Z.eqb_refl. unfold bind at 1. cbn [negb ret].
      unfold bind at 1.
      pose proof (debug_state_spec debug s1) as Hd.
      destruct (debug_state debug s1) as [[[[]|z] s3] l3];
        [|exfalso; exact Hd].
      destruct Hd as [d ->]. cbn [ret].
      exists P, v, d. rewrite app_nil_r, <- app_assoc. auto.
    + assert (Hne : last (map status_of P) status0 <> Z.lor cd ns).
      { apply (last_Forall (fun x => x <> Z.lor cd ns)).
        - apply Forall_map.
          apply (Forall_impl _ (fun v (H : pending v) => proj2 H) HF).
        - destruct P; [discriminate Hlen|discriminate]. }
      apply Z.eqb_neq in Hne. rewrite Hne. simpl.
      split; [reflexivity|]. exists P. split; [assumption|]. right. auto.
  - inversion HP as [ | P v Hlen HF Hv Hz Hl | ]; subst l1.
    split; [reflexivity|]. exists P. split; [assumption|].
    left. exists v. auto.
Qed.

End Loops.

Section Run.
Context {dev : Type} {HW : Hardware dev}.
Variables (rbf_data : nat -> Z) (rbf_size : nat) (debug : bool).

Lemma step_14_spec (status : Z) :
  step_spec (step_14 status)
    (fun _ l => exists P v,
       l = poll_events DCLKSTAT P ++ [EvRead DCLKSTAT v] /\
       (List.length P < dclk_budget)%nat /\
       Forall (fun v => Z.land v dcntdone <> dcntdone) P /\
       Z.land v dcntdone = dcntdone)
    (fun z l => z = EXIT_FAILURE /\ exists P,
       l = poll_events DCLKSTAT P ++ [EvPrint stdout dclk_failed] /\
       List.length P = dclk_budget /\
       Forall (fun v => Z.land v dcntdone <> dcntdone) P).
Proof.
  intro s. unfold step_14. unfold bind at 1.
  pose proof (poll_dclk_spec dclk_budget status s) as HP.
  destruct (poll_dclk dclk_budget status s) as [[[st|z] s1] l1];
    [|exfalso; exact HP].
  inversion HP as [P v Hlen HF Hv Hst Hl | P Hlen HF Hst Hl]; subst l1.
  - simpl. exists P, v. rewrite app_nil_r. auto.
  - assert (Hne : last (map (fun v => Z.land v dcntdone) P) status <> dcntdone).
    { apply (last_Forall (fun x => x <> dcntdone)).
      - apply Forall_map. exact HF.
      - destruct P; [discriminate Hlen|discriminate]. }
    apply Z.eqb_neq in Hne. rewrite Hne. simpl.
    split; [reflexivity|]. exists P. auto.
Qed.

Lemma runs_ret (pre : list event) (z : Z) :
  run_shape rbf_data rbf_size debug z pre -> runs_from rbf_data rbf_size debug pre (@ret dev Z z).
Proof. intros H s. simpl. rewrite app_nil_r. exact H. Qed.

Lemma runs_step {A} (m : M dev A) (f : A -> M dev Z) (pre : list event)
    (Q : A -> list event -> Prop) (F : Z -> list event -> Prop) :
  step_spec m Q F ->
  (forall a l, Q a l -> runs_from rbf_data rbf_size debug (pre ++ l) (f a)) ->
  (forall z l, F z l -> run_shape rbf_data rbf_size debug z (pre ++ l)) ->
  runs_from rbf_data rbf_size debug pre (bind m f).
Proof.
  intros Hm HQ HF s. unfold call, bind. specialize (Hm s).
  destruct (m s) as [[[a|z] s1] l1].
  - specialize (HQ a l1 Hm s1). unfold call in HQ.
    destruct (f a s1) as [[[b|z] s2] l2]; simpl in *;
      rewrite app_assoc; exact HQ.
  - simpl. apply HF. exact Hm.
Qed.

Local Abbreviation tail_17 := (step_17 ;; ret EXIT_SUCCESS).
Local Abbreviation tail_15 := (step_15 ;; step_16 debug ;; tail_17).
Local Abbreviation tail_14 st := (step_14 st ;; tail_15).
Local Abbreviation tail_12 st := (step_12 ;; step_13a ;; step_13b ;; tail_14 st).
Local Abbreviation tail_11 := (status <- step_11 debug 0 ;; tail_12 status).
Local Abbreviation tail_8 :=
  (step_8 ;; step_9 ;; step_10 rbf_data rbf_size ;; tail_11).
Local Abbreviation tail_6 := (step_6 ;; step_7 debug ;; tail_8).

Lemma from_17 (pre : list event) :
  in_user rbf_data rbf_size debug pre -> runs_from rbf_data rbf_size debug pre tail_17.
Proof.
  intro H. eapply runs_step; [apply (rmw_spec (fun v => Z.land v (not32 en))) | |].
  - intros [] l [c ->]. apply runs_ret. apply Run_success. exact H.
  - intros z l [].
Qed.

Lemma from_15 (pre : list event) :
  clocked rbf_data rbf_size debug pre -> runs_from rbf_data rbf_size debug pre tail_15.
Proof.
  intro H. eapply runs_step; [apply write32_spec | | intros z l []].
  intros [] l ->.
  eapply runs_step;
    [apply (wait_spec mode_user stdout user_failed debug) | |].
  - intros [] l (L & w & d & -> & HL & Hw). rewrite <- app_assoc.
    apply from_17. apply In_user; assumption.
  - intros z l (-> & L & w & -> & HL & Hw). rewrite <- app_assoc.
    apply Run_user_timeout; assumption.
Qed.

Lemma from_14 (pre : list event) (st : Z) :
  clocking rbf_data rbf_size debug pre -> runs_from rbf_data rbf_size debug pre (tail_14 st).
Proof.
  intro H. eapply runs_step; [apply step_14_spec | |].
  - intros [] l (P & v & -> & Hlen & HF & Hv).
    apply from_15. apply Clocked; assumption.
  - intros z l (-> & P & -> & Hlen & HF).
    apply Run_dclk_timeout; assumption.
Qed.

Lemma from_12 (pre : list event) (st : Z) :
  accepted rbf_data rbf_size debug pre -> runs_from rbf_data rbf_size debug pre (tail_12 st).
Proof.
  intro H.
  eapply runs_step;
    [apply (rmw_spec (fun v => Z.land v (not32 axicfgen))) | | intros z l []].
  intros [] l [c ->].
  eapply runs_step; [apply step_13a_spec | | intros z l []].
  intros [] l [k ->].
  eapply runs_step; [apply write32_spec | | intros z l []].
  intros [] l ->.
  rewrite <- !app_assoc. apply from_14.
  apply (Clocking rbf_data rbf_size debug pre c k). exact H.
Qed.

Lemma from_11 (pre : list event) :
  streamed rbf_data rbf_size debug pre -> runs_from rbf_data rbf_size debug pre tail_11.
Proof.
  intro H. eapply runs_step; [apply step_11_spec | |].
  - intros st l (P & v & d & -> & Hlen & HF & Hv).
    apply from_12. apply Accepted; assumption.
  - intros z l (-> & P & HF & [(v & -> & Hlen & Hv) | (-> & Hlen)]).
    + apply Run_rejected; assumption.
    + apply Run_accept_timeout; assumption.
Qed.

Lemma from_8 (pre : list event) :
  in_config debug pre -> runs_from rbf_data rbf_size debug pre tail_8.
Proof.
  intro H. eapply runs_step; [apply write32_spec | | intros z l []].
  intros [] l ->.
  eapply runs_step;
    [apply (rmw_spec (fun v => Z.lor v axicfgen)) | | intros z l []].
  intros [] l [c ->].
  eapply runs_step; [apply stream_words_spec | | intros z l []].
  intros [] l ->.
  rewrite <- !app_assoc. apply from_11.
  apply (Streamed rbf_data rbf_size debug pre c). exact H.
Qed.

Lemma from_6 (pre : list event) :
  in_reset debug pre -> runs_from rbf_data rbf_size debug pre tail_6.
Proof.
  intro H.
  eapply runs_step;
    [apply (rmw_spec (fun v => Z.land v (not32 nconfigpull))) | | intros z l []].
  intros [] l [c ->].
  eapply runs_step;
    [apply (wait_spec mode_config stdout config_failed debug) | |].
  - intros [] l (L & w & d & -> & HL & Hw). rewrite <- app_assoc.
    apply from_8. apply In_config; assumption.
  - intros z l (-> & L & w & -> & HL & Hw). rewrite <- app_assoc.
    apply Run_config_timeout; assumption.
Qed.

Lemma from_0a (m : Z) :
  runs_from rbf_data rbf_size debug
    (EvRead STAT m ::
     (if negb (msel_of m =? 0x0a) then [EvPrint stderr msel_warning] else []))
    (configure rbf_data rbf_size debug).
Proof.
  unfold configure.
  eapply runs_step; [apply write32_spec | | intros z l []].
  intros [] l ->.
  eapply runs_step;
    [apply (rmw_spec (fun v => Z.lor 0x01 (Z.land v 0x02c0))) | | intros z l []].
  intros [] l [c1 ->].
  eapply runs_step;
    [apply (rmw_spec (fun v => Z.land v (not32 nce))) | | intros z l []].
  intros [] l [c2 ->].
  eapply runs_step;
    [apply (rmw_spec (fun v => Z.lor v en)) | | intros z l []].
  intros [] l [c3 ->].
  eapply runs_step;
    [apply (rmw_spec (fun v => Z.lor v nconfigpull)) | | intros z l []].
  intros [] l [c4 ->].
  eapply runs_step;
    [apply (wait_spec mode_reset stderr reset_failed debug) | |].
  - intros [] l (L & w & d & -> & HL & Hw).
    apply from_6.
    match goal with |- in_reset _ ?l =>
      replace l with (setup_events m c1 c2 c3 c4 ++ L ++
                      [EvRead STAT w] ++ debug_events debug d)
    end.
    + apply In_reset; assumption.
    + unfold setup_events.
      destruct (negb (msel_of m =? 10)); rewrite <- !app_assoc; reflexivity.
  - intros z l (-> & L & w & -> & HL & Hw).
    match goal with |- run_shape _ _ _ _ ?l =>
      replace l with (setup_events m c1 c2 c3 c4 ++ L ++
                      [EvRead STAT w; EvPrint stderr reset_failed])
    end.
    + apply Run_reset_timeout; assumption.
    + unfold setup_events.
      destruct (negb (msel_of m =? 10)); rewrite <- !app_assoc; reflexivity.
Qed.

(** Every run of [loadFPGA], on every device, has one of the seven shapes. *)
Lemma loadFPGA_run_shape (s : dev) :
  run_shape rbf_data rbf_size debug
    (value (loadFPGA rbf_data rbf_size debug s))
    (events (loadFPGA rbf_data rbf_size debug s)).
Proof.
  unfold loadFPGA.
  assert (H : runs_from rbf_data rbf_size debug [] (check_msel ;; configure rbf_data rbf_size debug)).
  { eapply runs_step; [apply check_msel_spec | | intros z l []].
    intros [] l [m ->]. apply from_0a. }
  exact (H s).
Qed.

End Run.

(** ** Observations on traces *)

Lemma quiet_app (l1 l2 : list event) : quiet l1 -> quiet l2 -> quiet (l1 ++ l2).
Proof.
  unfold quiet. intros H1 H2. rewrite forallb_app, H1, H2. reflexivity.
Qed.

Lemma data_writes_app (l1 l2 : list event) :
  data_writes (l1 ++ l2) = data_writes l1 ++ data_writes l2.
Proof.
  induction l1 as [|e l1 IH]; [reflexivity|].
  destruct e as [r v|r v|i|us|f msg]; simpl; auto.
  destruct r; simpl; auto. rewrite IH. reflexivity.
Qed.

Lemma fetches_app (l1 l2 : list event) :
  fetches (l1 ++ l2) = fetches l1 ++ fetches l2.
Proof.
  induction l1 as [|e l1 IH]; [reflexivity|].
  destruct e; simpl; auto. rewrite IH. reflexivity.
Qed.

Lemma failures_app (l1 l2 : list event) :
  failures (l1 ++ l2) = failures l1 ++ failures l2.
Proof.
  induction l1 as [|e l1 IH]; [reflexivity|].
  destruct e as [r v|r v|i|us|f msg]; simpl; auto.
  destruct (failure_tag msg); simpl; auto. rewrite IH. reflexivity.
Qed.

Lemma written_app (l1 l2 : list event) :
  written (l1 ++ l2) = written l1 ++ written l2.
Proof.
  induction l1 as [|e l1 IH]; [reflexivity|].
  destruct e; simpl; auto. rewrite IH. reflexivity.
Qed.

Lemma reaches_streaming_app (l1 l2 : list event) :
  reaches_streaming (l1 ++ l2) = reaches_streaming l1 || reaches_streaming l2.
Proof. apply existsb_app. Qed.

Lemma quiet_observed (l : list event) :
  quiet l ->
  data_writes l = [] /\ fetches l = [] /\ failures l = [] /\
  reaches_streaming l = false.
Proof.
  unfold quiet. induction l as [|e l IH]; [auto|].
  simpl. intro H. apply andb_prop in H. destruct H as [He Hl].
  destruct (IH Hl) as (H1 & H2 & H3 & H4).
  destruct e as [r v|r v|i|us|f msg]; simpl in *; auto; try discriminate.
  - destruct r; try discriminate; auto.
  - destruct (failure_tag msg); [discriminate|auto].
Qed.

Lemma quiet_not_streaming (l : list event) :
  quiet l -> reaches_streaming l = false.
Proof. intro H. apply (quiet_observed l H). Qed.

Lemma poll_events_app (r : reg) (P1 P2 : list Z) :
  poll_events r (P1 ++ P2) = poll_events r P1 ++ poll_events r P2.
Proof. apply flat_map_app. Qed.

Lemma quiet_poll_events (r : reg) (P : list Z) : quiet (poll_events r P).
Proof. induction P as [|v P IH]; [reflexivity|exact IH]. Qed.

Lemma written_poll_events (r : reg) (P : list Z) : written (poll_events r P) = [].
Proof. induction P as [|v P IH]; [reflexivity|exact IH]. Qed.

Lemma quiet_state_poll (target : Z) (n : nat) (L : list event) :
  state_poll target n L -> quiet L.
Proof.
  destruct 1.
  - apply quiet_poll_events.
  - apply quiet_app; [apply quiet_poll_events|reflexivity].
Qed.

Lemma written_state_poll (target : Z) (n : nat) (L : list event) :
  state_poll target n L -> written L = [].
Proof.
  destruct 1; [|rewrite written_app]; rewrite written_poll_events; reflexivity.
Qed.

Lemma state_label_cases (st : Z) :
  In (state_label st)
     ["Off"; "Reset"; "Configuration"; "Initialization"; "User";
      "Undetermined"]%string.
Proof.
  destruct st as [|p|p]; simpl; auto 7.
  destruct p as [[p|p|]|[p|p|]|]; simpl; auto 7;
    destruct p; simpl; auto 7.
Qed.

Lemma quiet_debug_events (debug : bool) (d : Z) : quiet (debug_events debug d).
Proof.
  destruct debug; [|reflexivity].
  unfold debug_events, quiet.
  pose proof (state_label_cases (mode_of d)) as H. simpl in H.
  repeat (destruct H as [<-|H]; [vm_compute; reflexivity|]).
  destruct H.
Qed.

Lemma quiet_setup_events (m c1 c2 c3 c4 : Z) : quiet (setup_events m c1 c2 c3 c4).
Proof.
  unfold setup_events, quiet.
  destruct (negb (msel_of m =? 10)); vm_compute; reflexivity.
Qed.

Lemma written_setup_events (m c1 c2 c3 c4 : Z) :
  written (setup_events m c1 c2 c3 c4) = [SYSMGR_MODULE; CTRL; CTRL; CTRL; CTRL].
Proof.
  unfold setup_events. destruct (negb (msel_of m =? 10)); reflexivity.
Qed.

Lemma stream_events_observed (rbf_data : nat -> Z) (n i : nat) :
  data_writes (stream_events rbf_data n i) = map rbf_data (seq i n) /\
  fetches (stream_events rbf_data n i) = seq i n /\
  failures (stream_events rbf_data n i) = [] /\
  reaches_streaming (stream_events rbf_data n i) = false.
Proof.
  revert i. induction n as [|n IH]; intro i; [auto|].
  destruct (IH (S i)) as (H1 & H2 & H3 & H4).
  unfold stream_events in *. simpl. rewrite H1, H2. auto.
Qed.

(** Quietness of a concatenation of the standard pieces. *)
Ltac quiet_piece :=
  first [ assumption
        | apply quiet_setup_events
        | apply quiet_debug_events
        | apply quiet_poll_events
        | (eapply quiet_state_poll; eassumption)
        | reflexivity ].

Ltac quiet_tac := first [ quiet_piece | (apply quiet_app; quiet_tac) ].

Section Observed.
Variables (rbf_data : nat -> Z) (rbf_size : nat) (debug : bool).

Lemma streamed_trace_observed (tr : list event) :
  streamed_trace rbf_data rbf_size tr ->
  data_writes tr = map rbf_data (seq 0 rbf_size) /\
  fetches tr = seq 0 rbf_size /\
  failures tr = [] /\
  reaches_streaming tr = true.
Proof.
  intros (q1 & q2 & q3 & H1 & H2 & H3 & ->).
  destruct (quiet_observed q1 H1) as (A1 & B1 & C1 & D1).
  destruct (quiet_observed q2 H2) as (A2 & B2 & C2 & D2).
  destruct (quiet_observed q3 H3) as (A3 & B3 & C3 & D3).
  destruct (stream_events_observed rbf_data rbf_size 0) as (A & B & C & D).
  rewrite !data_writes_app, !fetches_app, !failures_app, !reaches_streaming_app.
  rewrite A1, A2, A3, B1, B2, B3, C1, C2, C3, D1, A, B, C.
  simpl. rewrite !app_nil_r. auto.
Qed.

Lemma streamed_trace_app (tr l : list event) :
  streamed_trace rbf_data rbf_size tr -> quiet l -> streamed_trace rbf_data rbf_size (tr ++ l).
Proof.
  intros (q1 & q2 & q3 & H1 & H2 & H3 & ->) Hl.
  exists q1, q2, (q3 ++ l). repeat split; auto using quiet_app.
  rewrite <- !app_assoc. reflexivity.
Qed.

Lemma in_reset_quiet (tr : list event) : in_reset debug tr -> quiet tr.
Proof.
  destruct 1. quiet_tac.
Qed.

Lemma in_config_quiet (tr : list event) : in_config debug tr -> quiet tr.
Proof.
  destruct 1 as [tr c L w d H HL Hw]. apply in_reset_quiet in H. quiet_tac.
Qed.

Lemma streamed_streamed_trace (tr : list event) :
  streamed rbf_data rbf_size debug tr -> streamed_trace rbf_data rbf_size tr.
Proof.
  destruct 1 as [tr c H].
  exists tr, [EvRead CTRL c; EvWrite CTRL (Z.lor c axicfgen)], [].
  repeat split; auto using in_config_quiet.
  rewrite app_nil_r. reflexivity.
Qed.

Lemma accepted_streamed_trace (tr : list event) :
  accepted rbf_data rbf_size debug tr -> streamed_trace rbf_data rbf_size tr.
Proof.
  destruct 1.
  apply streamed_trace_app; [apply streamed_streamed_trace; assumption|].
  quiet_tac.
Qed.

Lemma clocking_streamed_trace (tr : list event) :
  clocking rbf_data rbf_size debug tr -> streamed_trace rbf_data rbf_size tr.
Proof.
  destruct 1 as [tr c k H].
  apply streamed_trace_app; [apply accepted_streamed_trace; assumption|].
  destruct (negb (k =? 0)); reflexivity.
Qed.

Lemma clocked_streamed_trace (tr : list event) :
  clocked rbf_data rbf_size debug tr -> streamed_trace rbf_data rbf_size tr.
Proof.
  destruct 1.
  apply streamed_trace_app; [apply clocking_streamed_trace; assumption|].
  quiet_tac.
Qed.

Lemma in_user_streamed_trace (tr : list event) :
  in_user rbf_data rbf_size debug tr -> streamed_trace rbf_data rbf_size tr.
Proof.
  destruct 1.
  apply streamed_trace_app; [apply clocked_streamed_trace; assumption|].
  quiet_tac.
Qed.

(** What the four observers see of a run of any shape. *)
Lemma run_shape_observed (z : Z) (evs : list event) :
  run_shape rbf_data rbf_size debug z evs ->
  (z = EXIT_SUCCESS /\ streamed_trace rbf_data rbf_size evs) \/
  (z = EXIT_FAILURE /\ exists ph tr,
     evs = tr ++ [failure_event ph] /\
     if phase_streams ph then streamed_trace rbf_data rbf_size tr else quiet tr).
Proof.
  destruct 1 as [m c1 c2 c3 c4 L w HL Hw | tr c L w Htr HL Hw
                | tr P v Htr Hlen HF Hv | tr P Htr Hlen HF
                | tr P Htr Hlen HF | tr L w Htr HL Hw | tr c Htr].
  - right. split; [reflexivity|].
    exists PhReset, (setup_events m c1 c2 c3 c4 ++ L ++ [EvRead STAT w]).
    split; [rewrite <- !app_assoc; reflexivity|]. simpl.
    quiet_tac.
  - right. split; [reflexivity|].
    exists PhConfiguration,
      (tr ++ [EvRead CTRL c; EvWrite CTRL (Z.land c (not32 nconfigpull))] ++
       L ++ [EvRead STAT w]).
    split; [rewrite <- !app_assoc; reflexivity|]. simpl.
    apply in_reset_quiet in Htr. quiet_tac.
  - right. split; [reflexivity|].
    exists PhDataAccept,
      (tr ++ poll_events GPIO_EXT_PORTA P ++ [EvRead GPIO_EXT_PORTA v]).
    split; [rewrite <- !app_assoc; reflexivity|]. simpl.
    apply streamed_trace_app; [apply streamed_streamed_trace; assumption|].
    quiet_tac.
  - right. split; [reflexivity|].
    exists PhDataAccept, (tr ++ poll_events GPIO_EXT_PORTA P).
    split; [rewrite <- !app_assoc; reflexivity|]. simpl.
    apply streamed_trace_app; [apply streamed_streamed_trace; assumption|].
    apply quiet_poll_events.
  - right. split; [reflexivity|].
    exists PhInitialization, (tr ++ poll_events DCLKSTAT P).
    split; [rewrite <- !app_assoc; reflexivity|]. simpl.
    apply streamed_trace_app; [apply clocking_streamed_trace; assumption|].
    apply quiet_poll_events.
  - right. split; [reflexivity|].
    exists PhUser, (tr ++ [EvWrite DCLKSTAT 1] ++ L ++ [EvRead STAT w]).
    split; [rewrite <- !app_assoc; reflexivity|]. simpl.
    apply streamed_trace_app; [apply clocked_streamed_trace; assumption|].
    quiet_tac.
  - left. split; [reflexivity|].
    apply streamed_trace_app; [apply in_user_streamed_trace; assumption|].
    reflexivity.
Qed.

End Observed.

Lemma failures_failure_event (ph : phase) : failures [failure_event ph] = [ph].
Proof. destruct ph; vm_compute; reflexivity. Qed.

Lemma in_user_saw_user (rbf_data : nat -> Z) (rbf_size : nat) (debug : bool)
    (tr : list event) :
  in_user rbf_data rbf_size debug tr ->
  exists v, In (EvRead STAT v) tr /\ mode_of v = mode_user.
Proof.
  destruct 1 as [tr L w d Htr HL Hw]. exists w. split; [|exact Hw].
  rewrite !in_app_iff. simpl. auto 10.
Qed.

Section AfterStreaming.
Variables (rbf_data : nat -> Z) (rbf_size : nat) (debug : bool).

Lemma polls_after_streaming_app (evs l : list event) :
  polls_after_streaming rbf_data rbf_size evs ->
  polls_after_streaming rbf_data rbf_size (evs ++ l).
Proof.
  intros (tr & c & v & rest & ->). exists tr, c, v, (rest ++ l).
  rewrite <- !app_assoc. reflexivity.
Qed.

Lemma streamed_then_poll (tr l : list event) (v : Z) (rest : list event) :
  streamed rbf_data rbf_size debug tr ->
  l = EvRead GPIO_EXT_PORTA v :: rest ->
  polls_after_streaming rbf_data rbf_size (tr ++ l).
Proof.
  intros [tr0 c H] ->. exists tr0, c, v, rest.
  rewrite <- !app_assoc. reflexivity.
Qed.

Lemma poll_events_head (P : list Z) (tail : list event) (v : Z) :
  exists v' rest,
    poll_events GPIO_EXT_PORTA P ++ EvRead GPIO_EXT_PORTA v :: tail =
    EvRead GPIO_EXT_PORTA v' :: rest.
Proof.
  destruct P as [|p P]; simpl; eauto.
Qed.

Lemma accepted_polls (tr : list event) :
  accepted rbf_data rbf_size debug tr ->
  polls_after_streaming rbf_data rbf_size tr.
Proof.
  destruct 1 as [tr P v d Htr Hlen HF Hv].
  destruct (poll_events_head P (debug_events debug d) v) as (v' & rest & E).
  eapply streamed_then_poll; [eassumption|]. exact E.
Qed.

Lemma run_shape_polls (z : Z) (evs : list event) :
  run_shape rbf_data rbf_size debug z evs ->
  reaches_streaming evs = true ->
  polls_after_streaming rbf_data rbf_size evs.
Proof.
  intros H Hreach.
  destruct H as [m c1 c2 c3 c4 L w HL Hw | tr c L w Htr HL Hw
                | tr P v Htr Hlen HF Hv | tr P Htr Hlen HF
                | tr P Htr Hlen HF | tr L w Htr HL Hw | tr c Htr].
  - exfalso. rewrite !reaches_streaming_app in Hreach.
    rewrite (quiet_not_streaming _ (quiet_setup_events m c1 c2 c3 c4)) in Hreach.
    rewrite (quiet_not_streaming _ (quiet_state_poll _ _ _ HL)) in Hreach.
    discriminate Hreach.
  - exfalso. rewrite !reaches_streaming_app in Hreach.
    rewrite (quiet_not_streaming _ (in_reset_quiet _ _ Htr)) in Hreach.
    rewrite (quiet_not_streaming _ (quiet_state_poll _ _ _ HL)) in Hreach.
    discriminate Hreach.
  - destruct (poll_events_head P [EvPrint stdout init_failed] v)
      as (v' & rest & E).
    eapply streamed_then_poll; [eassumption|]. exact E.
  - destruct P as [|p P]; [discriminate Hlen|].
    eapply streamed_then_poll; [eassumption|]. simpl. reflexivity.
  - apply polls_after_streaming_app.
    destruct Htr as [tr0 c0 k0 Htr].
    apply polls_after_streaming_app. apply accepted_polls. exact Htr.
  - apply polls_after_streaming_app.
    destruct Htr as [tr1 P1 v1 Htr].
    apply polls_after_streaming_app.
    destruct Htr as [tr0 c0 k0 Htr].
    apply polls_after_streaming_app. apply accepted_polls. exact Htr.
  - apply polls_after_streaming_app.
    destruct Htr as [tr2 L2 w2 d2 Htr].
    apply polls_after_streaming_app.
    destruct Htr as [tr1 P1 v1 Htr].
    apply polls_after_streaming_app.
    destruct Htr as [tr0 c0 k0 Htr].
    apply polls_after_streaming_app. apply accepted_polls. exact Htr.
Qed.

End AfterStreaming.

Section PastReset.
Variables (rbf_data : nat -> Z) (rbf_size : nat) (debug : bool).

Lemma past_reset_app (evs l : list event) :
  past_reset debug evs -> past_reset debug (evs ++ l).
Proof.
  intros (tr & l0 & H & ->). exists tr, (l0 ++ l).
  rewrite app_assoc. auto.
Qed.

Lemma in_reset_past (tr : list event) : in_reset debug tr -> past_reset debug tr.
Proof. intro H. exists tr, []. rewrite app_nil_r. auto. Qed.

Lemma in_config_past (tr : list event) : in_config debug tr -> past_reset debug tr.
Proof. destruct 1. apply past_reset_app, in_reset_past. assumption. Qed.

Lemma streamed_past (tr : list event) :
  streamed rbf_data rbf_size debug tr -> past_reset debug tr.
Proof. destruct 1. apply past_reset_app, in_config_past. assumption. Qed.

Lemma accepted_past (tr : list event) :
  accepted rbf_data rbf_size debug tr -> past_reset debug tr.
Proof. destruct 1. apply past_reset_app, streamed_past. assumption. Qed.

Lemma clocking_past (tr : list event) :
  clocking rbf_data rbf_size debug tr -> past_reset debug tr.
Proof. destruct 1. apply past_reset_app, accepted_past. assumption. Qed.

Lemma clocked_past (tr : list event) :
  clocked rbf_data rbf_size debug tr -> past_reset debug tr.
Proof. destruct 1. apply past_reset_app, clocking_past. assumption. Qed.

Lemma in_user_past (tr : list event) :
  in_user rbf_data rbf_size debug tr -> past_reset debug tr.
Proof. destruct 1. apply past_reset_app, clocked_past. assumption. Qed.

(** A run either stops at the reset check or went past it. *)
Lemma run_shape_reset_cases (z : Z) (evs : list event) :
  run_shape rbf_data rbf_size debug z evs ->
  (z = EXIT_FAILURE /\ exists m c1 c2 c3 c4 L w,
     state_poll mode_reset poll_budget L /\ mode_of w <> mode_reset /\
     evs = setup_events m c1 c2 c3 c4 ++ L ++
           [EvRead STAT w; EvPrint stderr reset_failed]) \/
  past_reset debug evs.
Proof.
  destruct 1 as [m c1 c2 c3 c4 L w HL Hw | tr c L w Htr HL Hw
                | tr P v Htr Hlen HF Hv | tr P Htr Hlen HF
                | tr P Htr Hlen HF | tr L w Htr HL Hw | tr c Htr].
  - left. split; [reflexivity|]. exists m, c1, c2, c3, c4, L, w. auto.
  - right. apply past_reset_app, in_reset_past. assumption.
  - right. apply past_reset_app, streamed_past. assumption.
  - right. apply past_reset_app, streamed_past. assumption.
  - right. apply past_reset_app, clocking_past. assumption.
  - right. apply past_reset_app, clocked_past. assumption.
  - right. apply past_reset_app, in_user_past. assumption.
Qed.

(** Past the reset check, a status sample taken after the strap check
    showed the Reset mode. *)
Lemma past_reset_sample (evs : list event) :
  past_reset debug evs ->
  exists w, In (EvRead STAT w) (tl evs) /\ mode_of w = mode_reset.
Proof.
  intros (tr & l & H & ->).
  destruct H as [m c1 c2 c3 c4 L w d HL Hw].
  exists w. split; [|exact Hw].
  unfold setup_events. cbn [app tl].
  rewrite !in_app_iff. simpl. auto 12.
Qed.

End PastReset.

Lemma buffer_of_seq (image : list Z) :
  map (buffer_of image) (seq 0 (List.length image)) = image.
Proof.
  unfold buffer_of.
  induction image as [|w image IH]; [reflexivity|].
  simpl. f_equal. rewrite <- seq_shift, map_map. exact IH.
Qed.

Lemma call_write32 {dev : Type} {HW : Hardware dev} (r : reg) (v : Z)
    (f : unit -> M dev Z) (s : dev) :
  call (bind (write32 r v) f) s =
  (value (call (f tt) (hw_write r v s)),
   final (call (f tt) (hw_write r v s)),
   EvWrite r v :: events (call (f tt) (hw_write r v s))).
Proof.
  unfold call, bind, write32.
  destruct (f tt (hw_write r v s)) as [[[z|z] s2] l2]; reflexivity.
Qed.

Lemma status_of_cases (v : Z) :
  status_of v = 0 \/ status_of v = ns \/ status_of v = cd \/
  status_of v = Z.lor cd ns.
Proof.
  unfold status_of. change (Z.lor cd ns) with (Z.ones 2).
  rewrite Z.land_ones by lia.
  pose proof (Z.mod_pos_bound v (2 ^ 2)) as H.
  change ns with 1. change cd with 2. change (Z.ones 2) with 3.
  change (2 ^ 2) with 4 in *. lia.
Qed.

Lemma pending_one_bit (v : Z) :
  pending v <-> (status_of v = ns \/ status_of v = cd).
Proof.
  unfold pending. pose proof (status_of_cases v) as H.
  change ns with 1 in *. change cd with 2 in *. change (Z.lor 2 1) with 3 in *.
  lia.
Qed.

(** ** Freshness of the samples *)

Lemma polls_fresh_mono (b : bool) (l : list event) :
  polls_fresh false l = true -> polls_fresh b l = true.
Proof.
  destruct l as [|e l]; [reflexivity|].
  destruct e; simpl; auto. discriminate.
Qed.

Lemma polls_fresh_app (b : bool) (l1 l2 : list event) :
  polls_fresh b l1 = true -> fresh l2 -> polls_fresh b (l1 ++ l2) = true.
Proof.
  revert b. induction l1 as [|e l1 IH]; intros b H1 H2.
  - apply polls_fresh_mono. exact H2.
  - destruct e; simpl in *; auto.
    apply andb_prop in H1. destruct H1 as [-> H1]. simpl. auto.
Qed.

Lemma fresh_app (l1 l2 : list event) : fresh l1 -> fresh l2 -> fresh (l1 ++ l2).
Proof. apply polls_fresh_app. Qed.

Lemma no_sleep_polls_fresh (b : bool) (l : list event) :
  existsb is_sleep l = false -> polls_fresh b l = true.
Proof.
  revert b. induction l as [|e l IH]; intros b H.
  - reflexivity.
  - simpl in H. apply orb_false_elim in H. destruct H as [He Hl].
    destruct e; simpl in *; auto. discriminate.
Qed.

Lemma no_sleep_fresh (l : list event) :
  existsb is_sleep l = false -> fresh l.
Proof. apply no_sleep_polls_fresh. Qed.

Lemma fresh_poll_events (r : reg) (P : list Z) : fresh (poll_events r P).
Proof. induction P as [|v P IH]; [reflexivity|exact IH]. Qed.

Lemma fresh_state_poll (target : Z) (n : nat) (L : list event) :
  state_poll target n L -> fresh L.
Proof.
  destruct 1.
  - apply fresh_poll_events.
  - apply fresh_app; [apply fresh_poll_events|reflexivity].
Qed.

Lemma fresh_debug_events (debug : bool) (d : Z) : fresh (debug_events debug d).
Proof. destruct debug; reflexivity. Qed.

Lemma fresh_setup_events (m c1 c2 c3 c4 : Z) : fresh (setup_events m c1 c2 c3 c4).
Proof.
  unfold setup_events. destruct (negb (msel_of m =? 10)); reflexivity.
Qed.

Lemma fresh_stream_events (rbf_data : nat -> Z) (n i : nat) :
  fresh (stream_events rbf_data n i).
Proof.
  apply no_sleep_fresh. revert i.
  induction n as [|n IH]; intro i; [reflexivity|]. exact (IH (S i)).
Qed.

Ltac fresh_piece :=
  first [ assumption
        | apply fresh_setup_events
        | apply fresh_debug_events
        | apply fresh_poll_events
        | apply fresh_stream_events
        | (eapply fresh_state_poll; eassumption)
        | reflexivity ].

Ltac fresh_tac := first [ fresh_piece | (apply fresh_app; fresh_tac) ].

Lemma poll_events_last (r : reg) (P : list Z) :
  P <> [] ->
  exists P' v,
    P = P' ++ [v] /\
    poll_events r P = poll_events r P' ++ [EvRead r v; EvSleep 10].
Proof.
  intro H. destruct (exists_last H) as (P' & v & ->).
  exists P', v. split; [reflexivity|]. apply poll_events_app.
Qed.

Section Fresh.
Variables (rbf_data : nat -> Z) (rbf_size : nat) (debug : bool).

Lemma in_reset_fresh (tr : list event) : in_reset debug tr -> fresh tr.
Proof. destruct 1. fresh_tac. Qed.

Lemma in_config_fresh (tr : list event) : in_config debug tr -> fresh tr.
Proof.
  destruct 1 as [tr c L w d H HL Hw]. apply in_reset_fresh in H. fresh_tac.
Qed.

Lemma streamed_fresh (tr : list event) :
  streamed rbf_data rbf_size debug tr -> fresh tr.
Proof. destruct 1 as [tr c H]. apply in_config_fresh in H. fresh_tac. Qed.

Lemma accepted_fresh (tr : list event) :
  accepted rbf_data rbf_size debug tr -> fresh tr.
Proof.
  destruct 1 as [tr P v d H Hlen HF Hv]. apply streamed_fresh in H. fresh_tac.
Qed.

Lemma clocking_fresh (tr : list event) :
  clocking rbf_data rbf_size debug tr -> fresh tr.
Proof.
  destruct 1 as [tr c k H]. apply accepted_fresh in H.
  apply fresh_app; [assumption|]. destruct (negb (k =? 0)); reflexivity.
Qed.

Lemma clocked_fresh (tr : list event) :
  clocked rbf_data rbf_size debug tr -> fresh tr.
Proof.
  destruct 1 as [tr P v H Hlen HF Hv]. apply clocking_fresh in H. fresh_tac.
Qed.

Lemma in_user_fresh (tr : list event) :
  in_user rbf_data rbf_size debug tr -> fresh tr.
Proof.
  destruct 1 as [tr L w d H HL Hw]. apply clocked_fresh in H. fresh_tac.
Qed.

Lemma run_shape_fresh (z : Z) (evs : list event) :
  run_shape rbf_data rbf_size debug z evs -> fresh evs.
Proof.
  destruct 1 as [m c1 c2 c3 c4 L w HL Hw | tr c L w Htr HL Hw
                | tr P v Htr Hlen HF Hv | tr P Htr Hlen HF
                | tr P Htr Hlen HF | tr L w Htr HL Hw | tr c Htr].
  - fresh_tac.
  - apply in_reset_fresh in Htr. fresh_tac.
  - apply streamed_fresh in Htr. fresh_tac.
  - apply streamed_fresh in Htr. fresh_tac.
  - apply clocking_fresh in Htr. fresh_tac.
  - apply clocked_fresh in Htr. fresh_tac.
  - apply in_user_fresh in Htr. fresh_tac.
Qed.

Lemma run_shape_failure_tail (evs : list event) :
  run_shape rbf_data rbf_size debug EXIT_FAILURE evs ->
  exists ph, failure_tail ph evs.
Proof.
  intro H.
  inversion H as [m c1 c2 c3 c4 L w HL Hw | tr c L w Htr HL Hw
                 | tr P v Htr Hlen HF Hv | tr P Htr Hlen HF
                 | tr P Htr Hlen HF | tr L w Htr HL Hw | ]; subst evs.
  - exists PhReset. rewrite !app_assoc. apply tail_reset. exact Hw.
  - exists PhConfiguration. rewrite !app_assoc. apply tail_config. exact Hw.
  - exists PhDataAccept. rewrite app_assoc. apply tail_rejected. exact Hv.
  - destruct (poll_events_last GPIO_EXT_PORTA P) as (P' & v & -> & ->).
    { destruct P; [discriminate Hlen|discriminate]. }
    exists PhDataAccept.
    rewrite <- app_assoc, app_assoc. apply tail_accept_timeout.
    apply Forall_app in HF. destruct HF as [_ HF].
    inversion HF; assumption.
  - destruct (poll_events_last DCLKSTAT P) as (P' & v & -> & ->).
    { destruct P; [discriminate Hlen|discriminate]. }
    exists PhInitialization.
    rewrite <- app_assoc, app_assoc. apply tail_dclk_timeout.
    apply Forall_app in HF. destruct HF as [_ HF].
    inversion HF; assumption.
  - exists PhUser. rewrite !app_assoc. apply tail_user. exact Hw.
Qed.

End Fresh.

Lemma failure_tail_event (ph : phase) (evs : list event) :
  failure_tail ph evs -> exists tr, evs = tr ++ [failure_event ph].
Proof.
  destruct 1 as [tr w H | tr w H | tr v H | tr v H | tr v H | tr w H].
  - exists (tr ++ [EvRead STAT w]). rewrite <- app_assoc. reflexivity.
  - exists (tr ++ [EvRead STAT w]). rewrite <- app_assoc. reflexivity.
  - exists (tr ++ [EvRead GPIO_EXT_PORTA v]). rewrite <- app_assoc. reflexivity.
  - exists (tr ++ [EvRead GPIO_EXT_PORTA v; EvSleep 10]).
    rewrite <- app_assoc. reflexivity.
  - exists (tr ++ [EvRead DCLKSTAT v; EvSleep 10]).
    rewrite <- app_assoc. reflexivity.
  - exists (tr ++ [EvRead STAT w]). rewrite <- app_assoc. reflexivity.
Qed.

Lemma failure_event_inj (ph ph' : phase) :
  failure_event ph = failure_event ph' -> ph = ph'.
Proof.
  intro H.
  assert (E : failures [failure_event ph] = failures [failure_event ph'])
    by (rewrite H; reflexivity).
  rewrite !failures_failure_event in E. congruence.
Qed.

(** A failing run: its phase, its tail, and what came before. *)
Lemma run_shape_failure (rbf_data : nat -> Z) (rbf_size : nat) (debug : bool)
    (evs : list event) :
  run_shape rbf_data rbf_size debug EXIT_FAILURE evs ->
  exists ph tr,
    failure_tail ph evs /\
    evs = tr ++ [failure_event ph] /\
    if phase_streams ph then streamed_trace rbf_data rbf_size tr else quiet tr.
Proof.
  intro H.
  destruct (run_shape_failure_tail _ _ _ _ H) as [ph Ht].
  destruct (run_shape_observed _ _ _ _ _ H)
    as [[Hz _] | (_ & ph' & tr & E & Hq)]; [discriminate Hz|].
  destruct (failure_tail_event _ _ Ht) as [tr' E'].
  assert (Hph : ph = ph').
  { rewrite E in E'. apply app_inj_tail in E'. destruct E' as [_ E'].
    symmetry. apply failure_event_inj. exact E'. }
  subst ph'. exists ph, tr. auto.
Qed.

(** ** The control register as storage *)

Lemma fake_ctrl_storage : ctrl_storage fk_ctrl.
Proof.
  split.
  - reflexivity.
  - intros r s. destruct r; simpl; try reflexivity;
      match goal with |- context [replay ?l] => destruct (replay l) end;
      reflexivity.
  - reflexivity.
  - intros r v s Hr. destruct r; try reflexivity. congruence.
  - reflexivity.
Qed.

Section CtrlLogic.
Context {dev : Type} {HW : Hardware dev}.
Variable ctrl_of : dev -> Z.
Hypothesis Hst : ctrl_storage ctrl_of.

Lemma triple_bind {A B} (p : Z -> Prop) (m : M dev A) (f : A -> M dev B)
    (q : A -> Z -> Prop) (q' : B -> Z -> Prop) (r : Z -> Z -> Prop) :
  ctrl_triple ctrl_of p m q r ->
  (forall a, ctrl_triple ctrl_of (q a) (f a) q' r) ->
  ctrl_triple ctrl_of p (bind m f) q' r.
Proof.
  intros Hm Hf s Hp. unfold bind. specialize (Hm s Hp).
  destruct (m s) as [[[a|z] s1] l1]; [|exact Hm].
  specialize (Hf a s1 Hm).
  destruct (f a s1) as [[[b|z] s2] l2]; exact Hf.
Qed.

Lemma kept_triple {A} (p : Z -> Prop) (m : M dev A) :
  ctrl_kept ctrl_of m ->
  ctrl_triple ctrl_of p m (fun _ c => p c) (fun z c => z = EXIT_FAILURE /\ p c).
Proof.
  intros Hm s Hp. specialize (Hm s).
  destruct (m s) as [[[a|z] s1] l1].
  - rewrite Hm. exact Hp.
  - destruct Hm as [-> ->]. auto.
Qed.

Lemma rmw_triple (f : Z -> Z) (p q : Z -> Prop) (r : Z -> Z -> Prop) :
  (forall c, p c -> q (f (u32 c))) ->
  ctrl_triple ctrl_of p (v <- read32 CTRL ;; write32 CTRL (f v)) (fun _ c => q c) r.
Proof.
  intros Hf s Hp. unfold bind, read32, write32.
  pose proof (cs_read _ Hst s) as Hr.
  destruct (hw_read CTRL s) as [v s1]. simpl in Hr. subst v.
  rewrite (cs_write _ Hst). auto.
Qed.

Lemma kept_ret {A} (a : A) : ctrl_kept ctrl_of (ret a).
Proof. intro s. reflexivity. Qed.

Lemma kept_early {A} : ctrl_kept ctrl_of (@early dev A EXIT_FAILURE).
Proof. intro s. simpl. auto. Qed.

Lemma kept_read32 (r : reg) : ctrl_kept ctrl_of (read32 r).
Proof.
  intro s. unfold read32.
  pose proof (cs_read_keeps _ Hst r s) as H.
  destruct (hw_read r s) as [v s1]. exact H.
Qed.

Lemma kept_write32 (r : reg) (v : Z) : r <> CTRL -> ctrl_kept ctrl_of (write32 r v).
Proof. intros Hr s. simpl. apply (cs_write_other _ Hst). exact Hr. Qed.

Lemma kept_usleep (us : Z) : ctrl_kept ctrl_of (usleep us).
Proof. intro s. simpl. apply (cs_sleep _ Hst). Qed.

Lemma kept_fprintf (f : stream) (msg : string) : ctrl_kept ctrl_of (fprintf f msg).
Proof. intro s. reflexivity. Qed.

Lemma kept_fetch (rbf_data : nat -> Z) (i : nat) : ctrl_kept ctrl_of (fetch rbf_data i).
Proof. intro s. reflexivity. Qed.

Lemma kept_bind {A B} (m : M dev A) (f : A -> M dev B) :
  ctrl_kept ctrl_of m -> (forall a, ctrl_kept ctrl_of (f a)) -> ctrl_kept ctrl_of (bind m f).
Proof.
  intros Hm Hf s. unfold bind. specialize (Hm s).
  destruct (m s) as [[[a|z] s1] l1]; [|exact Hm].
  specialize (Hf a s1).
  destruct (f a s1) as [[[b|z] s2] l2].
  - congruence.
  - destruct Hf as [Hf Hz]. split; congruence.
Qed.

Ltac kept_basic :=
  first [ assumption
        | apply kept_ret
        | apply kept_early
        | apply kept_read32
        | (apply kept_write32; discriminate)
        | apply kept_usleep
        | apply kept_fprintf
        | apply kept_fetch ].

Ltac kept_tac :=
  repeat first
    [ kept_basic
    | match goal with
      | |- ctrl_kept ctrl_of (if ?b then _ else _) => destruct b
      | |- ctrl_kept ctrl_of (bind _ _) => apply kept_bind; [|intro]
      end ].

Lemma kept_get_state : ctrl_kept ctrl_of get_state.
Proof. unfold get_state. kept_tac. Qed.

Lemma kept_debug_state (debug : bool) : ctrl_kept ctrl_of (debug_state debug).
Proof. unfold debug_state, print_state, get_state, printf. kept_tac. Qed.

Lemma kept_check_msel : ctrl_kept ctrl_of check_msel.
Proof. unfold check_msel, get_msel. kept_tac. Qed.

Lemma kept_poll_state (target : Z) (n : nat) : ctrl_kept ctrl_of (poll_state target n).
Proof.
  induction n as [|n IH]; cbn [poll_state]; [apply kept_ret|].
  apply kept_bind; [apply kept_get_state|intro st]. kept_tac.
Qed.

Lemma kept_stream_words (rbf_data : nat -> Z) (n i : nat) :
  ctrl_kept ctrl_of (stream_words rbf_data n i).
Proof.
  revert i. induction n as [|n IH]; intro i; cbn [stream_words];
    [apply kept_ret|].
  apply kept_bind; [apply kept_fetch|intro w].
  apply kept_bind; [apply kept_write32; discriminate|intros _]. apply IH.
Qed.

Lemma kept_poll_porta (n : nat) (status : Z) : ctrl_kept ctrl_of (poll_porta n status).
Proof.
  revert status. induction n as [|n IH]; intro status; cbn [poll_porta];
    [apply kept_ret|].
  apply kept_bind; [apply kept_read32|intro v]. cbv zeta.
  unfold printf.
  destruct (Z.land v (Z.lor cd ns) =? 0); [kept_tac|].
  destruct (Z.land v (Z.lor cd ns) =? Z.lor cd ns); [kept_tac|].
  apply kept_bind; [apply kept_usleep|intros _]. apply IH.
Qed.

Lemma kept_poll_dclk (n : nat) (status : Z) : ctrl_kept ctrl_of (poll_dclk n status).
Proof.
  revert status. induction n as [|n IH]; intro status; cbn [poll_dclk];
    [apply kept_ret|].
  apply kept_bind; [apply kept_read32|intro v]. cbv zeta.
  destruct (Z.land v dcntdone =? dcntdone); [kept_tac|].
  apply kept_bind; [apply kept_usleep|intros _]. apply IH.
Qed.

Lemma kept_wait (target : Z) (f : stream) (msg : string) (debug : bool) :
  ctrl_kept ctrl_of
    (poll_state target poll_budget ;;
     st <- get_state ;;
     (if negb (st =? target)
      then (fprintf f msg ;; early EXIT_FAILURE)
      else ret tt) ;;
     debug_state debug).
Proof.
  apply kept_bind; [apply kept_poll_state|intros _].
  apply kept_bind; [apply kept_get_state|intro st].
  apply kept_bind; [kept_tac|intros _]. apply kept_debug_state.
Qed.

Lemma kept_step_11 (debug : bool) (status0 : Z) :
  ctrl_kept ctrl_of (step_11 debug status0).
Proof.
  unfold step_11, printf.
  apply kept_bind; [apply kept_poll_porta|intro st].
  apply kept_bind; [kept_tac|intros _].
  apply kept_bind; [apply kept_debug_state|intros _]. apply kept_ret.
Qed.

Lemma kept_step_13a : ctrl_kept ctrl_of step_13a.
Proof. unfold step_13a. kept_tac. Qed.

Lemma kept_step_14 (status : Z) : ctrl_kept ctrl_of (step_14 status).
Proof.
  unfold step_14, printf.
  apply kept_bind; [apply kept_poll_dclk|intro st]. kept_tac.
Qed.

Lemma idle_triple {A} (p : Z -> Prop) (r : Z -> Z -> Prop) (m : M dev A) :
  ctrl_idle ctrl_of m -> ctrl_triple ctrl_of p m (fun _ c => p c) r.
Proof.
  intros Hm s Hp. specialize (Hm s).
  destruct (m s) as [[[a|z] s1] l1]; [|destruct Hm].
  rewrite Hm. exact Hp.
Qed.

Lemma idle_check_msel : ctrl_idle ctrl_of check_msel.
Proof.
  intro s. unfold check_msel, get_msel, bind, read32, ret, fprintf.
  pose proof (cs_read_keeps _ Hst STAT s) as H.
  destruct (hw_read STAT s) as [v s1]. simpl in H.
  destruct (negb (Z.land (Z.shiftr (u32 v) 3) 31 =? 10)); exact H.
Qed.

Lemma idle_write32 (r : reg) (v : Z) : r <> CTRL -> ctrl_idle ctrl_of (write32 r v).
Proof. intros Hr s. simpl. apply (cs_write_other _ Hst). exact Hr. Qed.

Lemma land_en (c : Z) : Z.land c en = if Z.testbit c 0 then 1 else 0.
Proof.
  change en with (Z.ones 1). rewrite Z.land_ones by lia.
  rewrite Z.bit0_odd. change (2 ^ 1) with 2. apply Zmod_odd.
Qed.

Lemma en_set_bit (c : Z) : Z.land c en = en <-> Z.testbit c 0 = true.
Proof. rewrite land_en. destruct (Z.testbit c 0); split; auto; discriminate. Qed.

Lemma en_clear_bit (c : Z) : Z.land c en = 0 <-> Z.testbit c 0 = false.
Proof. rewrite land_en. destruct (Z.testbit c 0); split; auto; discriminate. Qed.

Lemma bit0_u32 (c : Z) : Z.testbit (u32 c) 0 = Z.testbit c 0.
Proof. unfold u32. rewrite Z.land_spec. apply andb_true_r. Qed.

(** Setting or clearing a bit other than [en] keeps [en] as it is read. *)
Lemma en_kept_lor (x c : Z) :
  Z.land c en = en -> Z.land (Z.lor (u32 c) x) en = en.
Proof.
  intro H. apply en_set_bit in H. apply en_set_bit.
  rewrite Z.lor_spec, bit0_u32, H. reflexivity.
Qed.

Lemma en_kept_land (x c : Z) :
  Z.testbit (not32 x) 0 = true ->
  Z.land c en = en -> Z.land (Z.land (u32 c) (not32 x)) en = en.
Proof.
  intros Hx H. apply en_set_bit in H. apply en_set_bit.
  rewrite Z.land_spec, bit0_u32, Hx, H. reflexivity.
Qed.

Lemma en_cleared (c : Z) : Z.land (Z.land (u32 c) (not32 en)) en = 0.
Proof. rewrite en_clear_bit, Z.land_spec. apply andb_false_r. Qed.

(** The enable bit along a run: set at step 3, kept by every later step
    but the last, cleared by step 17. *)
Lemma loadFPGA_ctrl (rbf_data : nat -> Z) (rbf_size : nat) (debug : bool) :
  ctrl_triple ctrl_of (fun _ => True)
    (check_msel ;; configure rbf_data rbf_size debug)
    (fun z c => z = EXIT_SUCCESS /\ Z.land c en = 0)
    (fun z c => z = EXIT_FAILURE /\ Z.land c en = en).
Proof.
  eapply triple_bind; [apply idle_triple, idle_check_msel|intros []].
  unfold configure.
  eapply triple_bind;
    [apply idle_triple, idle_write32; discriminate|intros []].
  eapply triple_bind;
    [apply (rmw_triple _ _ (fun _ => True)); auto|intros []].
  eapply triple_bind;
    [apply (rmw_triple _ _ (fun _ => True)); auto|intros []].
  eapply triple_bind;
    [apply (rmw_triple _ _ (fun c => Z.land c en = en));
     intros c _; apply en_set_bit; rewrite Z.lor_spec; apply orb_true_r
    |intros []].
  eapply triple_bind;
    [apply (rmw_triple _ _ (fun c => Z.land c en = en));
     apply en_kept_lor|intros []].
  eapply triple_bind; [apply kept_triple, kept_wait|intros []].
  eapply triple_bind;
    [apply (rmw_triple _ _ (fun c => Z.land c en = en));
     intros c Hc; apply en_kept_land; [reflexivity|exact Hc]|intros []].
  eapply triple_bind; [apply kept_triple, kept_wait|intros []].
  eapply triple_bind;
    [apply kept_triple, kept_write32; discriminate|intros []].
  eapply triple_bind;
    [apply (rmw_triple _ _ (fun c => Z.land c en = en));
     apply en_kept_lor|intros []].
  eapply triple_bind; [apply kept_triple, kept_stream_words|intros []].
  eapply triple_bind; [apply kept_triple, kept_step_11|intro status].
  eapply triple_bind;
    [apply (rmw_triple _ _ (fun c => Z.land c en = en));
     intros c Hc; apply en_kept_land; [reflexivity|exact Hc]|intros []].
  eapply triple_bind; [apply kept_triple, kept_step_13a|intros []].
  eapply triple_bind;
    [apply kept_triple, kept_write32; discriminate|intros []].
  eapply triple_bind; [apply kept_triple, kept_step_14|intros []].
  eapply triple_bind;
    [apply kept_triple, kept_write32; discriminate|intros []].
  eapply triple_bind; [apply kept_triple, kept_wait|intros []].
  eapply triple_bind;
    [apply (rmw_triple _ _ (fun c => Z.land c en = 0));
     intros c _; apply en_cleared|intros []].
  intros s Hs. simpl. auto.
Qed.

Lemma fields_u32 (c : Z) :
  Z.land (u32 c) (Z.lor cdratio cfgwdth) = Z.land c (Z.lor cdratio cfgwdth).
Proof. unfold u32. rewrite <- Z.land_assoc. reflexivity. Qed.

Lemma fields_kept_lor (x c : Z) :
  Z.land x (Z.lor cdratio cfgwdth) = 0 ->
  Z.land (Z.lor (u32 c) x) (Z.lor cdratio cfgwdth) =
  Z.land c (Z.lor cdratio cfgwdth).
Proof.
  intro Hx. rewrite Z.land_lor_distr_l, Hx, Z.lor_0_r. apply fields_u32.
Qed.

Lemma fields_kept_land (x c : Z) :
  Z.land x (Z.lor cdratio cfgwdth) = Z.lor cdratio cfgwdth ->
  Z.land (Z.land (u32 c) x) (Z.lor cdratio cfgwdth) =
  Z.land c (Z.lor cdratio cfgwdth).
Proof.
  intro Hx. rewrite <- Z.land_assoc, Hx. apply fields_u32.
Qed.

Lemma fields_kept_step_1 (c : Z) :
  Z.land (Z.lor 0x01 (Z.land (u32 c) 0x02c0)) (Z.lor cdratio cfgwdth) =
  Z.land c (Z.lor cdratio cfgwdth).
Proof.
  rewrite Z.land_lor_distr_l, <- Z.land_assoc.
  change (Z.land 1 (Z.lor cdratio cfgwdth)) with 0.
  change (Z.land 704 (Z.lor cdratio cfgwdth)) with (Z.lor cdratio cfgwdth).
  rewrite Z.lor_0_l. apply fields_u32.
Qed.

(** The [cdratio] and [cfgwdth] fields along a run: no step changes them. *)
Lemma loadFPGA_fields (k : Z) (rbf_data : nat -> Z) (rbf_size : nat)
    (debug : bool) :
  ctrl_triple ctrl_of (fun c => Z.land c (Z.lor cdratio cfgwdth) = k)
    (check_msel ;; configure rbf_data rbf_size debug)
    (fun _ c => Z.land c (Z.lor cdratio cfgwdth) = k)
    (fun z c => z = EXIT_FAILURE /\ Z.land c (Z.lor cdratio cfgwdth) = k).
Proof.
  pose (K := fun c => Z.land c (Z.lor cdratio cfgwdth) = k).
  assert (Hlor : forall x, Z.land x (Z.lor cdratio cfgwdth) = 0 ->
            forall r, ctrl_triple ctrl_of K
              (v <- read32 CTRL ;; write32 CTRL (Z.lor v x)) (fun _ c => K c) r).
  { intros x Hx r. apply rmw_triple. intros c Hc. unfold K in *.
    rewrite fields_kept_lor; assumption. }
  assert (Hland : forall x,
            Z.land x (Z.lor cdratio cfgwdth) = Z.lor cdratio cfgwdth ->
            forall r, ctrl_triple ctrl_of K
              (v <- read32 CTRL ;; write32 CTRL (Z.land v x)) (fun _ c => K c) r).
  { intros x Hx r. apply rmw_triple. intros c Hc. unfold K in *.
    rewrite fields_kept_land; assumption. }
  change (ctrl_triple ctrl_of K
            (check_msel ;; configure rbf_data rbf_size debug)
            (fun _ c => K c) (fun z c => z = EXIT_FAILURE /\ K c)).
  eapply triple_bind; [apply idle_triple, idle_check_msel|intros []].
  unfold configure.
  eapply triple_bind;
    [apply idle_triple, idle_write32; discriminate|intros []].
  eapply triple_bind;
    [apply (rmw_triple _ _ K); intros c Hc; unfold K in *;
     rewrite fields_kept_step_1; assumption|intros []].
  eapply triple_bind; [apply Hland; reflexivity|intros []].
  eapply triple_bind; [apply Hlor; reflexivity|intros []].
  eapply triple_bind; [apply Hlor; reflexivity|intros []].
  eapply triple_bind; [apply kept_triple, kept_wait|intros []].
  eapply triple_bind; [apply Hland; reflexivity|intros []].
  eapply triple_bind; [apply kept_triple, kept_wait|intros []].
  eapply triple_bind;
    [apply kept_triple, kept_write32; discriminate|intros []].
  eapply triple_bind; [apply Hlor; reflexivity|intros []].
  eapply triple_bind; [apply kept_triple, kept_stream_words|intros []].
  eapply triple_bind; [apply kept_triple, kept_step_11|intro status].
  eapply triple_bind; [apply Hland; reflexivity|intros []].
  eapply triple_bind; [apply kept_triple, kept_step_13a|intros []].
  eapply triple_bind;
    [apply kept_triple, kept_write32; discriminate|intros []].
  eapply triple_bind; [apply kept_triple, kept_step_14|intros []].
  eapply triple_bind;
    [apply kept_triple, kept_write32; discriminate|intros []].
  eapply triple_bind; [apply kept_triple, kept_wait|intros []].
  eapply triple_bind; [apply Hland; reflexivity|intros []].
  intros s Hs. exact Hs.
Qed.

End CtrlLogic.

(** * The claims *)

(** The run on [nstatus_low_board]: two port-A samples, the first with
    nSTATUS = 0, and a successful end. *)
Lemma nstatus_low_run :
  let run := loadFPGA (buffer_of [10; 20; 30]) 3 false nstatus_low_board in
  value run = EXIT_SUCCESS /\
  samples GPIO_EXT_PORTA (events run) = [0x2; 0x3] /\
  In (EvRead GPIO_EXT_PORTA 0x2) (events run).
Proof. vm_compute. auto 40. Qed.

(** The run on [nstatus_stuck_board]: port A shows nSTATUS = 0 from the
    first sample on, and the run samples it [poll_budget] times, with a
    delay after each sample, before it gives up. *)
Lemma nstatus_stuck_run :
  let run := loadFPGA (buffer_of [10; 20; 30]) 3 false nstatus_stuck_board in
  value run = EXIT_FAILURE /\
  samples GPIO_EXT_PORTA (events run) = repeat 0x2 poll_budget /\
  failures (events run) = [PhDataAccept].
Proof. vm_compute. auto. Qed.

(** C1, the failing input: a port-A sample with CONF_DONE = 1 and
    nSTATUS = 0.  The rule that a sample with CONF_DONE = 0 or nSTATUS = 0
    fails the run on that very sample does not hold of the code: on
    [nstatus_low_board] the first sample has nSTATUS = 0, yet the poll goes
    on, the next sample has both bits at 1 and the run returns
    [EXIT_SUCCESS]. *)
Lemma rejects_on_any_zero_bit_fails : ~ rejects_on_any_zero_bit.
Proof.
  intro H.
  destruct nstatus_low_run as (Hv & _ & Hin).
  destruct (H fake fake_hw nstatus_low_board (buffer_of [10; 20; 30]) 3%nat
              false 0x2 Hin (or_intror eq_refl)) as [Hf _].
  rewrite Hv in Hf. discriminate Hf.
Qed.

(** C1 (what the code does): the data-accept poll takes at most
    [poll_budget] samples of
    port A and looks at each through the mask {CONF_DONE, nSTATUS}.  Both
    bits at 1: the poll ends well and the step goes on (to its debug
    output).  Both bits at 0: the step prints the diagnostic and returns
    [EXIT_FAILURE] at once, with no further sample.  Exactly one bit at 1:
    the step sleeps and samples again; if all [poll_budget] samples are of
    this kind it prints the diagnostic and returns [EXIT_FAILURE]. *)
Theorem data_accept_poll {dev : Type} {HW : Hardware dev} (s : dev)
    (debug : bool) (status0 : Z) :
  match step_11 debug status0 s with
  | (Cont _, _, l) =>
      exists P v d,
        l = poll_events GPIO_EXT_PORTA P ++
            [EvRead GPIO_EXT_PORTA v] ++ debug_events debug d /\
        (List.length P < poll_budget)%nat /\
        Forall (fun p => status_of p = ns \/ status_of p = cd) P /\
        status_of v = Z.lor cd ns
  | (Return z, _, l) =>
      z = EXIT_FAILURE /\
      exists P,
        Forall (fun p => status_of p = ns \/ status_of p = cd) P /\
        ((exists v,
            l = poll_events GPIO_EXT_PORTA P ++
                [EvRead GPIO_EXT_PORTA v; EvPrint stdout init_failed] /\
            (List.length P < poll_budget)%nat /\ status_of v = 0) \/
         (l = poll_events GPIO_EXT_PORTA P ++ [EvPrint stdout init_failed] /\
          List.length P = poll_budget))
  end.
Proof.
  pose proof (step_11_spec debug status0 s) as H.
  assert (G : forall P, Forall pending P ->
                Forall (fun p => status_of p = ns \/ status_of p = cd) P).
  { intros P HP. apply (Forall_impl _ (fun p => proj1 (pending_one_bit p)) HP). }
  destruct (step_11 debug status0 s) as [[[st|z] s'] l].
  - destruct H as (P & v & d & E & Hlen & HF & Hv).
    exists P, v, d. auto.
  - destruct H as (Hz & P & HF & Hcases).
    split; [exact Hz|]. exists P. split; [auto|]. exact Hcases.
Qed.

(** C2: a run of [loadFPGA], on any device and for any image, ends in
    exactly one of two ways.  Either it returns [EXIT_SUCCESS], prints no
    failure diagnostic, has sampled the User mode and ends with the write
    that clears [en]; or it returns [EXIT_FAILURE] and there is exactly one
    phase [ph] such that the run ends with the failed check of [ph] and its
    diagnostic, this diagnostic is the only failure diagnostic of the run,
    and the image was streamed or not according to whether [ph] comes after
    the streaming.  The two return values differ and the five diagnostics
    are told apart by [failure_tag]. *)
Theorem loadFPGA_outcome {dev : Type} {HW : Hardware dev} (s : dev)
    (rbf_data : nat -> Z) (rbf_size : nat) (debug : bool) :
  let run := loadFPGA rbf_data rbf_size debug s in
  ((value run = EXIT_SUCCESS /\
    failures (events run) = [] /\
    (exists v, In (EvRead STAT v) (events run) /\ mode_of v = mode_user) /\
    (exists tr c,
       events run = tr ++ [EvRead CTRL c; EvWrite CTRL (Z.land c (not32 en))]))
   \/
   (value run = EXIT_FAILURE /\
    exists ph,
      failure_tail ph (events run) /\
      (exists tr, events run = tr ++ [failure_event ph]) /\
      failures (events run) = [ph] /\
      reaches_streaming (events run) = phase_streams ph)) /\
  EXIT_SUCCESS <> EXIT_FAILURE /\
  (forall ph, failure_tag (snd (failure_message ph)) = Some ph).
Proof.
  intro run. split; [|split; [discriminate | intros []; vm_compute; reflexivity]].
  pose proof (loadFPGA_run_shape rbf_data rbf_size debug s) as H.
  fold run in H.
  destruct (run_shape_observed _ _ _ _ _ H) as [[Hz Hs] | (Hz & _)].
  - left. split; [exact Hz|].
    split; [apply (streamed_trace_observed _ _ _ Hs)|].
    rewrite Hz in H. inversion H as [ | | | | | | tr c Htr Ez Eevs].
    split.
    + destruct (in_user_saw_user _ _ _ _ Htr) as (v & Hin & Hv).
      exists v. split; [|exact Hv]. apply in_or_app. left. exact Hin.
    + exists tr, c. reflexivity.
  - right. split; [exact Hz|]. rewrite Hz in H.
    destruct (run_shape_failure _ _ _ _ H) as (ph & tr & Ht & E & Hq).
    exists ph. split; [exact Ht|]. split; [exists tr; exact E|].
    rewrite E, failures_app, reaches_streaming_app, failures_failure_event.
    replace (reaches_streaming [failure_event ph]) with false
      by (destruct ph; reflexivity).
    rewrite orb_false_r.
    destruct (phase_streams ph).
    + destruct (streamed_trace_observed _ _ _ Hq) as (_ & _ & Hf & Hr).
      rewrite Hf, Hr. auto.
    + destruct (quiet_observed _ Hq) as (_ & _ & Hf & Hr).
      rewrite Hf, Hr. auto.
Qed.

(** C3: in a run that reaches the streaming step, the words written to the
    configuration data port are exactly the words of the image, in the order
    of the image, and the image buffer is loaded from at the indices
    0, 1, ..., N-1, each once and in this order.  (The buffer is reached
    through a pointer to const: no operation of the sequencer stores to
    it.)  A run that does not reach the streaming step writes nothing to
    the data port. *)
Theorem streaming_writes_image {dev : Type} {HW : Hardware dev} (s : dev)
    (image : list Z) (debug : bool) :
  let evs := events (loadFPGA (buffer_of image) (List.length image) debug s) in
  (reaches_streaming evs = true ->
     data_writes evs = image /\
     List.length (data_writes evs) = List.length image /\
     fetches evs = seq 0 (List.length image)) /\
  (reaches_streaming evs = false -> data_writes evs = [] /\ fetches evs = []).
Proof.
  intro evs.
  pose proof (loadFPGA_run_shape (buffer_of image) (List.length image) debug s)
    as H.
  fold evs in H.
  assert (G : (reaches_streaming evs = true /\
               data_writes evs = image /\ fetches evs = seq 0 (List.length image))
              \/ (reaches_streaming evs = false /\
                  data_writes evs = [] /\ fetches evs = [])).
  { destruct (run_shape_observed _ _ _ _ _ H)
      as [[Hz Hs] | (Hz & ph & tr & E & Hq)].
    - left. destruct (streamed_trace_observed _ _ _ Hs) as (A & B & C & D).
      rewrite buffer_of_seq in A. auto.
    - rewrite E, reaches_streaming_app, data_writes_app, fetches_app.
      replace (reaches_streaming [failure_event ph]) with false
        by (destruct ph; reflexivity).
      replace (data_writes [failure_event ph]) with (@nil Z)
        by (destruct ph; reflexivity).
      replace (fetches [failure_event ph]) with (@nil nat)
        by (destruct ph; reflexivity).
      rewrite orb_false_r, !app_nil_r.
      destruct (phase_streams ph).
      + left. destruct (streamed_trace_observed _ _ _ Hq) as (A & B & C & D).
        rewrite buffer_of_seq in A. auto.
      + right. destruct (quiet_observed _ Hq) as (A & B & C & D). auto. }
  split; intro Hr; destruct G as [(R & A & B) | (R & A & B)];
    try congruence; auto.
  rewrite A. auto.
Qed.

(** Witness of C3: the three-word image on the well-behaved board. *)
Lemma streaming_writes_image_witness :
  let evs := events (loadFPGA (buffer_of [10; 20; 30]) 3 false good_board) in
  reaches_streaming evs = true /\ data_writes evs = [10; 20; 30] /\
  fetches evs = [0; 1; 2]%nat.
Proof.
  intro evs.
  assert (R : reaches_streaming evs = true) by (vm_compute; reflexivity).
  split; [exact R|].
  destruct (streaming_writes_image good_board [10; 20; 30] false) as [H _].
  destruct (H R) as (A & _ & B). split; [exact A | exact B].
Defined.

(** The run on [late_dclk_board]: it fails with the DCLK diagnostic, the
    event before the diagnostic is the last delay, the DCLK status register
    was read [S dclk_budget] times, and a read of it in the final state of
    the device returns the done bit. *)
Lemma late_dclk_run :
  let run := loadFPGA (buffer_of [10; 20; 30]) 3 false late_dclk_board in
  value run = EXIT_FAILURE /\
  events run = removelast (events run) ++ [EvPrint stdout dclk_failed] /\
  last (removelast (events run)) (EvFetch 0) = EvSleep 10 /\
  List.length (samples DCLKSTAT (events run)) = S dclk_budget /\
  fst (hw_read DCLKSTAT (final run)) = dcntdone.
Proof. vm_compute. auto. Qed.

(** C4, counterexample: on [late_dclk_board] the run fails with the DCLK
    diagnostic although the register, read at the moment of the decision,
    would show the done bit: the decision is taken on the sample of the
    last iteration, and the event before the diagnostic is the delay. *)
Lemma decides_on_fresh_read_fails : ~ decides_on_fresh_read.
Proof.
  intro H.
  destruct late_dclk_run as (Hv & Hev & Hlast & _).
  destruct (H fake fake_hw late_dclk_board (buffer_of [10; 20; 30]) 3%nat false
              _ stdout dclk_failed Hv Hev) as (tr' & r & v & E).
  rewrite E, last_last in Hlast. discriminate Hlast.
Qed.

(** C4, amended: in every run each delay comes straight after a register
    read, so that every iteration of a poll loop takes its own sample.  The
    decisions of the three mode waits (Reset, Configuration, User), to go
    on as well as to fail, are taken on a status sample of their own that
    is read after the poll loop is over: this holds of steps 5, 7 and 16
    from every device state, and of the run as a whole, which has one of
    the seven shapes of [run_shape] (in each of them every mode wait is a
    complete poll loop followed by the sample [w] that is decided on).  The
    immediate rejection of the data-accept poll is taken on the sample read
    just before; the failure decisions taken when the data-accept poll or
    the DCLK poll runs out of budget are taken on the sample of the last
    iteration, read before the last delay, without another read. *)
Theorem polls_sample_in_every_iteration {dev : Type} {HW : Hardware dev}
    (s : dev) (rbf_data : nat -> Z) (rbf_size : nat) (debug : bool) :
  let run := loadFPGA rbf_data rbf_size debug s in
  fresh (events run) /\
  (value run = EXIT_FAILURE -> exists ph, failure_tail ph (events run)) /\
  run_shape rbf_data rbf_size debug (value run) (events run) /\
  (forall s' : dev,
     decided_after_loop mode_reset stderr reset_failed debug
       (step_5 debug s') /\
     decided_after_loop mode_config stdout config_failed debug
       (step_7 debug s') /\
     decided_after_loop mode_user stdout user_failed debug
       (step_16 debug s')).
Proof.
  intro run.
  pose proof (loadFPGA_run_shape rbf_data rbf_size debug s) as H. fold run in H.
  split; [|split; [|split]].
  - exact (run_shape_fresh _ _ _ _ _ H).
  - intro Hz. rewrite Hz in H. exact (run_shape_failure_tail _ _ _ _ H).
  - exact H.
  - intro s'. split; [|split].
    + pose proof (wait_spec mode_reset stderr reset_failed debug s') as W.
      unfold decided_after_loop.
      change (step_5 debug s')
        with ((poll_state mode_reset poll_budget ;;
               st <- get_state ;;
               (if negb (st =? mode_reset)
                then (fprintf stderr reset_failed ;; early EXIT_FAILURE)
                else ret tt) ;;
               debug_state debug) s').
      destruct ((poll_state mode_reset poll_budget ;;
                 st <- get_state ;;
                 (if negb (st =? mode_reset)
                  then (fprintf stderr reset_failed ;; early EXIT_FAILURE)
                  else ret tt) ;;
                 debug_state debug) s') as [[[u|z] s1] l]; exact W.
    + pose proof (wait_spec mode_config stdout config_failed debug s') as W.
      unfold decided_after_loop.
      change (step_7 debug s')
        with ((poll_state mode_config poll_budget ;;
               st <- get_state ;;
               (if negb (st =? mode_config)
                then (fprintf stdout config_failed ;; early EXIT_FAILURE)
                else ret tt) ;;
               debug_state debug) s').
      destruct ((poll_state mode_config poll_budget ;;
                 st <- get_state ;;
                 (if negb (st =? mode_config)
                  then (fprintf stdout config_failed ;; early EXIT_FAILURE)
                  else ret tt) ;;
                 debug_state debug) s') as [[[u|z] s1] l]; exact W.
    + pose proof (wait_spec mode_user stdout user_failed debug s') as W.
      unfold decided_after_loop.
      change (step_16 debug s')
        with ((poll_state mode_user poll_budget ;;
               st <- get_state ;;
               (if negb (st =? mode_user)
                then (fprintf stdout user_failed ;; early EXIT_FAILURE)
                else ret tt) ;;
               debug_state debug) s').
      destruct ((poll_state mode_user poll_budget ;;
                 st <- get_state ;;
                 (if negb (st =? mode_user)
                  then (fprintf stdout user_failed ;; early EXIT_FAILURE)
                  else ret tt) ;;
                 debug_state debug) s') as [[[u|z] s1] l]; exact W.
Qed.

(** Witness of the amended C4: the board whose DCLK-done bit comes late. *)
Lemma polls_sample_in_every_iteration_witness :
  let run := loadFPGA (buffer_of [10; 20; 30]) 3 false late_dclk_board in
  value run = EXIT_FAILURE /\ fresh (events run) /\
  exists ph, failure_tail ph (events run).
Proof.
  intro run.
  assert (Hz : value run = EXIT_FAILURE) by (vm_compute; reflexivity).
  destruct (polls_sample_in_every_iteration late_dclk_board
              (buffer_of [10; 20; 30]) 3 false) as (Hf & Ht & _).
  split; [exact Hz|]. split; [exact Hf | exact (Ht Hz)].
Defined.

(** C5 (what the code does): the value that step 1 stores in the control
    register is [0x01 | (c & 0x02c0)] for the value [c] it has just read
    there, so the [cdratio] and [cfgwdth] fields it writes are the ones the
    register held before; and on a device whose control register is storage
    these two fields are, at the end of every run, what they were at its
    start.  No step puts a constant into them. *)
Theorem cdratio_cfgwdth_never_set {dev : Type} {HW : Hardware dev}
    (ctrl_of : dev -> Z) (Hst : ctrl_storage ctrl_of) (s : dev)
    (rbf_data : nat -> Z) (rbf_size : nat) (debug : bool) :
  let c := u32 (fst (hw_read CTRL s)) in
  let w := Z.lor 0x01 (Z.land c 0x02c0) in
  step_1 s = (Cont tt, hw_write CTRL w (snd (hw_read CTRL s)),
              [EvRead CTRL c; EvWrite CTRL w]) /\
  Z.land w (Z.lor cdratio cfgwdth) = Z.land c (Z.lor cdratio cfgwdth) /\
  Z.land (ctrl_of (final (loadFPGA rbf_data rbf_size debug s)))
         (Z.lor cdratio cfgwdth) =
  Z.land (ctrl_of s) (Z.lor cdratio cfgwdth).
Proof.
  intros c w. split; [|split].
  - unfold step_1, bind, read32, write32, w, c.
    destruct (hw_read CTRL s) as [v s']. reflexivity.
  - unfold w. rewrite Z.land_lor_distr_l, <- Z.land_assoc.
    change (Z.land 1 (Z.lor cdratio cfgwdth)) with 0.
    change (Z.land 704 (Z.lor cdratio cfgwdth)) with (Z.lor cdratio cfgwdth).
    apply Z.lor_0_l.
  - pose proof (loadFPGA_fields ctrl_of Hst _ rbf_data rbf_size debug s eq_refl)
      as T.
    unfold loadFPGA, call.
    destruct ((check_msel ;; configure rbf_data rbf_size debug) s)
      as [[[z|z] s'] l]; cbn [final fst snd].
    + exact T.
    + apply T.
Qed.

(** C5, the failing input: on the board whose control register holds zero,
    step 1 writes 0x001 and the register ends the run with [cdratio] and
    [cfgwdth] still at zero; on the board where it holds 0x2c0, step 1
    writes 0x2c1. *)
Lemma cdratio_cfgwdth_never_set_witness :
  firstn 4 (events (loadFPGA (buffer_of []) 0 false blank_ctrl_board)) =
    [EvRead STAT 0x50; EvWrite SYSMGR_MODULE 0;
     EvRead CTRL 0x000; EvWrite CTRL 0x001] /\
  firstn 4 (events (loadFPGA (buffer_of []) 0 false good_board)) =
    [EvRead STAT 0x50; EvWrite SYSMGR_MODULE 0;
     EvRead CTRL 0x2c0; EvWrite CTRL 0x2c1] /\
  Z.land (fk_ctrl (final (loadFPGA (buffer_of []) 0 false blank_ctrl_board)))
         (Z.lor cdratio cfgwdth) = 0.
Proof.
  split; [vm_compute; reflexivity|]. split; [vm_compute; reflexivity|].
  apply (cdratio_cfgwdth_never_set fk_ctrl fake_ctrl_storage blank_ctrl_board
           (buffer_of []) 0 false).
Defined.

(** C6: if no status sample taken after the strap check shows the Reset
    mode, the run returns [EXIT_FAILURE], its only failure diagnostic is the
    one of the Reset phase and is the last event of the run, and nothing of
    a later phase happens: the only locations written are those of steps
    0.a to 4, no image word is loaded and the configuration data port is
    never written. *)
Theorem reset_timeout_stops_run {dev : Type} {HW : Hardware dev} (s : dev)
    (rbf_data : nat -> Z) (rbf_size : nat) (debug : bool) :
  let run := loadFPGA rbf_data rbf_size debug s in
  (forall v, In (EvRead STAT v) (tl (events run)) -> mode_of v <> mode_reset) ->
  value run = EXIT_FAILURE /\
  failures (events run) = [PhReset] /\
  (exists tr, events run = tr ++ [EvPrint stderr reset_failed]) /\
  written (events run) = [SYSMGR_MODULE; CTRL; CTRL; CTRL; CTRL] /\
  reaches_streaming (events run) = false /\
  fetches (events run) = [] /\
  data_writes (events run) = [].
Proof.
  intros run Hno.
  pose proof (loadFPGA_run_shape rbf_data rbf_size debug s) as H.
  fold run in H.
  destruct (run_shape_reset_cases _ _ _ _ _ H)
    as [(Hz & m & c1 & c2 & c3 & c4 & L & w & HL & Hw & E) | Hpast].
  - split; [exact Hz|]. rewrite E.
    assert (Q : quiet (setup_events m c1 c2 c3 c4 ++ L ++ [EvRead STAT w]))
      by quiet_tac.
    destruct (quiet_observed _ Q) as (A & B & C & D).
    replace (setup_events m c1 c2 c3 c4 ++ L ++
             [EvRead STAT w; EvPrint stderr reset_failed])
      with ((setup_events m c1 c2 c3 c4 ++ L ++ [EvRead STAT w]) ++
            [EvPrint stderr reset_failed])
      by (rewrite <- !app_assoc; reflexivity).
    rewrite failures_app, reaches_streaming_app, fetches_app, data_writes_app.
    rewrite A, B, C, D.
    repeat split; try reflexivity.
    + eexists. reflexivity.
    + rewrite !written_app, written_setup_events,
        (written_state_poll _ _ _ HL). reflexivity.
  - exfalso.
    destruct (past_reset_sample _ _ Hpast) as (w & Hin & Hw).
    exact (Hno w Hin Hw).
Qed.

(** Witness of C6. *)
Lemma reset_timeout_stops_run_witness :
  let run := loadFPGA (buffer_of [10; 20; 30]) 3 false stuck_board in
  value run = EXIT_FAILURE /\ data_writes (events run) = [] /\
  written (events run) = [SYSMGR_MODULE; CTRL; CTRL; CTRL; CTRL].
Proof.
  intro run.
  assert (Hno : forall v, In (EvRead STAT v) (tl (events run)) ->
                          mode_of v <> mode_reset).
  { intros v Hin.
    assert (Hall : forallb (fun e => match e with
                                     | EvRead STAT v' => negb (mode_of v' =? mode_reset)
                                     | _ => true
                                     end) (tl (events run)) = true)
      by (vm_compute; reflexivity).
    rewrite forallb_forall in Hall. specialize (Hall _ Hin). simpl in Hall.
    apply negb_true_iff, Z.eqb_neq in Hall. exact Hall. }
  destruct (reset_timeout_stops_run stuck_board (buffer_of [10; 20; 30]) 3 false Hno)
    as (A & _ & _ & B & _ & _ & C).
  repeat split; assumption.
Defined.

(** C7: on a device whose control register is storage, a run that returns
    [EXIT_SUCCESS] ends with the read-modify-write of step 17, whose stored
    value has [en] cleared, and leaves the register with [en] cleared; a run
    that returns [EXIT_FAILURE] ends with the failed sample (a register
    read), at most one delay and the diagnostic, writes nothing after that
    sample, and leaves the register with [en] still set. *)
Theorem enable_handed_back_only_on_success {dev : Type} {HW : Hardware dev}
    (ctrl_of : dev -> Z) (Hst : ctrl_storage ctrl_of) (s : dev)
    (rbf_data : nat -> Z) (rbf_size : nat) (debug : bool) :
  let run := loadFPGA rbf_data rbf_size debug s in
  (value run = EXIT_SUCCESS ->
     (exists tr c,
        events run = tr ++ [EvRead CTRL c; EvWrite CTRL (Z.land c (not32 en))] /\
        Z.land (Z.land c (not32 en)) en = 0) /\
     Z.land (ctrl_of (final run)) en = 0) /\
  (value run = EXIT_FAILURE ->
     (exists ph, failure_tail ph (events run)) /\
     Z.land (ctrl_of (final run)) en = en).
Proof.
  intro run.
  pose proof (loadFPGA_run_shape rbf_data rbf_size debug s) as H. fold run in H.
  pose proof (loadFPGA_ctrl ctrl_of Hst rbf_data rbf_size debug s I) as T.
  assert (E : match (check_msel ;; configure rbf_data rbf_size debug) s with
              | (Cont z, s', l) => run = (z, s', l)
              | (Return z, s', l) => run = (z, s', l)
              end).
  { unfold run, loadFPGA, call.
    destruct ((check_msel ;; configure rbf_data rbf_size debug) s)
      as [[[z|z] s'] l]; reflexivity. }
  split; intro Hz.
  - split.
    + rewrite Hz in H. inversion H as [ | | | | | | tr c Htr Ez Eevs].
      exists tr, c. split; [reflexivity|].
      rewrite <- Z.land_assoc. change (Z.land (not32 en) en) with 0.
      apply Z.land_0_r.
    + destruct ((check_msel ;; configure rbf_data rbf_size debug) s)
        as [[[z|z] s'] l]; rewrite E in *; cbn in Hz |- *.
      * apply T.
      * destruct T as [T _]. rewrite T in Hz. discriminate Hz.
  - split.
    + rewrite Hz in H. exact (run_shape_failure_tail _ _ _ _ H).
    + destruct ((check_msel ;; configure rbf_data rbf_size debug) s)
        as [[[z|z] s'] l]; rewrite E in *; cbn in Hz |- *.
      * destruct T as [T _]. rewrite T in Hz. discriminate Hz.
      * apply T.
Qed.

(** Witness of C7: a successful and a failing run on the scripted device. *)
Lemma enable_handed_back_only_on_success_witness :
  Z.land (fk_ctrl (final (loadFPGA (buffer_of [10; 20; 30]) 3 false good_board)))
         en = 0 /\
  Z.land (fk_ctrl (final (loadFPGA (buffer_of [10; 20; 30]) 3 false stuck_board)))
         en = en.
Proof.
  split.
  - apply (enable_handed_back_only_on_success fk_ctrl fake_ctrl_storage
             good_board (buffer_of [10; 20; 30]) 3 false).
    vm_compute. reflexivity.
  - apply (enable_handed_back_only_on_success fk_ctrl fake_ctrl_storage
             stuck_board (buffer_of [10; 20; 30]) 3 false).
    vm_compute. reflexivity.
Defined.

(** C8: [print_state] decodes the modes 0..4 as "Off", "Reset",
    "Configuration", "Initialization", "User" and the modes 5, 6, 7 as
    "Undetermined"; on every device it returns the label of the low three
    bits of the status sample it reads, so that two samples agreeing on
    these bits are decoded alike. *)
Theorem print_state_decodes {dev : Type} {HW : Hardware dev} :
  state_label 0 = "Off"%string /\
  state_label 1 = "Reset"%string /\
  state_label 2 = "Configuration"%string /\
  state_label 3 = "Initialization"%string /\
  state_label 4 = "User"%string /\
  state_label 5 = "Undetermined"%string /\
  state_label 6 = "Undetermined"%string /\
  state_label 7 = "Undetermined"%string /\
  (forall s : dev,
     print_state s =
     (Cont (state_label (Z.land (u32 (fst (hw_read STAT s))) 7)),
      snd (hw_read STAT s),
      [EvRead STAT (u32 (fst (hw_read STAT s)))])) /\
  (forall v : Z, 0 <= Z.land v 7 <= 7) /\
  (forall v : Z, state_label (mode_of v) = state_label (mode_of (Z.land v 7))).
Proof.
  repeat (split; [reflexivity|]).
  split; [|split].
  - intro s. unfold print_state, get_state, bind, read32, ret.
    destruct (hw_read STAT s) as [v s']. reflexivity.
  - intro v. split.
    + apply Z.land_nonneg. right. lia.
    + assert (H : Z.land v 7 = v mod 2 ^ 3) by (apply (Z.land_ones v 3); lia).
      rewrite H. pose proof (Z.mod_pos_bound v (2 ^ 3)). lia.
  - intro v. unfold mode_of. rewrite !Z.shiftr_0_r.
    rewrite <- Z.land_assoc. reflexivity.
Qed.

(** C9: the strap check only reads the status register and, on a
    mismatch, prints the warning to [stderr].  Whatever the straps read, the
    run then is the run of the configuration sequence from the device state
    left by that read: same return value, same final device state, same
    events (so the same register writes), starting with step 0.a.  On a
    board with mismatching straps that otherwise behaves, the run prints
    the warning and returns [EXIT_SUCCESS]. *)
Theorem msel_mismatch_only_warns {dev : Type} {HW : Hardware dev} (s : dev)
    (rbf_data : nat -> Z) (rbf_size : nat) (debug : bool) :
  let m := u32 (fst (hw_read STAT s)) in
  let rest := call (configure rbf_data rbf_size debug) (snd (hw_read STAT s)) in
  let run := loadFPGA rbf_data rbf_size debug s in
  value run = value rest /\
  final run = final rest /\
  events run =
    EvRead STAT m ::
    (if msel_of m =? 0x0a then [] else [EvPrint stderr msel_warning]) ++
    events rest /\
  (exists tail, events rest = EvWrite SYSMGR_MODULE 0 :: tail) /\
  (let odd := loadFPGA rbf_data 0 false odd_straps_board in
   value odd = EXIT_SUCCESS /\
   In (EvPrint stderr msel_warning) (events odd)).
Proof.
  intros m rest run.
  assert (E : run = (value rest, final rest,
                     EvRead STAT m ::
                     (if msel_of m =? 0x0a then []
                      else [EvPrint stderr msel_warning]) ++ events rest)).
  { unfold run, rest, m, loadFPGA.
    generalize (configure rbf_data rbf_size debug). intro cfg.
    unfold call, check_msel, get_msel, bind, read32, ret, fprintf.
    destruct (hw_read STAT s) as [v s1]. cbn [fst snd].
    fold (msel_of (u32 v)).
    destruct (msel_of (u32 v) =? 10); cbn [negb];
      destruct (cfg s1) as [[[z|z] s2] l2]; reflexivity. }
  rewrite E. split; [reflexivity|]. split; [reflexivity|].
  split; [reflexivity|]. split.
  - unfold rest, configure, step_0a. rewrite call_write32.
    eexists. reflexivity.
  - split; [vm_compute; reflexivity|]. vm_compute. auto.
Qed.



(** * Further properties of the sequencer *)

Lemma expected_app (n : nat) (l1 l2 : list event) :
  forallb (expected n) l1 = true -> forallb (expected n) l2 = true ->
  forallb (expected n) (l1 ++ l2) = true.
Proof. intros H1 H2. rewrite forallb_app, H1, H2. reflexivity. Qed.

Lemma expected_poll_events (n : nat) (r : reg) (P : list Z) :
  In r [STAT; GPIO_EXT_PORTA; DCLKSTAT] ->
  forallb (expected n) (poll_events r P) = true.
Proof.
  intro Hr. induction P as [|v P IH]; [reflexivity|].
  simpl in Hr. destruct Hr as [<-|[<-|[<-|[]]]]; exact IH.
Qed.

Lemma expected_state_poll (n : nat) (target : Z) (k : nat) (L : list event) :
  state_poll target k L -> forallb (expected n) L = true.
Proof.
  destruct 1.
  - apply expected_poll_events. simpl. auto.
  - apply expected_app; [apply expected_poll_events; simpl; auto|reflexivity].
Qed.

Lemma expected_debug_events (n : nat) (debug : bool) (d : Z) :
  forallb (expected n) (debug_events debug d) = true.
Proof. destruct debug; reflexivity. Qed.

Lemma expected_setup_events (n : nat) (m c1 c2 c3 c4 : Z) :
  forallb (expected n) (setup_events m c1 c2 c3 c4) = true.
Proof.
  unfold setup_events. destruct (negb (msel_of m =? 10)); reflexivity.
Qed.

Lemma expected_stream_events (rbf_data : nat -> Z) (n k i : nat) :
  (i + k <= n)%nat ->
  forallb (expected n) (stream_events rbf_data k i) = true.
Proof.
  revert i. induction k as [|k IH]; intros i H; [reflexivity|].
  unfold stream_events in *. cbn [seq flat_map app forallb expected].
  assert (Hi : (i <? n)%nat = true) by (apply Nat.ltb_lt; lia).
  rewrite Hi. apply IH. lia.
Qed.

Ltac expected_piece :=
  first [ assumption
        | apply expected_setup_events
        | apply expected_debug_events
        | (apply expected_poll_events; simpl; auto)
        | (apply expected_stream_events; lia)
        | (eapply expected_state_poll; eassumption)
        | reflexivity ].

Ltac expected_tac :=
  first [ expected_piece | (apply expected_app; expected_tac) ].

Section Expected.
Variables (rbf_data : nat -> Z) (rbf_size : nat) (debug : bool).

Lemma in_reset_expected (tr : list event) :
  in_reset debug tr -> forallb (expected rbf_size) tr = true.
Proof. destruct 1. expected_tac. Qed.

Lemma in_config_expected (tr : list event) :
  in_config debug tr -> forallb (expected rbf_size) tr = true.
Proof.
  destruct 1 as [tr c L w d H HL Hw]. apply in_reset_expected in H.
  expected_tac.
Qed.

Lemma streamed_expected (tr : list event) :
  streamed rbf_data rbf_size debug tr -> forallb (expected rbf_size) tr = true.
Proof.
  destruct 1 as [tr c H]. apply in_config_expected in H. expected_tac.
Qed.

Lemma accepted_expected (tr : list event) :
  accepted rbf_data rbf_size debug tr -> forallb (expected rbf_size) tr = true.
Proof.
  destruct 1 as [tr P v d H Hlen HF Hv]. apply streamed_expected in H.
  expected_tac.
Qed.

Lemma clocking_expected (tr : list event) :
  clocking rbf_data rbf_size debug tr -> forallb (expected rbf_size) tr = true.
Proof.
  destruct 1 as [tr c k H]. apply accepted_expected in H.
  apply expected_app; [assumption|]. destruct (negb (k =? 0)); reflexivity.
Qed.

Lemma clocked_expected (tr : list event) :
  clocked rbf_data rbf_size debug tr -> forallb (expected rbf_size) tr = true.
Proof.
  destruct 1 as [tr P v H Hlen HF Hv]. apply clocking_expected in H.
  expected_tac.
Qed.

Lemma in_user_expected (tr : list event) :
  in_user rbf_data rbf_size debug tr -> forallb (expected rbf_size) tr = true.
Proof.
  destruct 1 as [tr L w d H HL Hw]. apply clocked_expected in H.
  expected_tac.
Qed.

Lemma run_shape_expected (z : Z) (evs : list event) :
  run_shape rbf_data rbf_size debug z evs ->
  forallb (expected rbf_size) evs = true.
Proof.
  destruct 1 as [m c1 c2 c3 c4 L w HL Hw | tr c L w Htr HL Hw
                | tr P v Htr Hlen HF Hv | tr P Htr Hlen HF
                | tr P Htr Hlen HF | tr L w Htr HL Hw | tr c Htr].
  - expected_tac.
  - apply in_reset_expected in Htr. expected_tac.
  - apply streamed_expected in Htr. expected_tac.
  - apply streamed_expected in Htr. expected_tac.
  - apply clocking_expected in Htr. expected_tac.
  - apply clocked_expected in Htr. expected_tac.
  - apply in_user_expected in Htr. expected_tac.
Qed.

End Expected.

(** X1: whatever the device does, a run of [loadFPGA] makes no access
    outside the following: it reads only the status, control, port-A and
    DCLK status registers; it writes only 0 to the module register, 0xfff to
    the end-of-interrupt register, 1 to the DCLK status register, 4 to the
    DCLK count register, and the control register and the data port; it
    loads the image only at indices below [rbf_size]; and every delay is
    [usleep(10)]. *)
Theorem loadFPGA_accesses_expected {dev : Type} {HW : Hardware dev} (s : dev)
    (rbf_data : nat -> Z) (rbf_size : nat) (debug : bool) :
  Forall (fun e => expected rbf_size e = true)
         (events (loadFPGA rbf_data rbf_size debug s)).
Proof.
  apply Forall_forall. apply forallb_forall.
  exact (run_shape_expected _ _ _ _ _
           (loadFPGA_run_shape rbf_data rbf_size debug s)).
Qed.

Lemma sleep_time_app (l1 l2 : list event) :
  sleep_time (l1 ++ l2) = sleep_time l1 + sleep_time l2.
Proof.
  induction l1 as [|e l1 IH]; [reflexivity|].
  destruct e; simpl; auto. rewrite IH. lia.
Qed.

Lemma accesses_app (l1 l2 : list event) :
  accesses (l1 ++ l2) = (accesses l1 + accesses l2)%nat.
Proof.
  induction l1 as [|e l1 IH]; [reflexivity|].
  destruct e; simpl; auto.
Qed.

Lemma cost_poll_events (r : reg) (P : list Z) :
  sleep_time (poll_events r P) = 10 * Z.of_nat (List.length P) /\
  accesses (poll_events r P) = List.length P.
Proof.
  induction P as [|v P [IH1 IH2]]; [auto|].
  unfold poll_events in *. cbn [flat_map app sleep_time accesses List.length].
  rewrite IH1, IH2. split; lia.
Qed.

Lemma cost_state_poll (target : Z) (n : nat) (L : list event) :
  state_poll target n L ->
  0 <= sleep_time L <= 10 * Z.of_nat n /\ (accesses L <= n)%nat.
Proof.
  destruct 1 as [P Hlen HF | P v Hlen HF Hv].
  - destruct (cost_poll_events STAT P) as [-> ->]. lia.
  - rewrite sleep_time_app, accesses_app.
    destruct (cost_poll_events STAT P) as [-> ->].
    cbn [sleep_time accesses]. lia.
Qed.

Lemma cost_debug_events (debug : bool) (d : Z) :
  sleep_time (debug_events debug d) = 0 /\
  (accesses (debug_events debug d) <= 1)%nat.
Proof. destruct debug; simpl; auto. Qed.

Lemma cost_setup_events (m c1 c2 c3 c4 : Z) :
  sleep_time (setup_events m c1 c2 c3 c4) = 0 /\
  accesses (setup_events m c1 c2 c3 c4) = 10%nat.
Proof.
  unfold setup_events. destruct (negb (msel_of m =? 10)); auto.
Qed.

Lemma cost_stream_events (rbf_data : nat -> Z) (n i : nat) :
  sleep_time (stream_events rbf_data n i) = 0 /\
  accesses (stream_events rbf_data n i) = n.
Proof.
  revert i. induction n as [|n IH]; intro i; [auto|].
  destruct (IH (S i)) as [H1 H2]. unfold stream_events in *.
  cbn [seq flat_map app sleep_time accesses]. rewrite H1, H2. auto.
Qed.

Section Cost.
Variables (rbf_data : nat -> Z) (rbf_size : nat) (debug : bool).

Ltac cost_pieces :=
  rewrite ?sleep_time_app, ?accesses_app;
  repeat match goal with
    | H : state_poll _ _ ?L |- _ =>
        apply cost_state_poll in H
    | |- context [debug_events ?b ?d] =>
        let Hd := fresh "Hd" in
        pose proof (cost_debug_events b d) as Hd;
        generalize dependent (debug_events b d); intros
    | |- context [poll_events ?r ?P] =>
        let Hp := fresh "Hp" in
        pose proof (cost_poll_events r P) as Hp;
        generalize dependent (poll_events r P); intros
    | |- context [setup_events ?m ?a ?b ?c ?d] =>
        let Hs := fresh "Hs" in
        pose proof (cost_setup_events m a b c d) as Hs;
        generalize dependent (setup_events m a b c d); intros
    | |- context [stream_events ?f ?n ?i] =>
        let Hs := fresh "Hs" in
        pose proof (cost_stream_events f n i) as Hs;
        generalize dependent (stream_events f n i); intros
    end;
  cbn [sleep_time accesses] in *.

Lemma in_reset_cost (tr : list event) :
  in_reset debug tr ->
  0 <= sleep_time tr <= 10 * Z.of_nat poll_budget /\
  (accesses tr <= poll_budget + 12)%nat.
Proof. destruct 1. cost_pieces. lia. Qed.

Lemma in_config_cost (tr : list event) :
  in_config debug tr ->
  0 <= sleep_time tr <= 20 * Z.of_nat poll_budget /\
  (accesses tr <= 2 * poll_budget + 16)%nat.
Proof.
  destruct 1 as [tr c L w d H HL Hw]. apply in_reset_cost in H.
  cost_pieces. lia.
Qed.

Lemma streamed_cost (tr : list event) :
  streamed rbf_data rbf_size debug tr ->
  0 <= sleep_time tr <= 20 * Z.of_nat poll_budget /\
  (accesses tr <= rbf_size + 2 * poll_budget + 19)%nat.
Proof.
  destruct 1 as [tr c H]. apply in_config_cost in H. cost_pieces. lia.
Qed.

Lemma accepted_cost (tr : list event) :
  accepted rbf_data rbf_size debug tr ->
  0 <= sleep_time tr <= 30 * Z.of_nat poll_budget - 10 /\
  (accesses tr <= rbf_size + 3 * poll_budget + 20)%nat.
Proof.
  destruct 1 as [tr P v d H Hlen HF Hv]. apply streamed_cost in H.
  cost_pieces. lia.
Qed.

Lemma clocking_cost (tr : list event) :
  clocking rbf_data rbf_size debug tr ->
  0 <= sleep_time tr <= 30 * Z.of_nat poll_budget - 10 /\
  (accesses tr <= rbf_size + 3 * poll_budget + 25)%nat.
Proof.
  destruct 1 as [tr c k H]. apply accepted_cost in H.
  cost_pieces. destruct (negb (k =? 0)); cbn [sleep_time accesses app]; lia.
Qed.

Lemma clocked_cost (tr : list event) :
  clocked rbf_data rbf_size debug tr ->
  0 <= sleep_time tr <=
    30 * Z.of_nat poll_budget + 10 * Z.of_nat dclk_budget - 20 /\
  (accesses tr <= rbf_size + 3 * poll_budget + dclk_budget + 25)%nat.
Proof.
  destruct 1 as [tr P v H Hlen HF Hv]. apply clocking_cost in H.
  cost_pieces. lia.
Qed.

Lemma in_user_cost (tr : list event) :
  in_user rbf_data rbf_size debug tr ->
  0 <= sleep_time tr <=
    40 * Z.of_nat poll_budget + 10 * Z.of_nat dclk_budget - 20 /\
  (accesses tr <= rbf_size + 4 * poll_budget + dclk_budget + 28)%nat.
Proof.
  destruct 1 as [tr L w d H HL Hw]. apply clocked_cost in H.
  cost_pieces. lia.
Qed.

Lemma run_shape_cost (z : Z) (evs : list event) :
  run_shape rbf_data rbf_size debug z evs ->
  0 <= sleep_time evs <=
    40 * Z.of_nat poll_budget + 10 * Z.of_nat dclk_budget - 20 /\
  (accesses evs <= rbf_size + 4 * poll_budget + dclk_budget + 30)%nat.
Proof.
  assert (Hpb : (1 <= poll_budget)%nat) by (apply Nat.leb_le; reflexivity).
  assert (Hdb : (1 <= dclk_budget)%nat) by (apply Nat.leb_le; reflexivity).
  destruct 1 as [m c1 c2 c3 c4 L w HL Hw | tr c L w Htr HL Hw
                | tr P v Htr Hlen HF Hv | tr P Htr Hlen HF
                | tr P Htr Hlen HF | tr L w Htr HL Hw | tr c Htr].
  - cost_pieces. lia.
  - apply in_reset_cost in Htr. cost_pieces. lia.
  - apply streamed_cost in Htr. cost_pieces. lia.
  - apply streamed_cost in Htr. cost_pieces. lia.
  - apply clocking_cost in Htr. cost_pieces. lia.
  - apply clocked_cost in Htr. cost_pieces. lia.
  - apply in_user_cost in Htr. cost_pieces. lia.
Qed.

End Cost.

(** X2: a run of [loadFPGA] cannot hang.  Whatever the device does, the
    delays it asks for add up to at most 40.98 milliseconds and it makes at
    most [rbf_size + 4130] register reads and writes.  Both bounds are
    reached on [slow_board], where every poll uses its whole budget. *)
Theorem loadFPGA_bounded {dev : Type} {HW : Hardware dev} (s : dev)
    (rbf_data : nat -> Z) (rbf_size : nat) (debug : bool) :
  let evs := events (loadFPGA rbf_data rbf_size debug s) in
  let slow := events (loadFPGA rbf_data 0 true slow_board) in
  0 <= sleep_time evs <= 40980 /\
  (accesses evs <= rbf_size + 4130)%nat /\
  sleep_time slow = 40980 /\
  accesses slow = 4130%nat.
Proof.
  intros evs slow.
  pose proof (run_shape_cost _ _ _ _ _
                (loadFPGA_run_shape rbf_data rbf_size debug s)) as H.
  fold evs in H.
  change (Z.of_nat poll_budget) with 1000 in H.
  change (Z.of_nat dclk_budget) with 100 in H.
  assert (Hb : (4 * poll_budget + dclk_budget = 4100)%nat) by reflexivity.
  split; [lia|]. split; [lia|]. split; vm_compute; reflexivity.
Qed.

Lemma app_self_middle {A} (a l b : list A) : l = a ++ l ++ b -> a = [] /\ b = [].
Proof.
  intro H. apply (f_equal (@List.length A)) in H.
  rewrite !length_app in H.
  destruct a; destruct b; simpl in H; auto; lia.
Qed.

(** X3: in a run that reaches the streaming step the image goes out in one
    burst.  The trace reads: end-of-interrupt write, read-modify-write of
    the control register setting [axicfgen], then for each index in turn
    the load of the image word and its write to the data port, then the
    first sample of port A; no image word is loaded or written before or
    after this burst, and nothing else happens inside it. *)
Theorem image_streamed_in_one_burst {dev : Type} {HW : Hardware dev} (s : dev)
    (rbf_data : nat -> Z) (rbf_size : nat) (debug : bool) :
  let evs := events (loadFPGA rbf_data rbf_size debug s) in
  reaches_streaming evs = true ->
  exists tr c v rest,
    evs = tr ++
          [EvWrite GPIO_PORTA_EOI 0x00000fff;
           EvRead CTRL c; EvWrite CTRL (Z.lor c axicfgen)] ++
          flat_map (fun i => [EvFetch i; EvWrite FPGAMGR_DATA (rbf_data i)])
                   (seq 0 rbf_size) ++
          EvRead GPIO_EXT_PORTA v :: rest /\
    data_writes tr = [] /\ fetches tr = [] /\
    data_writes rest = [] /\ fetches rest = [].
Proof.
  intros evs Hr.
  pose proof (loadFPGA_run_shape rbf_data rbf_size debug s) as H. fold evs in H.
  destruct (run_shape_polls _ _ _ _ _ H Hr) as (tr & c & v & rest & E).
  exists tr, c, v, rest. split; [exact E|].
  assert (G : data_writes evs = map rbf_data (seq 0 rbf_size) /\
              fetches evs = seq 0 rbf_size).
  { destruct (run_shape_observed _ _ _ _ _ H)
      as [[Hz Hs] | (Hz & ph & tr' & E' & Hq)].
    - destruct (streamed_trace_observed _ _ _ Hs) as (A & B & _). auto.
    - assert (Hs : streamed_trace rbf_data rbf_size tr').
      { destruct (phase_streams ph); [exact Hq|].
        exfalso. rewrite E', reaches_streaming_app in Hr.
        rewrite (quiet_not_streaming _ Hq) in Hr.
        destruct ph; discriminate Hr. }
      destruct (streamed_trace_observed _ _ _ Hs) as (A & B & _).
      rewrite E', data_writes_app, fetches_app, A, B.
      destruct ph; simpl; rewrite !app_nil_r; auto. }
  destruct G as [GA GB].
  destruct (stream_events_observed rbf_data rbf_size 0) as (SA & SB & _).
  fold (stream_events rbf_data rbf_size 0) in E.
  rewrite E in GA, GB.
  rewrite !data_writes_app, SA in GA. rewrite !fetches_app, SB in GB.
  cbn [data_writes fetches app] in GA, GB.
  symmetry in GA, GB.
  apply app_self_middle in GA. apply app_self_middle in GB.
  destruct GA as [GA1 GA2], GB as [GB1 GB2]. auto.
Qed.

(** Witness of X3. *)
Lemma image_streamed_in_one_burst_witness :
  let evs := events (loadFPGA (buffer_of [10; 20; 30]) 3 false good_board) in
  exists tr c v rest,
    evs = tr ++
          [EvWrite GPIO_PORTA_EOI 0x00000fff;
           EvRead CTRL c; EvWrite CTRL (Z.lor c axicfgen)] ++
          [EvFetch 0; EvWrite FPGAMGR_DATA 10;
           EvFetch 1; EvWrite FPGAMGR_DATA 20;
           EvFetch 2; EvWrite FPGAMGR_DATA 30] ++
          EvRead GPIO_EXT_PORTA v :: rest /\
    data_writes tr = [] /\ data_writes rest = [].
Proof.
  intro evs.
  destruct (image_streamed_in_one_burst good_board (buffer_of [10; 20; 30])
              3 false) as (tr & c & v & rest & E & A & _ & B & _).
  - vm_compute. reflexivity.
  - exists tr, c, v, rest. split; [exact E|]. split; assumption.
Defined.

Lemma seen_skip_app (cs : list (reg * (Z -> Prop))) (l0 l : list event) :
  seen cs l -> seen cs (l0 ++ l).
Proof.
  intro H. induction l0 as [|e l0 IH]; [exact H|].
  destruct cs as [|c cs]; [apply seen_done|].
  apply seen_skip. exact IH.
Qed.

Lemma seen_app (cs1 cs2 : list (reg * (Z -> Prop))) (l1 l2 : list event) :
  seen cs1 l1 -> seen cs2 l2 -> seen (cs1 ++ cs2) (l1 ++ l2).
Proof.
  intros H1 H2. induction H1 as [l | c cs e l H IH | r p cs v l Hp H IH].
  - apply seen_skip_app. exact H2.
  - apply seen_skip. exact IH.
  - apply seen_hit; assumption.
Qed.

Lemma seen_more (cs : list (reg * (Z -> Prop))) (l l' : list event) :
  seen cs l -> seen cs (l ++ l').
Proof.
  intro H. rewrite <- (app_nil_r cs). apply seen_app; [exact H|apply seen_done].
Qed.

Lemma seen_one (r : reg) (p : Z -> Prop) (l0 l1 : list event) (v : Z) :
  p v -> seen [(r, p)] (l0 ++ EvRead r v :: l1).
Proof.
  intro H. apply seen_skip_app. apply seen_hit; [exact H|apply seen_done].
Qed.

Section Handshake.
Variables (rbf_data : nat -> Z) (rbf_size : nat) (debug : bool).

Lemma in_reset_seen (tr : list event) :
  in_reset debug tr -> seen (firstn 1 handshake) tr.
Proof.
  destruct 1 as [m c1 c2 c3 c4 L w d HL Hw].
  rewrite app_assoc. apply (seen_one STAT _ _ _ w). exact Hw.
Qed.

Lemma in_config_seen (tr : list event) :
  in_config debug tr -> seen (firstn 2 handshake) tr.
Proof.
  destruct 1 as [tr c L w d H HL Hw]. apply in_reset_seen in H.
  apply (seen_app _ [(STAT, fun v => mode_of v = mode_config)] _ _ H).
  rewrite app_assoc. apply (seen_one STAT _ _ _ w). exact Hw.
Qed.

Lemma streamed_seen (tr : list event) :
  streamed rbf_data rbf_size debug tr -> seen (firstn 2 handshake) tr.
Proof. destruct 1 as [tr c H]. apply seen_more, in_config_seen, H. Qed.

Lemma accepted_seen (tr : list event) :
  accepted rbf_data rbf_size debug tr -> seen (firstn 3 handshake) tr.
Proof.
  destruct 1 as [tr P v d H Hlen HF Hv]. apply streamed_seen in H.
  apply (seen_app _ [(GPIO_EXT_PORTA, fun v => status_of v = Z.lor cd ns)]
           _ _ H).
  apply (seen_one GPIO_EXT_PORTA _ _ _ v). exact Hv.
Qed.

Lemma clocking_seen (tr : list event) :
  clocking rbf_data rbf_size debug tr -> seen (firstn 3 handshake) tr.
Proof. destruct 1 as [tr c k H]. apply seen_more, accepted_seen, H. Qed.

Lemma clocked_seen (tr : list event) :
  clocked rbf_data rbf_size debug tr -> seen (firstn 4 handshake) tr.
Proof.
  destruct 1 as [tr P v H Hlen HF Hv]. apply clocking_seen in H.
  apply (seen_app _ [(DCLKSTAT, fun v => Z.land v dcntdone = dcntdone)]
           _ _ H).
  apply (seen_one DCLKSTAT _ _ _ v). exact Hv.
Qed.

Lemma in_user_seen (tr : list event) :
  in_user rbf_data rbf_size debug tr -> seen handshake tr.
Proof.
  destruct 1 as [tr L w d H HL Hw]. apply clocked_seen in H.
  apply (seen_app _ [(STAT, fun v => mode_of v = mode_user)] _ _ H).
  rewrite app_assoc. apply (seen_one STAT _ _ _ w). exact Hw.
Qed.

End Handshake.

(** X4: [loadFPGA] returns [EXIT_SUCCESS] only if it has read from the
    hardware, in this order: a status sample in Reset mode, a status sample
    in Configuration mode, a port-A sample with CONF_DONE and nSTATUS both
    high, a DCLK status sample with the done bit, and a status sample in
    User mode. *)
Theorem success_needs_handshake {dev : Type} {HW : Hardware dev} (s : dev)
    (rbf_data : nat -> Z) (rbf_size : nat) (debug : bool) :
  let run := loadFPGA rbf_data rbf_size debug s in
  value run = EXIT_SUCCESS -> seen handshake (events run).
Proof.
  intros run Hz.
  pose proof (loadFPGA_run_shape rbf_data rbf_size debug s) as H. fold run in H.
  rewrite Hz in H. inversion H as [ | | | | | | tr c Htr Ez Eevs].
  apply seen_more. exact (in_user_seen _ _ _ _ Htr).
Qed.

(** Witness of X4. *)
Lemma success_needs_handshake_witness :
  seen handshake
       (events (loadFPGA (buffer_of [10; 20; 30]) 3 false good_board)).
Proof.
  apply (success_needs_handshake good_board (buffer_of [10; 20; 30]) 3 false).
  vm_compute. reflexivity.
Defined.

(** ** The history of the control register *)

Lemma ctrl_replay_app (l1 l2 : list event) (c : Z) :
  ctrl_replay (l1 ++ l2) c =
  match ctrl_replay l1 c with
  | Some c1 => ctrl_replay l2 c1
  | None => None
  end.
Proof.
  revert c. induction l1 as [|e l1 IH]; intro c; [reflexivity|].
  destruct e as [r v|r v|i|us|f msg]; simpl; auto.
  - destruct r; auto. destruct (v =? u32 c); auto.
  - destruct r; auto.
Qed.

Lemma ctrl_writes_app (l1 l2 : list event) :
  ctrl_writes (l1 ++ l2) = ctrl_writes l1 ++ ctrl_writes l2.
Proof.
  induction l1 as [|e l1 IH]; [reflexivity|].
  destruct e as [r v|r v|i|us|f msg]; simpl; auto.
  destruct r; simpl; auto. rewrite IH. reflexivity.
Qed.

Lemma ctrl_free_app (l1 l2 : list event) :
  ctrl_free l1 -> ctrl_free l2 -> ctrl_free (l1 ++ l2).
Proof.
  unfold ctrl_free. intros H1 H2. rewrite forallb_app, H1, H2. reflexivity.
Qed.

Lemma ctrl_free_replay (l : list event) (c : Z) :
  ctrl_free l -> ctrl_replay l c = Some c /\ ctrl_writes l = [].
Proof.
  unfold ctrl_free. induction l as [|e l IH]; [auto|].
  simpl. intro H. apply andb_prop in H. destruct H as [He Hl].
  destruct e as [r v|r v|i|us|f msg]; simpl; auto;
    destruct r; try discriminate He; auto.
Qed.

Lemma ctrl_replay_free (l1 l2 : list event) (c : Z) :
  ctrl_free l1 -> ctrl_replay (l1 ++ l2) c = ctrl_replay l2 c.
Proof.
  intro H. rewrite ctrl_replay_app.
  destruct (ctrl_free_replay l1 c H) as [-> _]. reflexivity.
Qed.

Lemma ctrl_writes_free (l1 l2 : list event) :
  ctrl_free l1 -> ctrl_writes (l1 ++ l2) = ctrl_writes l2.
Proof.
  intro H. rewrite ctrl_writes_app.
  destruct (ctrl_free_replay l1 0 H) as [_ ->]. reflexivity.
Qed.

Lemma ctrl_free_poll_events (r : reg) (P : list Z) :
  r <> CTRL -> ctrl_free (poll_events r P).
Proof.
  intro Hr. induction P as [|v P IH]; [reflexivity|].
  unfold ctrl_free, poll_events in *. simpl. rewrite IH.
  destruct r; try reflexivity. congruence.
Qed.

Lemma ctrl_free_state_poll (target : Z) (n : nat) (L : list event) :
  state_poll target n L -> ctrl_free L.
Proof.
  destruct 1.
  - apply ctrl_free_poll_events. discriminate.
  - apply ctrl_free_app; [apply ctrl_free_poll_events; discriminate|reflexivity].
Qed.

Lemma ctrl_free_debug_events (debug : bool) (d : Z) :
  ctrl_free (debug_events debug d).
Proof. destruct debug; reflexivity. Qed.

Lemma ctrl_free_stream_events (rbf_data : nat -> Z) (n i : nat) :
  ctrl_free (stream_events rbf_data n i).
Proof.
  revert i. induction n as [|n IH]; intro i; [reflexivity|].
  unfold ctrl_free, stream_events in *. simpl. apply IH.
Qed.

(** The arithmetic of the read-modify-write steps on a register that
    holds [Z.lor (Z.land c0 0x02c0) x]. *)
Lemma kept_bits_u32 (c0 x : Z) :
  u32 x = x ->
  u32 (Z.lor (Z.land c0 0x02c0) x) = Z.lor (Z.land c0 0x02c0) x.
Proof.
  intro Hx. unfold u32 in *.
  rewrite Z.land_lor_distr_l, Hx, <- Z.land_assoc. reflexivity.
Qed.

Lemma step_1_value (c0 : Z) :
  Z.lor 0x01 (Z.land (u32 c0) 0x02c0) = Z.lor (Z.land c0 0x02c0) en.
Proof.
  unfold u32. rewrite <- Z.land_assoc, Z.lor_comm. reflexivity.
Qed.

Lemma set_bits_value (c0 x y : Z) :
  u32 x = x ->
  Z.lor (u32 (Z.lor (Z.land c0 0x02c0) x)) y =
  Z.lor (Z.land c0 0x02c0) (Z.lor x y).
Proof.
  intro Hx. rewrite (kept_bits_u32 _ _ Hx), Z.lor_assoc. reflexivity.
Qed.

Lemma clear_bits_value (c0 x y : Z) :
  u32 x = x -> Z.land 0x02c0 y = 0x02c0 ->
  Z.land (u32 (Z.lor (Z.land c0 0x02c0) x)) y =
  Z.lor (Z.land c0 0x02c0) (Z.land x y).
Proof.
  intros Hx Hy. rewrite (kept_bits_u32 _ _ Hx), Z.land_lor_distr_l.
  rewrite <- Z.land_assoc, Hy. reflexivity.
Qed.

Lemma ctrl_replay_rmw (c w : Z) (l : list event) (c0 c' : Z) :
  ctrl_replay ([EvRead CTRL c; EvWrite CTRL w] ++ l) c0 = Some c' ->
  c = u32 c0 /\ ctrl_replay l w = Some c'.
Proof.
  cbn [app ctrl_replay]. destruct (Z.eqb_spec c (u32 c0)); [auto|discriminate].
Qed.

Ltac ctrl_free_piece :=
  first [ (apply ctrl_free_poll_events; discriminate)
        | apply ctrl_free_debug_events
        | apply ctrl_free_stream_events
        | (eapply ctrl_free_state_poll; eassumption)
        | reflexivity ].

Ltac ctrl_free_tac :=
  first [ ctrl_free_piece | (apply ctrl_free_app; ctrl_free_tac) ].

(** The control writes of a concatenation of the standard pieces after a
    prefix whose writes are known. *)
Ltac ctrl_writes_tac W :=
  rewrite !ctrl_writes_app, W;
  repeat match goal with
         | |- context [ctrl_writes ?l] =>
             let Hf := fresh in
             assert (Hf : ctrl_free l) by ctrl_free_piece;
             rewrite (proj2 (ctrl_free_replay l 0 Hf)); clear Hf
         end;
  reflexivity.

Section CtrlHistory.
Variables (rbf_data : nat -> Z) (rbf_size : nat) (debug : bool).
Variable c0 : Z.
Local Abbreviation k := (Z.land c0 0x02c0).

Lemma setup_ctrl (m c1 c2 c3 c4 : Z) (l : list event) (c' : Z) :
  ctrl_replay (setup_events m c1 c2 c3 c4 ++ l) c0 = Some c' ->
  ctrl_replay l (Z.lor k (Z.lor en nconfigpull)) = Some c' /\
  ctrl_writes (setup_events m c1 c2 c3 c4) = firstn 4 (ctrl_history k).
Proof.
  intro H. unfold setup_events in *.
  destruct (negb (msel_of m =? 10)); cbn [app ctrl_replay ctrl_writes] in *.
  all: destruct (Z.eqb_spec c1 (u32 c0)) as [->|]; [|discriminate H].
  all: rewrite step_1_value in *.
  all: destruct (Z.eqb_spec c2 (u32 (Z.lor k en))) as [->|]; [|discriminate H].
  all: rewrite (clear_bits_value c0 en (not32 nce)) in * by reflexivity.
  all: destruct (Z.eqb_spec c3 (u32 (Z.lor k (Z.land en (not32 nce)))))
         as [->|]; [|discriminate H].
  all: rewrite (set_bits_value c0 (Z.land en (not32 nce)) en) in *
         by reflexivity.
  all: destruct (Z.eqb_spec c4
                   (u32 (Z.lor k (Z.lor (Z.land en (not32 nce)) en))))
         as [->|]; [|discriminate H].
  all: rewrite (set_bits_value c0 (Z.lor (Z.land en (not32 nce)) en)
                  nconfigpull) in * by reflexivity.
  all: split; [exact H|reflexivity].
Qed.

Lemma in_reset_ctrl (tr l : list event) (c' : Z) :
  in_reset debug tr ->
  ctrl_replay (tr ++ l) c0 = Some c' ->
  ctrl_replay l (Z.lor k (Z.lor en nconfigpull)) = Some c' /\
  ctrl_writes tr = firstn 4 (ctrl_history k).
Proof.
  destruct 1 as [m c1 c2 c3 c4 L w d HL Hw]. intro H.
  assert (Hfree : ctrl_free (L ++ [EvRead STAT w] ++ debug_events debug d))
    by ctrl_free_tac.
  rewrite <- app_assoc in H.
  destruct (setup_ctrl _ _ _ _ _ _ _ H) as [H1 W].
  rewrite (ctrl_replay_free _ _ _ Hfree) in H1.
  split; [exact H1|].
  ctrl_writes_tac W.
Qed.

Lemma in_config_ctrl (tr l : list event) (c' : Z) :
  in_config debug tr ->
  ctrl_replay (tr ++ l) c0 = Some c' ->
  ctrl_replay l (Z.lor k en) = Some c' /\
  ctrl_writes tr = firstn 5 (ctrl_history k).
Proof.
  destruct 1 as [tr c L w d Htr HL Hw]. intro H.
  rewrite <- app_assoc in H.
  destruct (in_reset_ctrl _ _ _ Htr H) as [H1 W].
  rewrite <- app_assoc in H1.
  apply ctrl_replay_rmw in H1. destruct H1 as [-> H1].
  rewrite (clear_bits_value c0 (Z.lor en nconfigpull) (not32 nconfigpull))
    in * by reflexivity.
  assert (Hfree : ctrl_free (L ++ [EvRead STAT w] ++ debug_events debug d))
    by ctrl_free_tac.
  rewrite (ctrl_replay_free _ _ _ Hfree) in H1.
  split; [exact H1|].
  ctrl_writes_tac W.
Qed.

Lemma streamed_ctrl (tr l : list event) (c' : Z) :
  streamed rbf_data rbf_size debug tr ->
  ctrl_replay (tr ++ l) c0 = Some c' ->
  ctrl_replay l (Z.lor k (Z.lor en axicfgen)) = Some c' /\
  ctrl_writes tr = firstn 6 (ctrl_history k).
Proof.
  destruct 1 as [tr c Htr]. intro H.
  rewrite <- app_assoc in H.
  destruct (in_config_ctrl _ _ _ Htr H) as [H1 W].
  change ([EvWrite GPIO_PORTA_EOI 4095; EvRead CTRL c;
           EvWrite CTRL (Z.lor c axicfgen)] ++
          stream_events rbf_data rbf_size 0)
    with ([EvWrite GPIO_PORTA_EOI 4095] ++
          [EvRead CTRL c; EvWrite CTRL (Z.lor c axicfgen)] ++
          stream_events rbf_data rbf_size 0) in *.
  rewrite <- !app_assoc in H1.
  rewrite ctrl_replay_free in H1 by reflexivity.
  apply ctrl_replay_rmw in H1. destruct H1 as [-> H1].
  rewrite (set_bits_value c0 en axicfgen) in * by reflexivity.
  rewrite ctrl_replay_free in H1 by apply ctrl_free_stream_events.
  split; [exact H1|].
  ctrl_writes_tac W.
Qed.

Lemma accepted_ctrl (tr l : list event) (c' : Z) :
  accepted rbf_data rbf_size debug tr ->
  ctrl_replay (tr ++ l) c0 = Some c' ->
  ctrl_replay l (Z.lor k (Z.lor en axicfgen)) = Some c' /\
  ctrl_writes tr = firstn 6 (ctrl_history k).
Proof.
  destruct 1 as [tr P v d Htr Hlen HF Hv]. intro H.
  rewrite <- app_assoc in H.
  destruct (streamed_ctrl _ _ _ Htr H) as [H1 W].
  assert (Hfree : ctrl_free (poll_events GPIO_EXT_PORTA P ++
                             [EvRead GPIO_EXT_PORTA v] ++
                             debug_events debug d))
    by ctrl_free_tac.
  rewrite (ctrl_replay_free _ _ _ Hfree) in H1.
  split; [exact H1|].
  ctrl_writes_tac W.
Qed.

Lemma clocking_ctrl (tr l : list event) (c' : Z) :
  clocking rbf_data rbf_size debug tr ->
  ctrl_replay (tr ++ l) c0 = Some c' ->
  ctrl_replay l (Z.lor k en) = Some c' /\
  ctrl_writes tr = firstn 7 (ctrl_history k).
Proof.
  destruct 1 as [tr c d Htr]. intro H.
  rewrite <- app_assoc in H.
  destruct (accepted_ctrl _ _ _ Htr H) as [H1 W].
  change ([EvRead CTRL c; EvWrite CTRL (Z.land c (not32 axicfgen));
           EvRead DCLKSTAT d] ++
          (if negb (d =? 0) then [EvWrite DCLKSTAT 1] else []) ++
          [EvWrite DCLKCNT 4])
    with ([EvRead CTRL c; EvWrite CTRL (Z.land c (not32 axicfgen))] ++
          ([EvRead DCLKSTAT d] ++
           (if negb (d =? 0) then [EvWrite DCLKSTAT 1] else []) ++
           [EvWrite DCLKCNT 4])) in *.
  rewrite <- app_assoc in H1.
  apply ctrl_replay_rmw in H1. destruct H1 as [-> H1].
  rewrite (clear_bits_value c0 (Z.lor en axicfgen) (not32 axicfgen))
    in * by reflexivity.
  assert (Hfree : ctrl_free ([EvRead DCLKSTAT d] ++
                             (if negb (d =? 0) then [EvWrite DCLKSTAT 1]
                              else []) ++ [EvWrite DCLKCNT 4]))
    by (destruct (negb (d =? 0)); reflexivity).
  rewrite (ctrl_replay_free _ _ _ Hfree) in H1.
  split; [exact H1|].
  destruct (negb (d =? 0)); ctrl_writes_tac W.
Qed.

Lemma clocked_ctrl (tr l : list event) (c' : Z) :
  clocked rbf_data rbf_size debug tr ->
  ctrl_replay (tr ++ l) c0 = Some c' ->
  ctrl_replay l (Z.lor k en) = Some c' /\
  ctrl_writes tr = firstn 7 (ctrl_history k).
Proof.
  destruct 1 as [tr P v Htr Hlen HF Hv]. intro H.
  rewrite <- app_assoc in H.
  destruct (clocking_ctrl _ _ _ Htr H) as [H1 W].
  assert (Hfree : ctrl_free (poll_events DCLKSTAT P ++ [EvRead DCLKSTAT v]))
    by ctrl_free_tac.
  rewrite (ctrl_replay_free _ _ _ Hfree) in H1.
  split; [exact H1|].
  ctrl_writes_tac W.
Qed.

Lemma in_user_ctrl (tr l : list event) (c' : Z) :
  in_user rbf_data rbf_size debug tr ->
  ctrl_replay (tr ++ l) c0 = Some c' ->
  ctrl_replay l (Z.lor k en) = Some c' /\
  ctrl_writes tr = firstn 7 (ctrl_history k).
Proof.
  destruct 1 as [tr L w d Htr HL Hw]. intro H.
  rewrite <- app_assoc in H.
  destruct (clocked_ctrl _ _ _ Htr H) as [H1 W].
  assert (Hfree : ctrl_free ([EvWrite DCLKSTAT 1] ++ L ++
                             [EvRead STAT w] ++ debug_events debug d))
    by ctrl_free_tac.
  rewrite (ctrl_replay_free _ _ _ Hfree) in H1.
  split; [exact H1|].
  ctrl_writes_tac W.
Qed.

(** The control register along a run of any shape. *)
Lemma run_shape_ctrl (z : Z) (evs : list event) (c' : Z) :
  run_shape rbf_data rbf_size debug z evs ->
  ctrl_replay evs c0 = Some c' ->
  (z = EXIT_SUCCESS /\ ctrl_writes evs = ctrl_history k /\ c' = k) \/
  (z = EXIT_FAILURE /\ exists ph tr,
     evs = tr ++ [failure_event ph] /\
     ctrl_writes evs = firstn (ctrl_progress ph) (ctrl_history k) /\
     c' = Z.lor k (ctrl_left ph)).
Proof.
  destruct 1 as [m c1 c2 c3 c4 L w HL Hw | tr c L w Htr HL Hw
                | tr P v Htr Hlen HF Hv | tr P Htr Hlen HF
                | tr P Htr Hlen HF | tr L w Htr HL Hw | tr c Htr]; intro H.
  - right. split; [reflexivity|].
    exists PhReset, (setup_events m c1 c2 c3 c4 ++ L ++ [EvRead STAT w]).
    split; [rewrite <- !app_assoc; reflexivity|].
    destruct (setup_ctrl _ _ _ _ _ _ _ H) as [H1 W].
    assert (Hfree : ctrl_free
              (L ++ [EvRead STAT w; EvPrint stderr reset_failed]))
      by ctrl_free_tac.
    destruct (ctrl_free_replay _ (Z.lor k (Z.lor en nconfigpull)) Hfree)
      as [R1 R2].
    rewrite ctrl_writes_app, W, R2. split; [reflexivity|].
    rewrite R1 in H1. injection H1 as <-. reflexivity.
  - right. split; [reflexivity|].
    exists PhConfiguration,
      (tr ++ [EvRead CTRL c; EvWrite CTRL (Z.land c (not32 nconfigpull))] ++
       L ++ [EvRead STAT w]).
    split; [rewrite <- !app_assoc; reflexivity|].
    destruct (in_reset_ctrl _ _ _ Htr H) as [H1 W].
    apply ctrl_replay_rmw in H1. destruct H1 as [-> H1].
    rewrite (clear_bits_value c0 (Z.lor en nconfigpull) (not32 nconfigpull))
      in * by reflexivity.
    assert (Hfree : ctrl_free
              (L ++ [EvRead STAT w; EvPrint stdout config_failed]))
      by ctrl_free_tac.
    destruct (ctrl_free_replay _ (Z.lor k en) Hfree) as [R1 R2].
    rewrite ctrl_writes_app, W. cbn [app ctrl_writes]. rewrite R2.
    split; [reflexivity|].
    change (Z.land (Z.lor en nconfigpull) (not32 nconfigpull)) with en in H1.
    rewrite R1 in H1. injection H1 as <-. reflexivity.
  - right. split; [reflexivity|].
    exists PhDataAccept,
      (tr ++ poll_events GPIO_EXT_PORTA P ++ [EvRead GPIO_EXT_PORTA v]).
    split; [rewrite <- !app_assoc; reflexivity|].
    destruct (streamed_ctrl _ _ _ Htr H) as [H1 W].
    assert (Hfree : ctrl_free
              (poll_events GPIO_EXT_PORTA P ++
               [EvRead GPIO_EXT_PORTA v; EvPrint stdout init_failed]))
      by ctrl_free_tac.
    destruct (ctrl_free_replay _ (Z.lor k (Z.lor en axicfgen)) Hfree)
      as [R1 R2].
    rewrite ctrl_writes_app, W, R2. split; [reflexivity|].
    rewrite R1 in H1. injection H1 as <-. reflexivity.
  - right. split; [reflexivity|].
    exists PhDataAccept, (tr ++ poll_events GPIO_EXT_PORTA P).
    split; [rewrite <- !app_assoc; reflexivity|].
    destruct (streamed_ctrl _ _ _ Htr H) as [H1 W].
    assert (Hfree : ctrl_free
              (poll_events GPIO_EXT_PORTA P ++ [EvPrint stdout init_failed]))
      by ctrl_free_tac.
    destruct (ctrl_free_replay _ (Z.lor k (Z.lor en axicfgen)) Hfree)
      as [R1 R2].
    rewrite ctrl_writes_app, W, R2. split; [reflexivity|].
    rewrite R1 in H1. injection H1 as <-. reflexivity.
  - right. split; [reflexivity|].
    exists PhInitialization, (tr ++ poll_events DCLKSTAT P).
    split; [rewrite <- !app_assoc; reflexivity|].
    destruct (clocking_ctrl _ _ _ Htr H) as [H1 W].
    assert (Hfree : ctrl_free
              (poll_events DCLKSTAT P ++ [EvPrint stdout dclk_failed]))
      by ctrl_free_tac.
    destruct (ctrl_free_replay _ (Z.lor k en) Hfree) as [R1 R2].
    rewrite ctrl_writes_app, W, R2. split; [reflexivity|].
    rewrite R1 in H1. injection H1 as <-. reflexivity.
  - right. split; [reflexivity|].
    exists PhUser, (tr ++ [EvWrite DCLKSTAT 1] ++ L ++ [EvRead STAT w]).
    split; [rewrite <- !app_assoc; reflexivity|].
    destruct (clocked_ctrl _ _ _ Htr H) as [H1 W].
    assert (Hfree : ctrl_free
              ([EvWrite DCLKSTAT 1] ++ L ++
               [EvRead STAT w; EvPrint stdout user_failed]))
      by ctrl_free_tac.
    destruct (ctrl_free_replay _ (Z.lor k en) Hfree) as [R1 R2].
    rewrite ctrl_writes_app, W, R2. split; [reflexivity|].
    rewrite R1 in H1. injection H1 as <-. reflexivity.
  - left. split; [reflexivity|].
    destruct (in_user_ctrl _ _ _ Htr H) as [H1 W].
    apply (ctrl_replay_rmw _ _ []) in H1. destruct H1 as [-> H1].
    rewrite (clear_bits_value c0 en (not32 en)) in * by reflexivity.
    rewrite ctrl_writes_app, W. cbn [app ctrl_writes ctrl_replay] in *.
    change (Z.land en (not32 en)) with 0 in *. rewrite Z.lor_0_r in *.
    split; [reflexivity|]. injection H1 as <-. reflexivity.
Qed.

End CtrlHistory.

Section CtrlFollows.
Context {dev : Type} {HW : Hardware dev}.
Variable ctrl_of : dev -> Z.
Hypothesis Hst : ctrl_storage ctrl_of.

Lemma follows_ret {A} (a : A) : ctrl_follows ctrl_of (@ret dev A a).
Proof. intro s. reflexivity. Qed.

Lemma follows_early {A} (z : Z) : ctrl_follows ctrl_of (@early dev A z).
Proof. intro s. reflexivity. Qed.

Lemma follows_read32 (r : reg) : ctrl_follows ctrl_of (read32 r).
Proof.
  intro s. unfold read32.
  pose proof (cs_read_keeps _ Hst r s) as Hk.
  pose proof (cs_read _ Hst s) as Hr.
  destruct (hw_read r s) as [v s1] eqn:E. simpl in Hk.
  destruct r; cbn [ctrl_replay]; try (rewrite Hk; reflexivity).
  rewrite E in Hr. simpl in Hr. subst v.
  rewrite Z.eqb_refl, Hk. reflexivity.
Qed.

Lemma follows_write32 (r : reg) (v : Z) : ctrl_follows ctrl_of (write32 r v).
Proof.
  intro s. unfold write32.
  destruct r; cbn [ctrl_replay];
    first [ rewrite (cs_write _ Hst); reflexivity
          | rewrite (cs_write_other _ Hst) by discriminate; reflexivity ].
Qed.

Lemma follows_usleep (us : Z) : ctrl_follows ctrl_of (usleep us).
Proof. intro s. simpl. rewrite (cs_sleep _ Hst). reflexivity. Qed.

Lemma follows_fprintf (f : stream) (msg : string) :
  ctrl_follows ctrl_of (@fprintf dev f msg).
Proof. intro s. reflexivity. Qed.

Lemma follows_fetch (rbf_data : nat -> Z) (i : nat) :
  ctrl_follows ctrl_of (@fetch dev rbf_data i).
Proof. intro s. reflexivity. Qed.

Lemma follows_bind {A B} (m : M dev A) (f : A -> M dev B) :
  ctrl_follows ctrl_of m -> (forall a, ctrl_follows ctrl_of (f a)) ->
  ctrl_follows ctrl_of (bind m f).
Proof.
  intros Hm Hf s. unfold bind. specialize (Hm s).
  destruct (m s) as [[[a|z] s1] l1]; [|exact Hm].
  specialize (Hf a s1).
  destruct (f a s1) as [[r s2] l2].
  rewrite ctrl_replay_app, Hm. exact Hf.
Qed.

Ltac follows_tac :=
  repeat first
    [ assumption
    | apply follows_ret
    | apply follows_early
    | apply follows_read32
    | apply follows_write32
    | apply follows_usleep
    | apply follows_fprintf
    | apply follows_fetch
    | match goal with
      | |- ctrl_follows ctrl_of (if ?b then _ else _) => destruct b
      | |- ctrl_follows ctrl_of (bind _ _) => apply follows_bind; [|intro]
      end ].

Lemma follows_debug_state (debug : bool) :
  ctrl_follows ctrl_of (debug_state debug).
Proof. unfold debug_state, print_state, get_state, printf. follows_tac. Qed.

Lemma follows_poll_state (target : Z) (n : nat) :
  ctrl_follows ctrl_of (poll_state target n).
Proof.
  induction n as [|n IH]; cbn [poll_state]; unfold get_state; follows_tac.
Qed.

Lemma follows_stream_words (rbf_data : nat -> Z) (n i : nat) :
  ctrl_follows ctrl_of (stream_words rbf_data n i).
Proof.
  revert i. induction n as [|n IH]; intro i; cbn [stream_words];
    [apply follows_ret|].
  apply follows_bind; [apply follows_fetch|intro w].
  apply follows_bind; [apply follows_write32|intros _]. apply IH.
Qed.

Lemma follows_poll_porta (n : nat) (status : Z) :
  ctrl_follows ctrl_of (poll_porta n status).
Proof.
  revert status. induction n as [|n IH]; intro status; cbn [poll_porta];
    [apply follows_ret|].
  apply follows_bind; [apply follows_read32|intro v]. cbv zeta.
  unfold printf.
  destruct (Z.land v (Z.lor cd ns) =? 0); [follows_tac|].
  destruct (Z.land v (Z.lor cd ns) =? Z.lor cd ns); [follows_tac|].
  apply follows_bind; [apply follows_usleep|intros _]. apply IH.
Qed.

Lemma follows_poll_dclk (n : nat) (status : Z) :
  ctrl_follows ctrl_of (poll_dclk n status).
Proof.
  revert status. induction n as [|n IH]; intro status; cbn [poll_dclk];
    [apply follows_ret|].
  apply follows_bind; [apply follows_read32|intro v]. cbv zeta.
  destruct (Z.land v dcntdone =? dcntdone); [follows_tac|].
  apply follows_bind; [apply follows_usleep|intros _]. apply IH.
Qed.

Lemma follows_loadFPGA (rbf_data : nat -> Z) (rbf_size : nat) (debug : bool) :
  ctrl_follows ctrl_of (check_msel ;; configure rbf_data rbf_size debug).
Proof.
  pose proof (follows_debug_state debug) as Hd.
  pose proof (follows_poll_porta poll_budget) as Hp.
  pose proof (follows_poll_dclk dclk_budget) as Hc.
  pose proof (follows_stream_words rbf_data rbf_size 0) as Hs.
  assert (Hg : ctrl_follows ctrl_of get_state)
    by (unfold get_state; follows_tac).
  unfold check_msel, get_msel, configure, step_0a, step_1, step_2, step_3,
    step_4, step_5, step_6, step_7, step_8, step_9, step_10, step_11,
    step_12, step_13a, step_13b, step_14, step_15, step_16, step_17, printf.
  repeat first
    [ apply follows_poll_state | apply Hs | apply Hp | apply Hc
    | progress follows_tac ].
Qed.

End CtrlFollows.

(** X5: on a device whose control register is plain storage, the values
    [loadFPGA] writes to it and the value it leaves there are fixed by the
    outcome and by [k], the [cdratio] and [cfgwdth] bits the register held
    at the start.  A successful run writes [k|en] three times,
    [k|en|nconfigpull], [k|en], [k|en|axicfgen], [k|en] and [k], and leaves
    [k].  A run that fails stops this sequence after its phase's share
    and leaves the register as last written: a Reset failure leaves
    [nconfigpull] asserted (with [en]), a data-accept failure leaves
    [axicfgen] asserted (with [en]), the other failures leave [en] alone. *)
Theorem ctrl_history_of_run {dev : Type} {HW : Hardware dev}
    (ctrl_of : dev -> Z) (s : dev)
    (rbf_data : nat -> Z) (rbf_size : nat) (debug : bool) :
  ctrl_storage ctrl_of ->
  let run := loadFPGA rbf_data rbf_size debug s in
  let k := Z.land (ctrl_of s) 0x02c0 in
  (value run = EXIT_SUCCESS /\
   ctrl_writes (events run) = ctrl_history k /\
   ctrl_of (final run) = k) \/
  (value run = EXIT_FAILURE /\ exists ph,
     failures (events run) = [ph] /\
     ctrl_writes (events run) = firstn (ctrl_progress ph) (ctrl_history k) /\
     ctrl_of (final run) = Z.lor k (ctrl_left ph)).
Proof.
  intros Hst run k.
  pose proof (loadFPGA_run_shape rbf_data rbf_size debug s) as H. fold run in H.
  assert (R : ctrl_replay (events run) (ctrl_of s) = Some (ctrl_of (final run))).
  { pose proof (follows_loadFPGA ctrl_of Hst rbf_data rbf_size debug s) as F.
    unfold run, loadFPGA, call, events, final.
    destruct ((check_msel ;; configure rbf_data rbf_size debug) s)
      as [[[z|z] s1] l1]; exact F. }
  destruct (run_shape_ctrl _ _ _ _ _ _ _ H R)
    as [(Hz & W & C) | (Hz & ph & tr & E & W & C)].
  - left. auto.
  - right. split; [exact Hz|]. exists ph. split; [|split; assumption].
    destruct (run_shape_observed _ _ _ _ _ H)
      as [[Hz' _] | (_ & ph' & tr' & E' & Hq)].
    { rewrite Hz in Hz'. discriminate Hz'. }
    assert (Hph : ph = ph').
    { rewrite E in E'. apply app_inj_tail in E'. destruct E' as [_ E'].
      apply failure_event_inj. exact E'. }
    subst ph'. rewrite E', failures_app, failures_failure_event.
    assert (Hf : failures tr' = []).
    { destruct (phase_streams ph).
      - apply (streamed_trace_observed _ _ _ Hq).
      - apply (quiet_observed _ Hq). }
    rewrite Hf. reflexivity.
Qed.

(** Witness of X5: on the stuck board the run fails in the Reset phase
    after four writes and leaves [nconfigpull] asserted. *)
Lemma ctrl_history_of_run_witness :
  ctrl_writes (events (loadFPGA (buffer_of []) 0 false stuck_board)) =
    [0x2c1; 0x2c1; 0x2c1; 0x2c5] /\
  fk_ctrl (final (loadFPGA (buffer_of []) 0 false stuck_board)) = 0x2c5.
Proof.
  destruct (ctrl_history_of_run fk_ctrl stuck_board (buffer_of []) 0 false
              fake_ctrl_storage)
    as [(Hz & _) | (_ & ph & Hf & W & C)].
  - vm_compute in Hz. discriminate Hz.
  - assert (Hph : ph = PhReset).
    { vm_compute in Hf. injection Hf as <-. reflexivity. }
    subst ph. split; [exact W|exact C].
Defined.

(** ** What a run prints *)

Lemma prints_app (l1 l2 : list event) :
  prints (l1 ++ l2) = prints l1 ++ prints l2.
Proof.
  induction l1 as [|e l1 IH]; [reflexivity|].
  destruct e; simpl; auto. rewrite IH. reflexivity.
Qed.

Lemma prints_poll_events (r : reg) (P : list Z) : prints (poll_events r P) = [].
Proof. induction P as [|v P IH]; [reflexivity|exact IH]. Qed.

Lemma prints_state_poll (target : Z) (n : nat) (L : list event) :
  state_poll target n L -> prints L = [].
Proof.
  destruct 1; [|rewrite prints_app]; rewrite prints_poll_events; reflexivity.
Qed.

Lemma prints_stream_events (rbf_data : nat -> Z) (n i : nat) :
  prints (stream_events rbf_data n i) = [].
Proof.
  revert i. induction n as [|n IH]; intro i; [reflexivity|].
  unfold stream_events in *. simpl. apply IH.
Qed.

Lemma prints_setup_events (m c1 c2 c3 c4 : Z) :
  prints (setup_events m c1 c2 c3 c4) = strap_warning m.
Proof.
  unfold setup_events, strap_warning.
  destruct (msel_of m =? 10); reflexivity.
Qed.

Lemma prints_debug_events (debug : bool) (d : Z) :
  prints (debug_events debug d) = if debug then [state_line d] else [].
Proof. destruct debug; reflexivity. Qed.

Ltac silent_tac :=
  rewrite ?prints_app;
  repeat match goal with
         | H : state_poll _ _ ?L |- context [prints ?L] =>
             rewrite (prints_state_poll _ _ _ H)
         end;
  rewrite ?prints_poll_events, ?prints_stream_events;
  reflexivity.

Lemma prints_after_app (h : history) (l1 l2 : list event) :
  prints_after h (l1 ++ l2) =
  prints_after h l1 ++ prints_after (fold_left after l1 h) l2.
Proof.
  revert h. induction l1 as [|e l1 IH]; intro h; [reflexivity|].
  destruct e; simpl; rewrite IH; reflexivity.
Qed.

Lemma prints_after_prints (h : history) (l : list event) :
  map snd (prints_after h l) = prints l.
Proof.
  revert h. induction l as [|e l IH]; intro h; [reflexivity|].
  destruct e; simpl; rewrite IH; reflexivity.
Qed.

Lemma prints_after_silent (h : history) (l : list event) :
  prints l = [] -> prints_after h l = [].
Proof.
  intro H. rewrite <- (prints_after_prints h) in H.
  destruct (prints_after h l); [reflexivity|discriminate H].
Qed.

Lemma prints_after_one (h : history) (l : list event) (x : stream * string) :
  prints l = [x] -> exists c, prints_after h l = [(c, x)].
Proof.
  intro H. rewrite <- (prints_after_prints h) in H.
  destruct (prints_after h l) as [|[c y] [|z t]]; try discriminate H.
  injection H as ->. exists c. reflexivity.
Qed.

(** A debug line after the sample that ended a wait. *)
Lemma prints_after_debug (h : history) (debug : bool) (r : reg) (v d : Z) :
  prints_after h ([EvRead r v] ++ debug_events debug d) =
  if debug then [state_note (r, v, d)] else [].
Proof. destruct debug, h; reflexivity. Qed.

Lemma prints_after_setup (m c1 c2 c3 c4 : Z) :
  prints_after (None, None) (setup_events m c1 c2 c3 c4) = strap_note m.
Proof.
  unfold setup_events, strap_note.
  destruct (msel_of m =? 10); reflexivity.
Qed.

Section Prints.
Variables (rbf_data : nat -> Z) (rbf_size : nat) (debug : bool).

Lemma lines_after_silent (n : nat) (tr l : list event) :
  lines_after debug n tr -> prints l = [] -> lines_after debug n (tr ++ l).
Proof.
  intros (m & rest & ds & -> & Hp & Hn) Hl.
  exists m, (rest ++ l), ds. split; [reflexivity|]. split; [|exact Hn].
  change (EvRead STAT m :: rest ++ l) with ((EvRead STAT m :: rest) ++ l).
  rewrite prints_after_app, Hp, (prints_after_silent _ _ Hl), app_nil_r.
  reflexivity.
Qed.

Lemma lines_after_debug (n : nat) (tr l : list event) (r : reg) (v d : Z) :
  lines_after debug n tr -> prints l = [] ->
  lines_after debug (S n) (tr ++ l ++ [EvRead r v] ++ debug_events debug d).
Proof.
  intros (m & rest & ds & -> & Hp & Hn) Hl.
  exists m, (rest ++ l ++ [EvRead r v] ++ debug_events debug d),
    (ds ++ if debug then [(r, v, d)] else []).
  split; [reflexivity|]. split.
  - change (EvRead STAT m :: rest ++ l ++ [EvRead r v] ++ debug_events debug d)
      with ((EvRead STAT m :: rest) ++ l ++
            [EvRead r v] ++ debug_events debug d).
    rewrite (prints_after_app _ (EvRead STAT m :: rest)), Hp.
    rewrite (prints_after_app _ l), (prints_after_silent _ _ Hl).
    rewrite prints_after_debug, map_app, <- app_assoc.
    destruct debug; reflexivity.
  - rewrite length_app, Hn. destruct debug; simpl; lia.
Qed.

Lemma in_reset_lines (tr : list event) :
  in_reset debug tr -> lines_after debug 1 tr.
Proof.
  destruct 1 as [m c1 c2 c3 c4 L w d HL Hw].
  assert (H0 : lines_after debug 0 (setup_events m c1 c2 c3 c4)).
  { exists m, (tl (setup_events m c1 c2 c3 c4)), [].
    split; [reflexivity|]. split.
    - rewrite prints_after_setup, app_nil_r. reflexivity.
    - destruct debug; reflexivity. }
  apply (lines_after_debug 0 _ L STAT w d H0).
  apply (prints_state_poll _ _ _ HL).
Qed.

Lemma in_config_lines (tr : list event) :
  in_config debug tr -> lines_after debug 2 tr.
Proof.
  destruct 1 as [tr c L w d Htr HL Hw]. apply in_reset_lines in Htr.
  pose proof (lines_after_debug 1 _
                ([EvRead CTRL c; EvWrite CTRL (Z.land c (not32 nconfigpull))] ++
                 L) STAT w d Htr) as H.
  rewrite <- !app_assoc in H. apply H. silent_tac.
Qed.

Lemma streamed_lines (tr : list event) :
  streamed rbf_data rbf_size debug tr -> lines_after debug 2 tr.
Proof.
  destruct 1 as [tr c Htr]. apply in_config_lines in Htr.
  apply lines_after_silent; [exact Htr|]. silent_tac.
Qed.

Lemma accepted_lines (tr : list event) :
  accepted rbf_data rbf_size debug tr -> lines_after debug 3 tr.
Proof.
  destruct 1 as [tr P v d Htr Hlen HF Hv]. apply streamed_lines in Htr.
  apply (lines_after_debug 2 _ (poll_events GPIO_EXT_PORTA P)
           GPIO_EXT_PORTA v d Htr).
  apply prints_poll_events.
Qed.

Lemma clocking_lines (tr : list event) :
  clocking rbf_data rbf_size debug tr -> lines_after debug 3 tr.
Proof.
  destruct 1 as [tr c d Htr]. apply accepted_lines in Htr.
  apply lines_after_silent; [exact Htr|].
  destruct (negb (d =? 0)); reflexivity.
Qed.

Lemma clocked_lines (tr : list event) :
  clocked rbf_data rbf_size debug tr -> lines_after debug 3 tr.
Proof.
  destruct 1 as [tr P v Htr Hlen HF Hv]. apply clocking_lines in Htr.
  apply lines_after_silent; [exact Htr|]. silent_tac.
Qed.

Lemma in_user_lines (tr : list event) :
  in_user rbf_data rbf_size debug tr -> lines_after debug 4 tr.
Proof.
  destruct 1 as [tr L w d Htr HL Hw]. apply clocked_lines in Htr.
  pose proof (lines_after_debug 3 _ ([EvWrite DCLKSTAT 1] ++ L) STAT w d Htr)
    as H.
  rewrite <- !app_assoc in H. apply H. silent_tac.
Qed.

Lemma lines_after_failure (n : nat) (tr l : list event) (ph : phase) :
  lines_after debug n tr -> prints l = [failure_message ph] ->
  exists m rest ds cause,
    tr ++ l = EvRead STAT m :: rest /\
    prints_after (None, None) (tr ++ l) =
      strap_note m ++ map state_note ds ++ [(cause, failure_message ph)] /\
    List.length ds = if debug then n else 0%nat.
Proof.
  intros (m & rest & ds & -> & Hp & Hn) Hl.
  destruct (prints_after_one
              (fold_left after (EvRead STAT m :: rest) (None, None)) _ _ Hl)
    as [cause Hc].
  exists m, (rest ++ l), ds, cause. split; [reflexivity|]. split; [|exact Hn].
  rewrite prints_after_app, Hp, Hc, <- app_assoc. reflexivity.
Qed.

(** The output of a run of any shape. *)
Lemma run_shape_prints (z : Z) (evs : list event) :
  run_shape rbf_data rbf_size debug z evs ->
  exists m rest ds,
    evs = EvRead STAT m :: rest /\
    ((z = EXIT_SUCCESS /\
      prints_after (None, None) evs = strap_note m ++ map state_note ds /\
      List.length ds = if debug then 4%nat else 0%nat) \/
     (z = EXIT_FAILURE /\ exists ph cause,
      prints_after (None, None) evs =
        strap_note m ++ map state_note ds ++ [(cause, failure_message ph)] /\
      List.length ds = if debug then debug_progress ph else 0%nat)).
Proof.
  assert (F : forall n tr l ph,
            lines_after debug n tr -> prints l = [failure_message ph] ->
            n = debug_progress ph ->
            exists m rest ds,
              tr ++ l = EvRead STAT m :: rest /\
              ((EXIT_FAILURE = EXIT_SUCCESS /\
                prints_after (None, None) (tr ++ l) =
                  strap_note m ++ map state_note ds /\
                List.length ds = if debug then 4%nat else 0%nat) \/
               (EXIT_FAILURE = EXIT_FAILURE /\ exists ph cause,
                prints_after (None, None) (tr ++ l) =
                  strap_note m ++ map state_note ds ++
                  [(cause, failure_message ph)] /\
                List.length ds = if debug then debug_progress ph else 0%nat))).
  { intros n tr l ph Htr Hl ->.
    destruct (lines_after_failure _ _ _ _ Htr Hl)
      as (m & rest & ds & cause & E & Hp & Hn).
    exists m, rest, ds. split; [exact E|]. right. split; [reflexivity|].
    exists ph, cause. auto. }
  destruct 1 as [m c1 c2 c3 c4 L w HL Hw | tr c L w Htr HL Hw
                | tr P v Htr Hlen HF Hv | tr P Htr Hlen HF
                | tr P Htr Hlen HF | tr L w Htr HL Hw | tr c Htr].
  - apply (F 0%nat _ _ PhReset); [| silent_tac | reflexivity].
    exists m, (tl (setup_events m c1 c2 c3 c4)), [].
    split; [reflexivity|]. split.
    + rewrite prints_after_setup, app_nil_r. reflexivity.
    + destruct debug; reflexivity.
  - apply (F 1%nat _ _ PhConfiguration);
      [apply in_reset_lines; exact Htr | silent_tac | reflexivity].
  - apply (F 2%nat _ _ PhDataAccept);
      [apply streamed_lines; exact Htr | silent_tac | reflexivity].
  - apply (F 2%nat _ _ PhDataAccept);
      [apply streamed_lines; exact Htr | silent_tac | reflexivity].
  - apply (F 3%nat _ _ PhInitialization);
      [apply clocking_lines; exact Htr | silent_tac | reflexivity].
  - apply (F 3%nat _ _ PhUser);
      [apply clocked_lines; exact Htr | silent_tac | reflexivity].
  - apply in_user_lines in Htr.
    apply (lines_after_silent 4 _
             [EvRead CTRL c; EvWrite CTRL (Z.land c (not32 en))]) in Htr;
      [|reflexivity].
    destruct Htr as (m & rest & ds & E & Hp & Hn).
    exists m, rest, ds. split; [exact E|]. left. auto.
Qed.

End Prints.

Lemma loadFPGA_opens {dev : Type} {HW : Hardware dev} (s : dev)
    (rbf_data : nat -> Z) (rbf_size : nat) (debug : bool) :
  exists rest,
    events (loadFPGA rbf_data rbf_size debug s) =
    EvRead STAT (u32 (fst (hw_read STAT s))) :: rest.
Proof.
  unfold loadFPGA, call, events, bind, check_msel, get_msel, bind, read32, ret.
  destruct (hw_read STAT s) as [v s1]. cbn [fst].
  destruct (if negb (Z.land (Z.shiftr (u32 v) 3) 31 =? 10)
            then fprintf stderr msel_warning else fun s0 => (Cont tt, s0, []))
    as [[[a|z] s2] l2] eqn:E2.
  all: try (destruct (configure rbf_data rbf_size debug s2)
              as [[[a'|z'] s3] l3]).
  all: eexists; reflexivity.
Qed.

(** X6: what a run prints, and on what.  [prints_after] lists the
    messages of the run in order, each with the two events that came just
    before it.  The output is: the strap warning on [stderr], printed
    straight after the first status sample [m], if and only if the MSEL
    field of [m] is not 0x0a; when debugging, one state line on [stdout]
    per wait that was passed, each printed straight after a status sample
    [d] that is read for this line alone - the event before that read is
    the register read [v] that ended the wait - and showing the label of
    the mode field of [d]; and, if and only if the run fails, the
    diagnostic of the failing phase as the last line.  Without [debug] a
    successful run on matching straps prints nothing.  The state line is
    the work of [debug_state]: from any device state it reads the status
    register once, there and then, and prints the label of that sample;
    without [debug] it does nothing. *)
Theorem loadFPGA_output {dev : Type} {HW : Hardware dev} (s : dev)
    (rbf_data : nat -> Z) (rbf_size : nat) (debug : bool) :
  let run := loadFPGA rbf_data rbf_size debug s in
  let m := u32 (fst (hw_read STAT s)) in
  let notes := prints_after (None, None) (events run) in
  prints (events run) = map snd notes /\
  (exists ds : list (reg * Z * Z),
     (value run = EXIT_SUCCESS /\
      notes = strap_note m ++ map state_note ds /\
      List.length ds = if debug then 4%nat else 0%nat) \/
     (value run = EXIT_FAILURE /\ exists ph cause,
      notes =
        strap_note m ++ map state_note ds ++ [(cause, failure_message ph)] /\
      List.length ds = if debug then debug_progress ph else 0%nat)) /\
  (forall s' : dev,
     let d := u32 (fst (hw_read STAT s')) in
     debug_state true s' =
       (Cont tt, snd (hw_read STAT s'),
        [EvRead STAT d; EvPrint (fst (state_line d)) (snd (state_line d))]) /\
     debug_state false s' = (Cont tt, s', [])).
Proof.
  intros run m notes.
  split; [symmetry; apply prints_after_prints|]. split.
  - pose proof (loadFPGA_run_shape rbf_data rbf_size debug s) as H.
    fold run in H.
    destruct (run_shape_prints _ _ _ _ _ H) as (m' & rest & ds & E & Hc).
    assert (Hm : m' = m).
    { destruct (loadFPGA_opens s rbf_data rbf_size debug) as [rest0 E0].
      unfold run in E. rewrite E0 in E. injection E as <- _. reflexivity. }
    subst m'. exists ds. exact Hc.
  - intro s'. split; [|reflexivity].
    unfold debug_state, print_state, get_state, printf, fprintf, bind, read32,
      ret.
    destruct (hw_read STAT s') as [v s1]. reflexivity.
Qed.

(** ** The fields of the status register *)

Lemma status_fields (hi m st : Z) :
  0 <= st < 8 -> 0 <= m < 32 ->
  mode_of (256 * hi + 8 * m + st) = st /\
  msel_of (256 * hi + 8 * m + st) = m.
Proof.
  intros Hst Hm. unfold mode_of, msel_of.
  rewrite Z.shiftr_0_r, Z.shiftr_div_pow2 by lia.
  change 7 with (Z.ones 3). change 31 with (Z.ones 5).
  rewrite !Z.land_ones by lia.
  change (2 ^ 3) with 8. change (2 ^ 5) with 32.
  assert (Hq : (256 * hi + 8 * m + st) / 8 = 32 * hi + m).
  { symmetry. apply (Z.div_unique _ 8 _ st); lia. }
  rewrite Hq. split.
  - symmetry. apply (Z.mod_unique _ 8 (32 * hi + m)); lia.
  - symmetry. apply (Z.mod_unique _ 32 hi); lia.
Qed.

(** X7: [get_state] and [get_msel] each take one sample of the status
    register and decode one field of it: for a sample made of a mode [st]
    in bits 2..0, a strap setting [m] in bits 7..3 and anything above,
    [get_state] yields [st] and [get_msel] yields [m], whatever the other
    fields hold. *)
Theorem status_fields_decode {dev : Type} {HW : Hardware dev} (s : dev)
    (hi m st : Z) :
  0 <= st < 8 -> 0 <= m < 32 ->
  u32 (fst (hw_read STAT s)) = 256 * hi + 8 * m + st ->
  get_state s =
    (Cont st, snd (hw_read STAT s), [EvRead STAT (256 * hi + 8 * m + st)]) /\
  get_msel s =
    (Cont m, snd (hw_read STAT s), [EvRead STAT (256 * hi + 8 * m + st)]).
Proof.
  intros Hst Hm Hv.
  destruct (status_fields hi m st Hst Hm) as [H1 H2].
  unfold mode_of in H1. unfold msel_of in H2.
  unfold get_state, get_msel, bind, read32, ret.
  destruct (hw_read STAT s) as [v s1]. cbn [fst snd] in *.
  rewrite Hv, H1, H2. split; reflexivity.
Qed.

(** Witness of X7: the first status sample of the good board, 0x50, holds
    the mode Off and the strap setting 0x0a. *)
Lemma status_fields_decode_witness :
  get_state good_board =
    (Cont 0, snd (hw_read STAT good_board), [EvRead STAT 0x50]) /\
  get_msel good_board =
    (Cont 0x0a, snd (hw_read STAT good_board), [EvRead STAT 0x50]).
Proof.
  apply (status_fields_decode good_board 0 0x0a 0); [lia|lia|reflexivity].
Defined.

(** ** The command-line program *)

Lemma scan_options_accepted (pre rest : list getopt_result) (d q : bool) :
  forallb option_accepted pre = true ->
  scan_options (pre ++ rest) d q =
  scan_options rest (d || asks_debug pre) (q || asks_quiet pre).
Proof.
  revert d q. induction pre as [|r pre IH]; intros d q H.
  - simpl. rewrite !orb_false_r. reflexivity.
  - simpl in H. apply andb_prop in H. destruct H as [Hr Hp].
    destruct r as [arg|index]; [discriminate Hr|].
    destruct index as [|p|p]; [discriminate Hr| |].
    + destruct p as [[p|p|]|[p|p|]|]; cbn [app scan_options];
        rewrite (IH _ _ Hp); unfold asks_debug, asks_quiet;
        cbn [existsb orb]; rewrite ?orb_true_r; reflexivity.
    + cbn [app scan_options]. rewrite (IH _ _ Hp). reflexivity.
Qed.

Lemma scan_options_all (results : list getopt_result) :
  forallb option_accepted results = true ->
  scan_options results false false =
  inr (asks_debug results, asks_quiet results).
Proof.
  intro H. rewrite <- (app_nil_r results) at 1.
  rewrite (scan_options_accepted _ _ _ _ H). reflexivity.
Qed.

Lemma scan_options_stop (r : getopt_result) (post : list getopt_result)
    (d q : bool) :
  option_accepted r = false ->
  scan_options (r :: post) d q =
  inl match r with
      | Unrecognized arg =>
          [EvPrint stdout (unrecognized_option arg); EvPrint stdout usage]
      | Recognized _ => [EvPrint stdout usage]
      end.
Proof.
  destruct r as [arg|index]; [reflexivity|].
  simpl. intro H. apply negb_false_iff, Z.eqb_eq in H. subst index.
  reflexivity.
Qed.

Lemma scan_options_refused (results : list getopt_result) :
  forallb option_accepted results = false ->
  exists pre r post,
    results = pre ++ r :: post /\
    forallb option_accepted pre = true /\ option_accepted r = false.
Proof.
  induction results as [|r results IH]; [discriminate|].
  simpl. intro H. destruct (option_accepted r) eqn:Hr.
  - destruct (IH H) as (pre & r' & post & -> & Hp & Hr').
    exists (r :: pre), r', post. simpl. rewrite Hr. auto.
  - exists [], r, results. auto.
Qed.

Lemma land_3_mod (x : Z) : Z.land x 0x03 = x mod 4.
Proof. change 3 with (Z.ones 2). rewrite Z.land_ones by lia. reflexivity. Qed.

Lemma u32_land_3 (x : Z) : Z.land (u32 x) 0x03 = x mod 4.
Proof.
  unfold u32. rewrite <- Z.land_assoc.
  change (Z.land 4294967295 3) with 3. apply land_3_mod.
Qed.

Section MainProgram.
Context {dev : Type} {HW : Hardware dev}.

(** The run of [loadFPGA] that [main] starts for a file holding [bytes]. *)
Local Abbreviation loader env bytes :=
  (loadFPGA (buffer_words env bytes)
            (Z.to_nat (fread bytes (8 * 1024 * 1024) / 4))
            (asks_debug (getopt_long env))).

Lemma main_stops (env : environment) (s : dev)
    (pre post : list getopt_result) (r : getopt_result) :
  getopt_long env = pre ++ r :: post ->
  forallb option_accepted pre = true ->
  option_accepted r = false ->
  main env s =
  Some (1, s,
        match r with
        | Unrecognized arg =>
            [EvPrint stdout (unrecognized_option arg); EvPrint stdout usage]
        | Recognized _ => [EvPrint stdout usage]
        end).
Proof.
  intros E Hp Hr. unfold main.
  rewrite E, (scan_options_accepted _ _ _ _ Hp), (scan_options_stop _ _ _ _ Hr).
  reflexivity.
Qed.

Lemma main_loads (env : environment) (s : dev) (name : string)
    (bytes : list Z) :
  forallb option_accepted (getopt_long env) = true ->
  operand env = Some name ->
  fopen env name = Some bytes ->
  malloc env <> 0 ->
  malloc env mod 4 = 0 ->
  0 < fread bytes (8 * 1024 * 1024) ->
  fread bytes (8 * 1024 * 1024) mod 4 = 0 ->
  let run := loader env bytes s in
  let quiet := asks_quiet (getopt_long env) in
  main env s =
  Some (value run, final run,
        (if quiet then []
         else [EvPrint stdout (file_read name (fread bytes (8 * 1024 * 1024)))]) ++
        events run ++
        (if quiet then []
         else if value run =? EXIT_SUCCESS then [EvPrint stdout programmed]
              else [])).
Proof.
  intros Ha Ho Hf Hm Hal Hpos Hlen run quiet. unfold main.
  rewrite (scan_options_all _ Ha), Ho, Hf.
  destruct (Z.eqb_spec (malloc env) 0) as [E|_]; [contradiction|].
  cbv zeta.
  destruct (Z.eqb_spec (fread bytes (8 * 1024 * 1024)) 0) as [E|_]; [lia|].
  rewrite u32_land_3, land_3_mod, Hal, Hlen. cbn [Z.eqb negb].
  fold quiet. fold run. destruct quiet; reflexivity.
Qed.

(** Every run of [main]: stopped before the device is touched, or a run of
    [loadFPGA] between the two messages of [main]. *)
Lemma main_cases (env : environment) (s : dev) (r : Z * dev * list event) :
  main env s = Some r ->
  (value r = 1 /\ final r = s /\ accesses (events r) = 0%nat) \/
  (exists name bytes,
     forallb option_accepted (getopt_long env) = true /\
     operand env = Some name /\
     fopen env name = Some bytes /\
     malloc env <> 0 /\
     malloc env mod 4 = 0 /\
     0 < fread bytes (8 * 1024 * 1024) /\
     fread bytes (8 * 1024 * 1024) mod 4 = 0).
Proof.
  intro H.
  destruct (forallb option_accepted (getopt_long env)) eqn:Ha.
  - unfold main in H. rewrite (scan_options_all _ Ha) in H.
    destruct (operand env) as [name|] eqn:Ho;
      [|injection H as <-; left; auto].
    destruct (fopen env name) as [bytes|] eqn:Hf;
      [|injection H as <-; left; auto].
    destruct (Z.eqb_spec (malloc env) 0) as [E|Hm]; [discriminate H|].
    cbv zeta in H.
    destruct (Z.eqb_spec (fread bytes (8 * 1024 * 1024)) 0) as [E|Hz];
      [injection H as <-; left; auto|].
    rewrite u32_land_3, land_3_mod in H.
    destruct (Z.eqb_spec (malloc env mod 4) 0) as [Hal|_]; cbn [negb] in H.
    2:{ injection H as <-. left.
        destruct (negb (asks_quiet (getopt_long env))); auto. }
    destruct (Z.eqb_spec (fread bytes (8 * 1024 * 1024) mod 4) 0) as [Hl|_];
      cbn [negb] in H.
    2:{ injection H as <-. left.
        destruct (negb (asks_quiet (getopt_long env))); auto. }
    right. exists name, bytes. repeat split; auto.
    unfold fread in *.
    assert (0 <= Z.of_nat (List.length bytes)) by lia. lia.
  - destruct (scan_options_refused _ Ha) as (pre & x & post & E & Hp & Hx).
    rewrite (main_stops env s pre post x E Hp Hx) in H.
    injection H as <-. left. destruct x; auto.
Qed.

End MainProgram.

Lemma accesses_loadFPGA {dev : Type} {HW : Hardware dev} (s : dev)
    (rbf_data : nat -> Z) (rbf_size : nat) (debug : bool) :
  accesses (events (loadFPGA rbf_data rbf_size debug s)) <> 0%nat.
Proof.
  destruct (loadFPGA_opens s rbf_data rbf_size debug) as [rest ->].
  discriminate.
Qed.

(** X8: [main] touches the FPGA only for a sound command line and file.
    A run without register access exits with status 1 and leaves the
    device as it was; a run with a register access had every option
    accepted (none unrecognized, no [--help]), a file name, a file that
    opens and gives at least one byte and, after the cut at 8 MiB, a whole
    number of 32-bit words, and a word-aligned buffer. *)
Theorem main_guards_device {dev : Type} {HW : Hardware dev}
    (env : environment) (s : dev) (r : Z * dev * list event) :
  main env s = Some r ->
  (accesses (events r) = 0%nat -> value r = 1 /\ final r = s) /\
  (accesses (events r) <> 0%nat ->
   forallb option_accepted (getopt_long env) = true /\
   exists name bytes,
     operand env = Some name /\
     fopen env name = Some bytes /\
     0 < fread bytes (8 * 1024 * 1024) /\
     fread bytes (8 * 1024 * 1024) mod 4 = 0 /\
     malloc env mod 4 = 0).
Proof.
  intro H.
  destruct (main_cases env s r H)
    as [(Hv & Hf & Ha) | (name & bytes & Ha & Ho & Hf & Hm & Hal & Hpos & Hlen)].
  - split; [auto|]. intro Hn. contradiction.
  - split.
    + intro H0. exfalso.
      rewrite (main_loads env s name bytes Ha Ho Hf Hm Hal Hpos Hlen) in H.
      injection H as <-. unfold events at 1 in H0. cbn [snd] in H0.
      rewrite !accesses_app in H0.
      pose proof (accesses_loadFPGA s (buffer_words env bytes)
                    (Z.to_nat (fread bytes (8 * 1024 * 1024) / 4))
                    (asks_debug (getopt_long env))) as Hn.
      apply Nat.eq_add_0 in H0. destruct H0 as [_ H0].
      apply Nat.eq_add_0 in H0. destruct H0 as [H0 _].
      exact (Hn H0).
    + intros _. split; [exact Ha|]. exists name, bytes. auto.
Qed.

(** Witness of X8. *)
Lemma main_guards_device_witness :
  exists r, main demo_env good_board = Some r /\
  forallb option_accepted (getopt_long demo_env) = true.
Proof.
  destruct (main demo_env good_board) as [r|] eqn:E;
    [|vm_compute in E; discriminate E].
  exists r. split; [reflexivity|].
  destruct (main_guards_device demo_env good_board r E) as [_ H].
  apply H. vm_compute in E. injection E as <-. vm_compute. discriminate.
Defined.

(** X9: for a sound command line and file [main] is a run of [loadFPGA]
    on the words of the file: the image is the buffer filled by [fread],
    its size the byte count divided by four, [debug] is set if [--debug]
    occurs among the options; the exit status and the final device state
    are those of [loadFPGA].  Unless [--q] or [--quiet] occurs, the events
    of the run are preceded by the message on the file and, if [loadFPGA]
    succeeds, followed by the closing message; with it they are the events
    of [loadFPGA] alone, whose own output is not suppressed. *)
Theorem main_runs_loader {dev : Type} {HW : Hardware dev}
    (env : environment) (s : dev) (name : string) (bytes : list Z) :
  forallb option_accepted (getopt_long env) = true ->
  operand env = Some name ->
  fopen env name = Some bytes ->
  malloc env <> 0 ->
  malloc env mod 4 = 0 ->
  0 < fread bytes (8 * 1024 * 1024) ->
  fread bytes (8 * 1024 * 1024) mod 4 = 0 ->
  let run := loadFPGA (buffer_words env bytes)
                      (Z.to_nat (fread bytes (8 * 1024 * 1024) / 4))
                      (asks_debug (getopt_long env)) s in
  let quiet := asks_quiet (getopt_long env) in
  main env s =
  Some (value run, final run,
        (if quiet then []
         else [EvPrint stdout (file_read name (fread bytes (8 * 1024 * 1024)))]) ++
        events run ++
        (if quiet then []
         else if value run =? EXIT_SUCCESS then [EvPrint stdout programmed]
              else [])).
Proof.
  intros Ha Ho Hf Hm Hal Hpos Hlen run quiet. unfold main.
  rewrite (scan_options_all _ Ha), Ho, Hf.
  destruct (Z.eqb_spec (malloc env) 0) as [E|_]; [contradiction|].
  cbv zeta.
  destruct (Z.eqb_spec (fread bytes (8 * 1024 * 1024)) 0) as [E|_]; [lia|].
  rewrite u32_land_3, land_3_mod, Hal, Hlen. cbn [Z.eqb negb].
  fold quiet. fold run. destruct quiet; reflexivity.
Qed.

(** Witness of X9. *)
Lemma main_runs_loader_witness :
  let run := loadFPGA (buffer_words demo_env
                         [0x0a; 0; 0; 0; 0x14; 0; 0; 0; 0x1e; 0; 0; 0])
                      3 false good_board in
  main demo_env good_board =
  Some (value run, final run,
        [EvPrint stdout (file_read "ks10.rbf" 12)] ++ events run ++
        [EvPrint stdout programmed]).
Proof.
  intro run.
  assert (Hm : malloc demo_env <> 0) by discriminate.
  rewrite (main_runs_loader demo_env good_board "ks10.rbf"
             [0x0a; 0; 0; 0; 0x14; 0; 0; 0; 0x1e; 0; 0; 0]
             eq_refl eq_refl eq_refl Hm eq_refl eq_refl eq_refl).
  vm_compute. reflexivity.
Defined.

(** X10: [main] exits with status 0 only after a complete configuration
    with the file: the words written to the data port are, in order, the
    words of the first [fread] bytes of the file (at most 2097152 words,
    whatever the length of the file), and the hardware has answered with
    the handshake of a successful configuration. *)
Theorem main_success {dev : Type} {HW : Hardware dev}
    (env : environment) (s : dev) (r : Z * dev * list event) :
  main env s = Some r ->
  value r = EXIT_SUCCESS ->
  exists name bytes,
    operand env = Some name /\
    fopen env name = Some bytes /\
    let n := Z.to_nat (fread bytes (8 * 1024 * 1024) / 4) in
    Z.of_nat n <= 2097152 /\
    data_writes (events r) = map (buffer_words env bytes) (seq 0 n) /\
    seen handshake (events r).
Proof.
  intros H Hz.
  destruct (main_cases env s r H)
    as [(Hv & _) | (name & bytes & Ha & Ho & Hf & Hm & Hal & Hpos & Hlen)].
  { rewrite Hz in Hv. discriminate Hv. }
  exists name, bytes. split; [exact Ho|]. split; [exact Hf|].
  intro n. split.
  { unfold n. rewrite Z2Nat.id by (apply Z.div_pos; lia).
    apply Z.div_le_upper_bound; [lia|]. unfold fread. lia. }
  rewrite (main_loads env s name bytes Ha Ho Hf Hm Hal Hpos Hlen) in H.
  fold n in H. injection H as <-.
  unfold value in Hz. cbn [fst] in Hz. unfold events at 1 3. cbn [snd].
  set (run := loadFPGA (buffer_words env bytes) n
                (asks_debug (getopt_long env)) s) in *.
  pose proof (loadFPGA_run_shape (buffer_words env bytes) n
                (asks_debug (getopt_long env)) s) as Hs.
  fold run in Hs. change (fst (fst run)) with (value run) in Hz.
  rewrite Hz in Hs. split.
  - rewrite !data_writes_app.
    destruct (run_shape_observed _ _ _ _ _ Hs)
      as [[_ Hst] | (Hz' & _)]; [|discriminate Hz'].
    destruct (streamed_trace_observed _ _ _ Hst) as (A & _).
    rewrite A, Hz.
    destruct (asks_quiet (getopt_long env)); cbn [data_writes app Z.eqb];
      rewrite app_nil_r; reflexivity.
  - apply seen_skip_app, seen_more.
    inversion Hs as [ | | | | | | tr c Htr Ez Eevs].
    apply seen_more. exact (in_user_seen _ _ _ _ Htr).
Qed.

(** Witness of X10. *)
Lemma main_success_witness :
  exists r, main demo_env good_board = Some r /\
  data_writes (events r) = [0x0a; 0x14; 0x1e].
Proof.
  destruct (main demo_env good_board) as [r|] eqn:E;
    [|vm_compute in E; discriminate E].
  exists r. split; [reflexivity|].
  destruct (main_success demo_env good_board r E)
    as (name & bytes & Ho & Hf & _ & W & _).
  - vm_compute in E. injection E as <-. reflexivity.
  - injection Ho as <-. injection Hf as <-. rewrite W. reflexivity.
Defined.

(** X11: the option scan stops at the first argument that is not
    accepted.  An unrecognized option prints a complaint and the usage
    text; [--help] prints the usage text.  In both cases [main] exits with
    status 1 - for [--help] too - without looking at the remaining
    arguments or at the file, and without any access to the device. *)
Theorem main_stops_at_refused_option {dev : Type} {HW : Hardware dev}
    (env : environment) (s : dev)
    (pre post : list getopt_result) (r : getopt_result) :
  getopt_long env = pre ++ r :: post ->
  forallb option_accepted pre = true ->
  option_accepted r = false ->
  main env s =
  Some (1, s,
        match r with
        | Unrecognized arg =>
            [EvPrint stdout (unrecognized_option arg); EvPrint stdout usage]
        | Recognized _ => [EvPrint stdout usage]
        end).
Proof.
  intros E Hp Hr. unfold main.
  rewrite E, (scan_options_accepted _ _ _ _ Hp).
  destruct r as [arg|index]; [reflexivity|].
  simpl in Hr. apply negb_false_iff, Z.eqb_eq in Hr. subst index.
  reflexivity.
Qed.

(** Witness of X11: [--debug --help ks10.rbf]. *)
Lemma main_stops_at_refused_option_witness :
  main help_env good_board = Some (1, good_board, [EvPrint stdout usage]).
Proof.
  apply (main_stops_at_refused_option help_env good_board
           [Recognized 1] [] (Recognized 0)); reflexivity.
Defined.

(** ** The order of the writes *)

Lemma written_stream_events (rbf_data : nat -> Z) (n i : nat) :
  written (stream_events rbf_data n i) = repeat FPGAMGR_DATA n.
Proof.
  revert i. induction n as [|n IH]; intro i; [reflexivity|].
  unfold stream_events in *. simpl. rewrite IH. reflexivity.
Qed.

Lemma written_debug_events (debug : bool) (d : Z) :
  written (debug_events debug d) = [].
Proof. destruct debug; reflexivity. Qed.

Lemma firstn_write_plan (n k : nat) (stale : bool) :
  firstn (8 + n + k)%nat (write_plan n stale) =
  [SYSMGR_MODULE; CTRL; CTRL; CTRL; CTRL; CTRL; GPIO_PORTA_EOI; CTRL] ++
  repeat FPGAMGR_DATA n ++
  firstn k ([CTRL] ++ (if stale then [DCLKSTAT] else []) ++
            [DCLKCNT; DCLKSTAT; CTRL]).
Proof.
  unfold write_plan.
  change (8 + n + k)%nat
    with (List.length [SYSMGR_MODULE; CTRL; CTRL; CTRL; CTRL; CTRL;
                       GPIO_PORTA_EOI; CTRL] + (n + k))%nat.
  rewrite firstn_app_2.
  rewrite <- (repeat_length FPGAMGR_DATA n) at 1.
  rewrite firstn_app_2. reflexivity.
Qed.

Ltac written_tac :=
  rewrite ?written_app;
  repeat match goal with
         | H : state_poll _ _ ?L |- context [written ?L] =>
             rewrite (written_state_poll _ _ _ H)
         end;
  rewrite ?written_poll_events, ?written_stream_events, ?written_debug_events,
    ?written_setup_events.

Lemma dclk_unread_app (l1 l2 : list event) :
  dclk_unread l1 -> dclk_unread l2 -> dclk_unread (l1 ++ l2).
Proof.
  unfold dclk_unread. intros H1 H2. rewrite forallb_app, H1, H2. reflexivity.
Qed.

Lemma stale_found_unread (l1 l2 : list event) :
  dclk_unread l1 -> stale_found (l1 ++ l2) = stale_found l2.
Proof.
  unfold dclk_unread. induction l1 as [|e l1 IH]; [reflexivity|].
  simpl. intro H. apply andb_prop in H. destruct H as [He Hl].
  destruct e as [r v|r v|i|us|f msg]; auto.
  destruct r; try discriminate He; auto.
Qed.

Lemma dclk_unread_poll_events (r : reg) (P : list Z) :
  r <> DCLKSTAT -> dclk_unread (poll_events r P).
Proof.
  intro Hr. induction P as [|v P IH]; [reflexivity|].
  unfold dclk_unread, poll_events in *. simpl. rewrite IH.
  destruct r; try reflexivity. congruence.
Qed.

Lemma dclk_unread_state_poll (target : Z) (n : nat) (L : list event) :
  state_poll target n L -> dclk_unread L.
Proof.
  destruct 1.
  - apply dclk_unread_poll_events. discriminate.
  - apply dclk_unread_app;
      [apply dclk_unread_poll_events; discriminate|reflexivity].
Qed.

Lemma dclk_unread_debug_events (debug : bool) (d : Z) :
  dclk_unread (debug_events debug d).
Proof. destruct debug; reflexivity. Qed.

Lemma dclk_unread_setup_events (m c1 c2 c3 c4 : Z) :
  dclk_unread (setup_events m c1 c2 c3 c4).
Proof.
  unfold setup_events. destruct (negb (msel_of m =? 10)); reflexivity.
Qed.

Lemma dclk_unread_stream_events (rbf_data : nat -> Z) (n i : nat) :
  dclk_unread (stream_events rbf_data n i).
Proof.
  revert i. induction n as [|n IH]; intro i; [reflexivity|].
  unfold dclk_unread, stream_events in *. simpl. apply IH.
Qed.

Ltac dclk_unread_piece :=
  first [ assumption
        | (apply dclk_unread_poll_events; discriminate)
        | apply dclk_unread_debug_events
        | apply dclk_unread_setup_events
        | apply dclk_unread_stream_events
        | (eapply dclk_unread_state_poll; eassumption)
        | reflexivity ].

Ltac dclk_unread_tac :=
  first [ dclk_unread_piece | (apply dclk_unread_app; dclk_unread_tac) ].

Section WriteOrder.
Variables (rbf_data : nat -> Z) (rbf_size : nat) (debug : bool).

Lemma in_reset_written (tr : list event) :
  in_reset debug tr ->
  dclk_unread tr /\ written tr = firstn 5 (write_plan rbf_size false).
Proof.
  destruct 1. split; [dclk_unread_tac|]. written_tac. reflexivity.
Qed.

Lemma in_config_written (tr : list event) :
  in_config debug tr ->
  dclk_unread tr /\ written tr = firstn 6 (write_plan rbf_size false).
Proof.
  destruct 1 as [tr c L w d Htr HL Hw].
  apply in_reset_written in Htr. destruct Htr as [Hu Htr].
  split; [dclk_unread_tac|]. written_tac. rewrite Htr. reflexivity.
Qed.

Lemma streamed_written (tr : list event) :
  streamed rbf_data rbf_size debug tr ->
  dclk_unread tr /\
  written tr =
  [SYSMGR_MODULE; CTRL; CTRL; CTRL; CTRL; CTRL; GPIO_PORTA_EOI; CTRL] ++
  repeat FPGAMGR_DATA rbf_size.
Proof.
  destruct 1 as [tr c Htr].
  apply in_config_written in Htr. destruct Htr as [Hu Htr].
  split; [dclk_unread_tac|]. written_tac. rewrite Htr. reflexivity.
Qed.

Lemma accepted_written (tr : list event) :
  accepted rbf_data rbf_size debug tr ->
  dclk_unread tr /\
  written tr =
  [SYSMGR_MODULE; CTRL; CTRL; CTRL; CTRL; CTRL; GPIO_PORTA_EOI; CTRL] ++
  repeat FPGAMGR_DATA rbf_size.
Proof.
  destruct 1 as [tr P v d Htr Hlen HF Hv].
  apply streamed_written in Htr. destruct Htr as [Hu Htr].
  split; [dclk_unread_tac|].
  written_tac. rewrite Htr. cbn [written]. rewrite !app_nil_r. reflexivity.
Qed.

(** From step 13a on the flag is settled: it is the test of step 13a on
    the sample it read, whatever follows. *)
Lemma clocking_written (tr : list event) :
  clocking rbf_data rbf_size debug tr ->
  exists stale : bool,
    (forall l, stale_found (tr ++ l) = stale) /\
    written tr =
    firstn (8 + rbf_size + if stale then 3 else 2)%nat
           (write_plan rbf_size stale).
Proof.
  destruct 1 as [tr c d Htr].
  apply accepted_written in Htr. destruct Htr as [Hu Htr].
  exists (negb (d =? 0)). split.
  - intro l. rewrite <- app_assoc, (stale_found_unread _ _ Hu). reflexivity.
  - rewrite firstn_write_plan. written_tac. rewrite Htr.
    destruct (negb (d =? 0)); cbn [written app firstn];
      rewrite <- ?app_assoc; reflexivity.
Qed.

Lemma clocked_written (tr : list event) :
  clocked rbf_data rbf_size debug tr ->
  exists stale : bool,
    (forall l, stale_found (tr ++ l) = stale) /\
    written tr =
    firstn (8 + rbf_size + if stale then 3 else 2)%nat
           (write_plan rbf_size stale).
Proof.
  destruct 1 as [tr P v Htr Hlen HF Hv].
  destruct (clocking_written _ Htr) as (stale & Hs & E). exists stale. split.
  - intro l. rewrite <- app_assoc. apply Hs.
  - written_tac. rewrite E. cbn [written]. rewrite !app_nil_r. reflexivity.
Qed.

Lemma in_user_written (tr : list event) :
  in_user rbf_data rbf_size debug tr ->
  exists stale : bool,
    (forall l, stale_found (tr ++ l) = stale) /\
    written tr =
    firstn (8 + rbf_size + if stale then 4 else 3)%nat
           (write_plan rbf_size stale).
Proof.
  destruct 1 as [tr L w d Htr HL Hw].
  destruct (clocked_written _ Htr) as (stale & Hs & E). exists stale. split.
  - intro l. rewrite <- app_assoc. apply Hs.
  - written_tac. rewrite E, !firstn_write_plan.
    destruct stale; cbn [written app firstn];
      rewrite <- ?app_assoc; reflexivity.
Qed.

(** The writes of a run of any shape. *)
Lemma run_shape_written (z : Z) (evs : list event) :
  run_shape rbf_data rbf_size debug z evs ->
  (z = EXIT_SUCCESS /\ written evs = write_plan rbf_size (stale_found evs)) \/
  (z = EXIT_FAILURE /\ exists ph tr,
     evs = tr ++ [failure_event ph] /\
     written evs =
     firstn (write_progress rbf_size (stale_found evs) ph)
            (write_plan rbf_size (stale_found evs))).
Proof.
  assert (U : forall l, dclk_unread l -> stale_found l = false).
  { intros l Hl. rewrite <- (app_nil_r l), (stale_found_unread _ _ Hl).
    reflexivity. }
  destruct 1 as [m c1 c2 c3 c4 L w HL Hw | tr c L w Htr HL Hw
                | tr P v Htr Hlen HF Hv | tr P Htr Hlen HF
                | tr P Htr Hlen HF | tr L w Htr HL Hw | tr c Htr].
  - right. split; [reflexivity|].
    exists PhReset, (setup_events m c1 c2 c3 c4 ++ L ++ [EvRead STAT w]).
    split; [rewrite <- !app_assoc; reflexivity|].
    rewrite U by dclk_unread_tac.
    written_tac. reflexivity.
  - right. split; [reflexivity|].
    exists PhConfiguration,
      (tr ++ [EvRead CTRL c; EvWrite CTRL (Z.land c (not32 nconfigpull))] ++
       L ++ [EvRead STAT w]).
    split; [rewrite <- !app_assoc; reflexivity|].
    apply in_reset_written in Htr. destruct Htr as [Hu Htr].
    rewrite U by dclk_unread_tac.
    written_tac. rewrite Htr. reflexivity.
  - right. split; [reflexivity|].
    exists PhDataAccept,
      (tr ++ poll_events GPIO_EXT_PORTA P ++ [EvRead GPIO_EXT_PORTA v]).
    split; [rewrite <- !app_assoc; reflexivity|].
    apply streamed_written in Htr. destruct Htr as [Hu Htr].
    rewrite U by dclk_unread_tac.
    written_tac. rewrite Htr.
    cbn [written write_progress]. rewrite !app_nil_r.
    rewrite <- (Nat.add_0_r (8 + rbf_size)), firstn_write_plan.
    cbn [firstn]. rewrite app_nil_r. reflexivity.
  - right. split; [reflexivity|].
    exists PhDataAccept, (tr ++ poll_events GPIO_EXT_PORTA P).
    split; [rewrite <- !app_assoc; reflexivity|].
    apply streamed_written in Htr. destruct Htr as [Hu Htr].
    rewrite U by dclk_unread_tac.
    written_tac. rewrite Htr.
    cbn [written write_progress]. rewrite !app_nil_r.
    rewrite <- (Nat.add_0_r (8 + rbf_size)), firstn_write_plan.
    cbn [firstn]. rewrite app_nil_r. reflexivity.
  - destruct (clocking_written _ Htr) as (stale & Hs & E).
    right. split; [reflexivity|].
    exists PhInitialization, (tr ++ poll_events DCLKSTAT P).
    split; [rewrite <- !app_assoc; reflexivity|].
    rewrite Hs.
    written_tac. rewrite E. cbn [written]. rewrite !app_nil_r. reflexivity.
  - destruct (clocked_written _ Htr) as (stale & Hs & E).
    right. split; [reflexivity|].
    exists PhUser, (tr ++ [EvWrite DCLKSTAT 1] ++ L ++ [EvRead STAT w]).
    split; [rewrite <- !app_assoc; reflexivity|].
    rewrite Hs.
    written_tac. rewrite E. cbn [write_progress]. rewrite !firstn_write_plan.
    destruct stale; cbn [written app firstn];
      rewrite <- ?app_assoc; reflexivity.
  - destruct (in_user_written _ Htr) as (stale & Hs & E).
    left. split; [reflexivity|].
    rewrite Hs.
    written_tac. rewrite E, firstn_write_plan. unfold write_plan.
    destruct stale; cbn [written app firstn];
      rewrite <- ?app_assoc; reflexivity.
Qed.

End WriteOrder.

(** X12: the order of the writes is fixed.  Let [stale] tell whether the
    first sample of the DCLK status register in the run - the one step 13a
    reads - is non-zero ([false] if the run never reads the register).  A
    successful run writes, in this order and nothing else: the module
    register, the control register five times (steps 1, 2, 3, 4, 6), the
    end-of-interrupt register, the control register (step 9), the data
    port once per image word, the control register (step 12), the DCLK
    status register if and only if [stale], the DCLK count register, the
    DCLK status register and the control register (step 17).  A failing
    run has written an initial part of this sequence, whose length is
    fixed by the phase it fails in: a Reset failure comes after 5 writes, a
    Configuration failure after 6, a data-accept failure right after the
    last image word, and the last write of the sequence is never made. *)
Theorem writes_follow_plan {dev : Type} {HW : Hardware dev} (s : dev)
    (rbf_data : nat -> Z) (rbf_size : nat) (debug : bool) :
  let run := loadFPGA rbf_data rbf_size debug s in
  let stale := stale_found (events run) in
  (value run = EXIT_SUCCESS /\
   written (events run) = write_plan rbf_size stale) \/
  (value run = EXIT_FAILURE /\ exists ph,
     failures (events run) = [ph] /\
     written (events run) =
     firstn (write_progress rbf_size stale ph) (write_plan rbf_size stale) /\
     (write_progress rbf_size stale ph <
      List.length (write_plan rbf_size stale))%nat).
Proof.
  intros run stale.
  pose proof (loadFPGA_run_shape rbf_data rbf_size debug s) as H. fold run in H.
  destruct (run_shape_written _ _ _ _ _ H)
    as [(Hz & W) | (Hz & ph & tr & E & W)].
  - left. auto.
  - right. split; [exact Hz|]. exists ph. split; [|split; [exact W|]].
    + destruct (run_shape_observed _ _ _ _ _ H)
        as [[Hz' _] | (_ & ph' & tr' & E' & Hq)].
      { rewrite Hz in Hz'. discriminate Hz'. }
      assert (Hph : ph = ph').
      { rewrite E in E'. apply app_inj_tail in E'. destruct E' as [_ E'].
        apply failure_event_inj. exact E'. }
      subst ph'. rewrite E', failures_app, failures_failure_event.
      assert (Hf : failures tr' = []).
      { destruct (phase_streams ph).
        - apply (streamed_trace_observed _ _ _ Hq).
        - apply (quiet_observed _ Hq). }
      rewrite Hf. reflexivity.
    + unfold write_plan. rewrite !length_app, repeat_length.
      destruct ph, stale; cbn [write_progress List.length]; lia.
Qed.
